(** * nenupy.io.tf: the time-frequency reader of NenuFAR spectra files

    A shallow embedding of [nenupy/io/tf.py]: the block headers, the
    validity mask, the processing configuration with its validating
    setters, the opening of a file, the selection of data, the masking
    of the edge channels and the rebinning in time and frequency.

    Conventions of the embedding.
    - Fixed-width integers (the [int32] and [uint64] header fields, numpy
      [int32] scalars) are [Z] with the wrap-around written out.
    - Floating-point numbers are exact rationals ([Q]); a float that may
      be the missing-value marker is an [fval].  Rounding errors of
      float64 are outside the model.
    - An [astropy] [Quantity] is a value with its unit; the arithmetic
      on quantities keeps the units as astropy does, so a ratio is
      floored in the unit it is given in.
    - Python exceptions and the [logging] calls are the effects:
      a computation is a function from a state to a final state, the
      records logged and either a value or the exception raised.
    - The functions of [nenupy.io.tf_utils] and the part of astropy the
      module relies on are not in the source tree; they are the fields
      of the classes [TfUtils] and [AstropyTime]. *)

From Stdlib Require Import ZArith QArith Qround Lia Ascii DecimalString.
From stdpp Require Import base option list strings.

#[local] Open Scope Z_scope.

(** ** Numbers *)

(** [SUBBAND_WIDTH = 195312.5 * u.Hz] *)
Definition SUBBAND_WIDTH : Q := 390625 # 2.

(** Signed two's complement wrap-around on [w] bits. *)
Definition wrap (w x : Z) : Z := (x + 2 ^ (w - 1)) mod 2 ^ w - 2 ^ (w - 1).

Definition int32 (x : Z) : Z := wrap 32 x.

Definition in_int32 (x : Z) : Prop := - 2 ^ 31 <= x < 2 ^ 31.

Definition in_uint64 (x : Z) : Prop := 0 <= x < 2 ^ 64.

(** A float64 of a data array: a number or NaN. *)
Inductive fval : Type :=
  | Val (q : Q)
  | NaN.

Definition is_nan (v : fval) : bool :=
  match v with NaN => true | Val _ => false end.

(** Numerical identity of two floats: the same rational, or both NaN. *)
Definition feq (a b : fval) : Prop :=
  match a, b with
  | Val p, Val q => (p == q)%Q
  | NaN, NaN => True
  | _, _ => False
  end.

(** [np.round]: to the nearest integer, ties to the even one. *)
Definition np_round (x : Q) : Z :=
  let f := Qfloor x in
  let r := (x - inject_Z f)%Q in
  match (r ?= 1 # 2)%Q with
  | Lt => f
  | Gt => f + 1
  | Eq => if Z.even f then f else f + 1
  end.

(** [np.argmin] of a non-empty array: the first index of the least
    element.  [argmin_from i best besti xs] scans [xs], whose first
    element has index [i]. *)
Fixpoint argmin_from (i : Z) (best : Z) (besti : Z) (xs : list Z) : Z :=
  match xs with
  | [] => besti
  | x :: xs' =>
      if x <? best then argmin_from (i + 1) x i xs'
      else argmin_from (i + 1) best besti xs'
  end.

(** ** Python sequences *)

(** The index a slice bound [i] denotes on a sequence of length [len]:
    negative bounds count from the end, and bounds are clipped. *)
Definition slice_index (len i : Z) : Z :=
  if i <? 0 then Z.max 0 (i + len) else Z.min i len.

Definition slice_bounds (len : Z) (start stop : option Z) : Z * Z :=
  (from_option (slice_index len) 0 start,
   from_option (slice_index len) len stop).

(** [xs[start:stop]]; [None] is an omitted bound. *)
Definition py_slice {A} (start stop : option Z) (xs : list A) : list A :=
  let '(a, b) := slice_bounds (Z.of_nat (length xs)) start stop in
  take (Z.to_nat (b - a)) (drop (Z.to_nat a) xs).

(** [xs[start:stop] = v] with a scalar [v] broadcast over the slice. *)
Definition py_slice_fill {A} (start stop : option Z) (v : A) (xs : list A)
  : list A :=
  let '(a, b) := slice_bounds (Z.of_nat (length xs)) start stop in
  imap (λ i x, if bool_decide (a <= Z.of_nat i < b) then v else x) xs.

(** [xs] cut into [rows] consecutive pieces of [k] elements. *)
Fixpoint chunks {A} (rows k : nat) (xs : list A) : list (list A) :=
  match rows with
  | O => []
  | S r => take k xs :: chunks r k (drop k xs)
  end.

(** A [dict] with string keys: the items in the order of insertion. *)
Definition dict (V : Type) : Type := list (string * V).

(** [d[k]], if the key is there. *)
Fixpoint dict_get {V} (k : string) (d : dict V) : option V :=
  match d with
  | [] => None
  | (k', v) :: d' => if String.eqb k' k then Some v else dict_get k d'
  end.

(** [d[k] = v]: a new key goes last, a known key keeps its place. *)
Fixpoint dict_set {V} (k : string) (v : V) (d : dict V) : dict V :=
  match d with
  | [] => [(k, v)]
  | (k', v') :: d' =>
      if String.eqb k' k then (k', v) :: d' else (k', v') :: dict_set k v d'
  end.

(** [list(d.keys())] *)
Definition dict_keys {V} (d : dict V) : list string := map fst d.

(** ** Python values, exceptions and logging *)

(** Units of an [astropy.units.Quantity], as far as the module can
    tell them apart. *)
Inductive unit_ : Type :=
  Hz | kHz | MHz | GHz | second | millisecond | minute | dimensionless.

(** The factor that converts a unit to hertz; [None] when the unit is not
    a frequency ([UnitConversionError]). *)
Definition to_Hz (u : unit_) : option Q :=
  match u with
  | Hz => Some 1%Q
  | kHz => Some (1000 # 1)
  | MHz => Some (1000000 # 1)
  | GHz => Some (1000000000 # 1)
  | second | millisecond | minute | dimensionless => None
  end.

(** The factor that converts a unit to seconds; [None] when the unit is
    not a time. *)
Definition to_second (u : unit_) : option Q :=
  match u with
  | second => Some 1%Q
  | millisecond => Some (1 # 1000)
  | minute => Some (60 # 1)
  | Hz | kHz | MHz | GHz | dimensionless => None
  end.

(** The values a caller can hand to a setter.  [PTime] and [PQuantity]
    are one-dimensional arrays ([PTime [t]] is also a scalar [Time], of
    size 1); times are in unix seconds. *)
#[warnings="-register-all"]
Inductive pyval : Type :=
  | PNone
  | PBool (b : bool)
  | PInt (z : Z)
  | PNpInt (z : Z)             (* a numpy integer scalar, np.int64(z) *)
  | PFloat (q : Q)
  | PStr (s : string)
  | PTuple (l : list pyval)
  | PList (l : list pyval)
  | PTime (ts : list Q)
  | PQuantity (vs : list Q) (u : unit_).

(** What [isinstance(v, int)] leaves: an [int] or, [bool] being a
    subclass of [int], a [bool]. *)
Inductive intlike : Type :=
  | IInt (z : Z)
  | IBool (b : bool).

Definition isinstance_int (v : pyval) : option intlike :=
  match v with
  | PInt z => Some (IInt z)
  | PBool b => Some (IBool b)
  | _ => None
  end.

(** The number an int-like value compares equal to. *)
Definition int_value (i : intlike) : Z :=
  match i with
  | IInt z => z
  | IBool b => if b then 1 else 0
  end.

(** [str(z)] for an integer: its decimal writing. *)
Definition str_int (z : Z) : string := NilZero.string_of_int (Z.to_int z).

(** [str(i)] *)
Definition py_str (i : intlike) : string :=
  match i with
  | IInt z => str_int z
  | IBool b => if b then "True" else "False"
  end.

Inductive exn : Type :=
  | TypeError
  | IndexError
  | ValueError
  | KeyError
  | ZeroDivisionError
  | OverflowError
  | AttributeError
  | UnitConversionError.

Inductive level : Type := INFO | WARNING.

Definition logrec : Type := level * string.

Inductive outcome (A : Type) : Type :=
  | Ok (a : A)
  | Raise (e : exn).
Arguments Ok {A} a.
Arguments Raise {A} e.

(** The result of running a computation on a state of type [S]. *)
Record run (S A : Type) : Type := Run {
  final : S;
  logged : list logrec;
  result : outcome A
}.
Arguments Run {S A} final logged result.
Arguments final {S A} r.
Arguments logged {S A} r.
Arguments result {S A} r.

Definition M (S A : Type) : Type := S → run S A.

Definition m_ret {S A} (a : A) : M S A := λ s, Run s [] (Ok a).

Definition m_bind {S A B} (f : A → M S B) (m : M S A) : M S B :=
  λ s,
    let r := m s in
    match result r with
    | Ok a =>
        let r' := f a (final r) in
        Run (final r') (logged r ++ logged r') (result r')
    | Raise e => Run (final r) (logged r) (Raise e)
    end.

#[export] Instance M_ret {S} : MRet (M S) := @m_ret S.
#[export] Instance M_bind {S} : MBind (M S) := @m_bind S.

Definition raise {S A} (e : exn) : M S A := λ s, Run s [] (Raise e).

Definition log {S} (l : level) (msg : string) : M S () :=
  λ s, Run s [(l, msg)] (Ok ()).

Definition get_state {S} : M S S := λ s, Run s [] (Ok s).

Definition modify {S} (f : S → S) : M S () := λ s, Run (f s) [] (Ok ()).

(** Runs a computation on a state of its own, as a method call on
    another object does; its final state is the value. *)
Definition on_object {S T A} (init : T) (m : M T A) : M S T :=
  λ s,
    let r := m init in
    Run s (logged r)
        (match result r with Ok _ => Ok (final r) | Raise e => Raise e end).

(** An optional value that must be there, else the exception. *)
Definition expect {S A} (e : exn) (o : option A) : M S A :=
  match o with Some a => mret a | None => raise e end.

(** [xs[i] = v] for an index [i >= 0]: [IndexError] out of range. *)
Definition setitem {S A} (xs : list A) (i : nat) (v : A) : M S (list A) :=
  if bool_decide (i < length xs)%nat then mret (<[i := v]> xs)
  else raise IndexError.

(** ** Blocks of a spectra file *)

(** [BLOCK_HEADER]: three [uint64] and six [int32] fields. *)
Record block_header : Type := BlockHeader {
  idx : Z;
  TIMESTAMP : Z;
  BLOCKSEQNUMBER : Z;
  fftlen : Z;
  nfft2int : Z;
  fftovlp : Z;
  apodisation : Z;
  nffte : Z;
  nbchan : Z
}.

Definition header_in_range (h : block_header) : Prop :=
  in_uint64 (idx h) ∧ in_uint64 (TIMESTAMP h) ∧ in_uint64 (BLOCKSEQNUMBER h) ∧
  in_int32 (fftlen h) ∧ in_int32 (nfft2int h) ∧ in_int32 (fftovlp h) ∧
  in_int32 (apodisation h) ∧ in_int32 (nffte h) ∧ in_int32 (nbchan h).

(** One record of [beamlet_dtype]; [fft0] and [fft1] have the shape
    [(nffte, fftlen, 2)] of float32. *)
Record beamlet : Type := Beamlet {
  lane : Z;
  beam : Z;
  channel : Z;
  fft0 : list (list (Q * Q));
  fft1 : list (list (Q * Q))
}.

(** One record of [global_struct]: the header and the beamlets. *)
Record block : Type := Block {
  header : block_header;
  data_ : list beamlet
}.

(** ** Spectra._get_bad_data_mask *)

(** [a + b] on boolean arrays is the element-wise [or]. *)
Definition mask_add (a b : list bool) : list bool := zip_with orb a b.

Definition _get_bad_data_mask {S} (data : list block) : M S (list bool) :=
  log INFO "Checking for missing data..." ;;
  let block_timestamp_mask := map (λ b, TIMESTAMP (header b) =? 0) data in
  let block_start_idx_mask := map (λ b, idx (header b) =? 0) data in
  let block_nsubbands_mask := map (λ b, nbchan (header b) <? 0) data in
  block_start_idx_mask ← setitem block_start_idx_mask 0 false ;
  let bad_block_mask :=
    mask_add (mask_add block_start_idx_mask block_start_idx_mask)
             block_nsubbands_mask in
  log INFO "blocks containing missing data and/or wrong time information" ;;
  mret bad_block_mask.

(** The two-condition reference of the specification: a block is bad when
    its first-sample index is 0 and it is not the first block, or when
    its subband count is negative. *)
Definition bad_block (position : nat) (h : block_header) : bool :=
  (idx h =? 0) && negb (Nat.eqb position 0) || (nbchan h <? 0).

Definition reference_mask (data : list block) : list bool :=
  imap (λ i b, bad_block i (header b)) data.

(** ** _ProcessingConfiguration *)

(** A validated [edge_channels_to_remove]: an int-like number, or a pair
    of them. *)
Inductive edge_spec : Type :=
  | EdgeBoth (n : intlike)
  | EdgePair (lower higher : intlike).

(** The attributes of a configuration.  The four attributes behind a
    property ([_time_range], [_frequency_range], [_beam],
    [_edge_channels_to_remove]) are [None] until their setter has
    succeeded once.  Times are unix seconds, [frequency_min] and
    [frequency_max] are in hertz; the stored frequency range keeps the
    unit it was given in.  [rebin_dt] and [rebin_df] are plain
    attributes: a [Quantity] is held as its value and its unit, a plain
    number as a value without a unit ([dimensionless]). *)
Record _ProcessingConfiguration : Type := ProcessingConfiguration {
  available_beams : list Z;
  time_min : Q;
  time_max : Q;
  frequency_min : Q;
  frequency_max : Q;
  _time_range : option (Q * Q);
  _frequency_range : option (Q * Q * unit_);
  _beam : option intlike;
  dispersion_measure : option Q;
  rotation_measure : option Q;
  rebin_dt : option (Q * unit_);
  rebin_df : option (Q * unit_);
  jump_correction : bool;
  dreambeam_inputs : option Q * option Q * option Q;
  correct_bandpass : bool;
  _edge_channels_to_remove : option edge_spec
}.

Definition with_time_range (v : Q * Q) (c : _ProcessingConfiguration)
  : _ProcessingConfiguration :=
  ProcessingConfiguration
    (available_beams c) (time_min c) (time_max c) (frequency_min c)
    (frequency_max c) (Some v) (_frequency_range c) (_beam c)
    (dispersion_measure c) (rotation_measure c) (rebin_dt c) (rebin_df c)
    (jump_correction c) (dreambeam_inputs c) (correct_bandpass c)
    (_edge_channels_to_remove c).

Definition with_frequency_range (v : Q * Q * unit_)
  (c : _ProcessingConfiguration) : _ProcessingConfiguration :=
  ProcessingConfiguration
    (available_beams c) (time_min c) (time_max c) (frequency_min c)
    (frequency_max c) (_time_range c) (Some v) (_beam c)
    (dispersion_measure c) (rotation_measure c) (rebin_dt c) (rebin_df c)
    (jump_correction c) (dreambeam_inputs c) (correct_bandpass c)
    (_edge_channels_to_remove c).

Definition with_beam (v : intlike) (c : _ProcessingConfiguration)
  : _ProcessingConfiguration :=
  ProcessingConfiguration
    (available_beams c) (time_min c) (time_max c) (frequency_min c)
    (frequency_max c) (_time_range c) (_frequency_range c) (Some v)
    (dispersion_measure c) (rotation_measure c) (rebin_dt c) (rebin_df c)
    (jump_correction c) (dreambeam_inputs c) (correct_bandpass c)
    (_edge_channels_to_remove c).

Definition with_edge_channels (v : edge_spec) (c : _ProcessingConfiguration)
  : _ProcessingConfiguration :=
  ProcessingConfiguration
    (available_beams c) (time_min c) (time_max c) (frequency_min c)
    (frequency_max c) (_time_range c) (_frequency_range c) (_beam c)
    (dispersion_measure c) (rotation_measure c) (rebin_dt c) (rebin_df c)
    (jump_correction c) (dreambeam_inputs c) (correct_bandpass c)
    (Some v).

(** [rebin_dt] is a plain attribute: assigning it checks nothing. *)
Definition with_rebin_dt (v : option (Q * unit_))
  (c : _ProcessingConfiguration)
  : _ProcessingConfiguration :=
  ProcessingConfiguration
    (available_beams c) (time_min c) (time_max c) (frequency_min c)
    (frequency_max c) (_time_range c) (_frequency_range c) (_beam c)
    (dispersion_measure c) (rotation_measure c) v (rebin_df c)
    (jump_correction c) (dreambeam_inputs c) (correct_bandpass c)
    (_edge_channels_to_remove c).

(** [a >= b] and [a < b] on floats. *)
Definition Qge_bool (a b : Q) : bool := Qle_bool b a.
Definition Qlt_bool (a b : Q) : bool := negb (Qle_bool b a).

(** The setter of [beam]. *)
Definition set_beam (selected_beam : pyval) : M _ProcessingConfiguration () :=
  self ← get_state ;
  match isinstance_int selected_beam with
  | None => raise TypeError
  | Some b =>
      if bool_decide (int_value b ∈ available_beams self)
      then modify (with_beam b) ;; log INFO "Beam selected."
      else raise IndexError
  end.

(** The setter of [time_range]. *)
Definition set_time_range (selected_range : pyval)
  : M _ProcessingConfiguration () :=
  self ← get_state ;
  match selected_range with
  | PTime ts =>
      match ts with
      | [t0; t1] =>
          if Qge_bool t0 t1 then raise ValueError
          else
            (if Qlt_bool t1 (time_min self) || Qlt_bool (time_max self) t0
             then log WARNING "Requested time_range outside availaible data!"
             else mret ()) ;;
            modify (with_time_range (t0, t1)) ;;
            log INFO "Time range set"
      | _ => raise ValueError
      end
  | _ => raise TypeError
  end.

(** The setter of [frequency_range].  The value is stored before the
    record is logged, and the log message converts both ends to MHz. *)
Definition set_frequency_range (selected_range : pyval)
  : M _ProcessingConfiguration () :=
  match selected_range with
  | PQuantity vs u =>
      match vs with
      | [f0; f1] =>
          if Qge_bool f0 f1 then raise ValueError
          else
            modify (with_frequency_range (f0, f1, u)) ;;
            _ ← expect UnitConversionError (to_Hz u) ;
            log INFO "Frequency range set"
      | _ => raise ValueError
      end
  | _ => raise TypeError
  end.

(** The setter of [edge_channels_to_remove]. *)
Definition set_edge_channels_to_remove (channels : pyval)
  : M _ProcessingConfiguration () :=
  match channels with
  | PTuple l =>
      match l with
      | [a; b] =>
          match isinstance_int a, isinstance_int b with
          | Some a', Some b' => modify (with_edge_channels (EdgePair a' b'))
          | _, _ => raise TypeError
          end
      | _ => raise IndexError
      end
  | _ =>
      match isinstance_int channels with
      | Some n => modify (with_edge_channels (EdgeBoth n))
      | None => raise TypeError
      end
  end.

(** The getters: the attribute is missing until it has been set. *)
Definition get_attr {S A} (o : option A) : M S A :=
  expect AttributeError o.

(** The part of [astropy.time.Time] the module relies on: a [Time] built
    from the ISO strings of another one, written with [precision]
    decimals of a second, read back as unix seconds. *)
Class AstropyTime : Type := {
  isot_reparse : Z → Q → Q
}.

(** [_ProcessingConfiguration.__init__].  The plain attributes, which no
    setter guards and nothing reads before the end of the constructor,
    are filled in at once; the four properties go through their setters
    in the order of the source.  Both times come from [Spectra.__init__]
    with [precision=7]. *)
Definition ProcessingConfiguration_init `{AstropyTime} {S}
  (time_min time_max frequency_min frequency_max : Q)
  (available_beams : list Z) : M S _ProcessingConfiguration :=
  let precision := Z.max 7 7 in
  on_object
    (ProcessingConfiguration available_beams time_min time_max
       frequency_min frequency_max None None None
       None None None None false (None, None, None) true None)
    (set_time_range
       (PTime [isot_reparse precision time_min;
               isot_reparse precision time_max]) ;;
     set_frequency_range (PQuantity [frequency_min; frequency_max] Hz) ;;
     set_beam (PInt 0) ;;
     set_edge_channels_to_remove (PInt 0)).

(** ** Arrays of the pipeline *)

(** A lazy array whose two leading axes are time and frequency; [A] is
    what sits at one (time, frequency) position.  The shape is kept
    beside the items, as numpy does: an array without a time sample
    still has a number of frequencies. *)
Record cube (A : Type) : Type := Cube {
  n_times : Z;
  n_freqs : Z;
  items : list (list A)
}.
Arguments Cube {A} n_times n_freqs items.
Arguments n_times {A} c.
Arguments n_freqs {A} c.
Arguments items {A} c.

(** Every row has the length the shape announces. *)
Definition cube_wf {A} (c : cube A) : Prop :=
  Z.of_nat (length (items c)) = n_times c ∧
  0 <= n_freqs c ∧
  Forall (λ row, Z.of_nat (length row) = n_freqs c) (items c).

(** The data after the reduction to Stokes parameters, of shape
    (time, frequency, polarization). *)
Record cube3 : Type := Cube3 {
  tf : cube (list fval);
  n_pols : Z
}.

Definition cube3_wf (c : cube3) : Prop :=
  cube_wf (tf c) ∧
  Forall (Forall (λ v : list fval, Z.of_nat (length v) = n_pols c))
         (items (tf c)).

(** [a[i0:i1, j0:j1, ...]] *)
Definition cube_slice {A} (i0 i1 j0 j1 : option Z) (c : cube A) : cube A :=
  let rows := py_slice i0 i1 (items c) in
  let '(ja, jb) := slice_bounds (n_freqs c) j0 j1 in
  Cube (Z.of_nat (length rows)) (Z.max 0 (jb - ja))
       (map (py_slice j0 j1) rows).

(** The functions of [nenupy.io.tf_utils] that the module calls, and
    the element type of the array they assemble. *)
Class TfUtils : Type := {
  (** a 2x2 coherency matrix *)
  cell : Type;
  (** the matrix left by assigning [np.nan] to it *)
  cell_nan : cell;
  (** the matrix multiplied by a real number *)
  cell_scale : Q → cell → cell;
  (** [sort_beam_edges(beam_array, n_channels)] *)
  sort_beam_edges : list Z → Z → dict (Z * Z);
  (** [blocks_to_tf_data(spectra_data_to_matrix(fft0, fft1), n_block_times,
      n_channels)] on the blocks that are kept *)
  blocks_to_tf_data : list block → Z → Z → cube cell;
  (** [compute_spectra_time(block_start_time_unix, ntime_per_block,
      time_step_s)], computed *)
  compute_spectra_time : list Q → Z → Q → list Q;
  (** [compute_spectra_frequencies(subband_start_hz, n_channels,
      frequency_step_hz)], computed; the step is absent when it is not
      finite *)
  compute_spectra_frequencies : list Q → Z → option Q → list Q;
  (** [get_bandpass(n_channels)] *)
  get_bandpass : Z → list Q;
  (** [compute_stokes_parameters(data_array, stokes)] *)
  compute_stokes_parameters : cube cell → pyval → outcome cube3
}.

(** ** Spectra *)

(** The parameters [_lazy_load_data] decodes from the header of the first
    block.  [df] is [None] when [n_channels] is 0: the division leaves
    an infinite step. *)
Record file_parameters : Type := FileParameters {
  _n_time_per_block : Z;
  n_channels : Z;
  n_subbands : Z;
  dt : Q;
  df : option Q
}.

(** [int(s)] for the decimal writing of an integer, with an optional
    sign; anything else is a [ValueError]. *)
Definition digit_of_ascii (c : ascii) : option Z :=
  let n := Z.of_N (N_of_ascii c) in
  if (48 <=? n) && (n <=? 57) then Some (n - 48) else None.

Fixpoint parse_digits (acc : Z) (s : string) : option Z :=
  match s with
  | EmptyString => Some acc
  | String c s' =>
      match digit_of_ascii c with
      | Some d => parse_digits (10 * acc + d) s'
      | None => None
      end
  end.

Definition parse_int (s : string) : option Z :=
  match s with
  | EmptyString => None
  | String c s' =>
      if Ascii.eqb c "-" then
        (if String.eqb s' "" then None else Z.opp <$> parse_digits 0 s')
      else if Ascii.eqb c "+" then
        (if String.eqb s' "" then None else parse_digits 0 s')
      else parse_digits 0 s
  end.

(** [np.abs] on an [int32] scalar: the result is an [int32] again. *)
Definition np_abs_int32 (x : Z) : Z := int32 (Z.abs x).

(** [a[~mask]] *)
Fixpoint select_valid {A} (xs : list A) (mask : list bool) : list A :=
  match xs, mask with
  | x :: xs', m :: mask' =>
      if m then select_valid xs' mask' else x :: select_valid xs' mask'
  | _, _ => []
  end.

(** The start of a block in unix seconds:
    [TIMESTAMP + BLOCKSEQNUMBER / SUBBAND_WIDTH]. *)
Definition block_start_unix (b : block) : Q :=
  (inject_Z (TIMESTAMP (header b))
   + inject_Z (BLOCKSEQNUMBER (header b)) / SUBBAND_WIDTH)%Q.

(** [a[0]] and [a[-1]] *)
Definition first_item {S A} (xs : list A) : M S A :=
  expect IndexError (head xs).
Definition last_item {S A} (xs : list A) : M S A :=
  expect IndexError (last xs).

(** The attributes [_lazy_load_data] sets from the header of the first
    block.  The product of the two [int32] fields is an [int32]. *)
Definition decode_parameters (header : block_header) : file_parameters :=
  let _n_time_per_block := nffte header in
  let n_channels := fftlen header in
  let n_subbands := np_abs_int32 (nbchan header) in
  let dt := (inject_Z (int32 (n_channels * nfft2int header))
             / SUBBAND_WIDTH)%Q in
  let df := if n_channels =? 0 then None
            else Some (SUBBAND_WIDTH / inject_Z n_channels)%Q in
  FileParameters _n_time_per_block n_channels n_subbands dt df.

(** [Spectra._lazy_load_data] on a file given by its block records.  An
    empty file has no first header to read.  A negative number of
    samples or of channels makes the type of a beamlet ill-formed, before
    the record is logged; a negative number of subbands makes the type
    of the blocks ill-formed, in the [return] statement, after it. *)
Definition _lazy_load_data {S} (file : list block)
  : M S (file_parameters * list block) :=
  match file with
  | [] => raise ValueError
  | first :: _ =>
      let p := decode_parameters (header first) in
      if (_n_time_per_block p <? 0) || (n_channels p <? 0)
      then raise ValueError
      else
        log INFO "file has been correctly parsed." ;;
        if n_subbands p <? 0 then raise ValueError
        else mret (p, file)
  end.

(** ** Arithmetic of the index computations *)

(** [int(q)]: truncation toward zero. *)
Definition Qtrunc (q : Q) : Z :=
  if Qlt_bool q 0 then Qceiling q else Qfloor q.

(** [int(f(a / b))] on numpy floats: a division by zero leaves an
    infinity, or NaN for 0/0, which [int] refuses. *)
Definition float_div_to_int {S} (f : Q → Z) (a b : Q) : M S Z :=
  if Qeq_bool b 0 then
    (if Qeq_bool a 0 then raise ValueError else raise OverflowError)
  else mret (f (a / b)%Q).

(** [int(np.floor(q / step))] for a [Quantity] [q] of value [v] and a
    step in the base unit (seconds, hertz).  The ratio keeps the unit of
    [q] over the base unit; [np.floor] rounds its value in that unit;
    [int] converts the result to a pure number, which multiplies it by
    the factor [scale] of the unit, and truncates.  So the ratio is
    floored before the unit is taken into account.  A unit that does not
    convert to the base unit ([scale = None]; so does a plain number,
    whose ratio is in 1 / base unit) makes [int] raise [TypeError]; a
    step of 0 leaves an infinity or a NaN, which [int] refuses. *)
Definition quantity_floor_to_int {S} (v : Q) (scale : option Q) (step : Q)
  : M S Z :=
  match scale with
  | None => raise TypeError
  | Some k =>
      float_div_to_int (λ r, Qtrunc (inject_Z (Qfloor r) * k)) v step
  end.

(** [int(np.floor(a / b))] on Python integers. *)
Definition int_floor_div {S} (a b : Z) : M S Z :=
  if b =? 0 then raise ZeroDivisionError else mret (a / b).

(** [int(a / b)] on Python integers. *)
Definition int_trunc_div {S} (a b : Z) : M S Z :=
  if b =? 0 then raise ZeroDivisionError else mret (a ÷ b).

(** [a % b] on Python integers. *)
Definition py_mod {S} (a b : Z) : M S Z :=
  if b =? 0 then raise ZeroDivisionError else mret (a mod b).

(** [xs[i]] *)
Definition getitem {S A} (xs : list A) (i : Z) : M S A :=
  let len := Z.of_nat (length xs) in
  let j := if i <? 0 then i + len else i in
  if (0 <=? j) && (j <? len) then expect IndexError (xs !! Z.to_nat j)
  else raise IndexError.

(** [int(np.argmin(np.abs(np.ceil(xs - target))))] *)
Definition nearest_index {S} (xs : list Q) (target : Q) : M S Z :=
  match map (λ x, Z.abs (Qceiling (x - target))) xs with
  | [] => raise ValueError
  | d :: ds => mret (argmin_from 1 d 0 ds)
  end.

(** The two leading dimensions [(a, b)] of a [reshape] that splits an
    axis of length [len]: a lone -1 is inferred, other negative
    dimensions are refused, and the sizes must agree.  (The rebinning
    asks for a negative number of bins only together with a negative
    bin length, and for dimensions that are not negative their product
    is the length of the axis.) *)
Definition reshape_dims {S} (a b len : Z) : M S (Z * Z) :=
  if (a <? -1) || (b <? -1) || ((a =? -1) && (b =? -1)) then raise ValueError
  else if a =? -1 then
    (if (0 <? b) && (len mod b =? 0) then mret (len / b, b)
     else raise ValueError)
  else if b =? -1 then
    (if (0 <? a) && (len mod a =? 0) then mret (a, len / a)
     else raise ValueError)
  else if a * b =? len then mret (a, b)
  else raise ValueError.

Definition split_axis {A} (dims : Z * Z) (xs : list A) : list (list A) :=
  chunks (Z.to_nat (fst dims)) (Z.to_nat (snd dims)) xs.

(** ** Spectra._correct_bandpass and Spectra._remove_edge_channels *)

(** [data.reshape((n_times, int(n_freqs / n_channels), n_channels, 2, 2))]:
    every row cut into subbands.  [n_channels] is an [int32] scalar, so
    the division is numpy's.  An array without a time sample has size 0
    and takes any shape of size 0. *)
Definition reshape_subbands {S A} (n_channels : Z) (c : cube A)
  : M S (list (list (list A))) :=
  nsub ← float_div_to_int Qtrunc (inject_Z (n_freqs c)) (inject_Z n_channels) ;
  if n_channels <? 0 then raise ValueError
  else if (n_times c =? 0) || (nsub * n_channels =? n_freqs c) then
    mret (map (chunks (Z.to_nat nsub) (Z.to_nat n_channels)) (items c))
  else raise ValueError.

(** The second [reshape], back to [(n_times, n_freqs, 2, 2)]. *)
Definition merge_subbands {A} (c : cube A) (subbands : list (list (list A)))
  : cube A :=
  Cube (n_times c) (n_freqs c) (map (λ row, concat row) subbands).

(** [data *= bandpass[None, None, :, None, None]] on one subband: the
    profile has one value per channel, or a single value. *)
Definition scale_subband {S A} (scale : Q → A → A) (n_channels : Z)
  (bandpass : list Q) (subband : list A) : M S (list A) :=
  if Z.of_nat (length bandpass) =? n_channels
  then mret (zip_with scale bandpass subband)
  else match bandpass with
       | [b] => mret (map (scale b) subband)
       | _ => raise ValueError
       end.

Definition _remove_edge_channels {S A} (nan : A) (data : cube A)
  (n_channels lower_edge_channels higher_edge_channels : Z) : M S (cube A) :=
  subbands ← reshape_subbands n_channels data ;
  let lower := py_slice_fill None (Some lower_edge_channels) nan in
  let upper :=
    py_slice_fill (Some (n_channels - higher_edge_channels)) None nan in
  let subbands := map (map (λ sb, upper (lower sb))) subbands in
  let data := merge_subbands data subbands in
  log INFO (str_int lower_edge_channels +:+ " lower and "
            +:+ str_int higher_edge_channels
            +:+ " higher band channels have been set to NaN at the subband edges.") ;;
  mret data.

(** The subbands of a row of frequencies, [n] channels each. *)
Definition subbands {A} (n : Z) (row : list A) : list (list A) :=
  chunks (Z.to_nat (Z.of_nat (length row) / n)) (Z.to_nat n) row.

(** A subband as the specification wants it after the masking: the
    [lo] lowest and the [hi] highest channels are the marker, the
    channels between them are kept. *)
Definition edges_masked {A} (nan : A) (lo hi : nat) (sb : list A) : list A :=
  replicate lo nan ++ take (length sb - lo - hi) (drop lo sb)
  ++ replicate hi nan.

(** The number of items of a list that carry a mark. *)
Definition count_marked {A} (marked : A → bool) (l : list A) : nat :=
  length (List.filter marked l).

(** ** np.nanmean *)

Definition finite_values (xs : list fval) : list Q :=
  omap (λ v, match v with Val q => Some q | NaN => None end) xs.

Definition Qsum (qs : list Q) : Q := foldr Qplus 0%Q qs.

(** The mean of the values that are not NaN; NaN when there is none. *)
Definition nanmean (xs : list fval) : fval :=
  match finite_values xs with
  | [] => NaN
  | q :: qs => Val (Qsum (q :: qs) / inject_Z (Z.of_nat (length (q :: qs))))%Q
  end.

(** [np.nanmean(group, axis=0)] for vectors of [n] items. *)
Definition nanmean_vectors (n : Z) (group : list (list fval)) : list fval :=
  map (λ p, nanmean (map (λ v, default NaN (v !! p)) group))
      (seq 0 (Z.to_nat n)).

(** The item at frequency [f] and polarization [pol] of a time sample;
    NaN stands for an item that is not there. *)
Definition item_at (f pol : nat) (row : list (list fval)) : fval :=
  match row !! f with
  | Some v => default NaN (v !! pol)
  | None => NaN
  end.

(** [row[f, pol]], if the indices are in range. *)
Definition row_value (row : list (list fval)) (f pol : nat) : option fval :=
  match row !! f with
  | Some v => v !! pol
  | None => None
  end.

(** [np.nanmean(group, axis=0)] for arrays of shape [(nf, np)]. *)
Definition nanmean_rows (nf np : Z) (group : list (list (list fval)))
  : list (list fval) :=
  map (λ f, map (λ pol, nanmean (map (item_at f pol) group))
                (seq 0 (Z.to_nat np)))
      (seq 0 (Z.to_nat nf)).

(** [c[i, f, pol]], if the indices are in range. *)
Definition value_at (c : cube3) (i f pol : nat) : option fval :=
  match items (tf c) !! i with
  | Some row => row_value row f pol
  | None => None
  end.

(** Numerical identity of two arrays of shape (time, frequency,
    polarization). *)
Definition cube3_feq (a b : cube3) : Prop :=
  n_times (tf a) = n_times (tf b) ∧
  n_freqs (tf a) = n_freqs (tf b) ∧
  n_pols a = n_pols b ∧
  Forall2 (Forall2 (Forall2 feq)) (items (tf a)) (items (tf b)).

(** The stop of [a[: -leftover if leftover != 0 else n]]. *)
Definition leftover_stop (leftover n : Z) : Z :=
  if leftover =? 0 then n else - leftover.

(** ** Spectra._time_frequency_rebin *)

(** The branch [if not (self.configuration.rebin_dt is None)]; [self.dt]
    is in seconds.  The first message is abridged: the source goes on
    with [dt=], the duration of a bin written as a float. *)
Definition time_rebin {S} (p : file_parameters) (rebin_dt : Q * unit_)
  (data : cube3) (times : list fval) : M S (cube3 * list fval) :=
  let ntimes_i := n_times (tf data) in
  let nfreqs_i := n_freqs (tf data) in
  let npols_i := n_pols data in
  tbins ← quantity_floor_to_int (fst rebin_dt) (to_second (snd rebin_dt))
                                (dt p) ;
  log INFO ("Time-averaging " +:+ str_int tbins +:+ " spectra...") ;;
  ntimes ← int_floor_div ntimes_i tbins ;
  tleftover ← py_mod ntimes_i ntimes ;
  log INFO ("Last " +:+ str_int tleftover
            +:+ " spectra are left over for time-averaging.") ;;
  let stop := leftover_stop tleftover ntimes_i in
  let kept := py_slice None (Some stop) (items (tf data)) in
  width ← int_trunc_div (ntimes_i - tleftover) ntimes ;
  dims ← reshape_dims ntimes width (Z.of_nat (length kept)) ;
  let kept_times := py_slice None (Some stop) times in
  tdims ← reshape_dims ntimes width (Z.of_nat (length kept_times)) ;
  let data :=
    Cube3 (Cube (fst dims) nfreqs_i
                (map (nanmean_rows nfreqs_i npols_i) (split_axis dims kept)))
          npols_i in
  let times := map nanmean (split_axis tdims kept_times) in
  log INFO "Data are time-averaged." ;;
  mret (data, times).

(** The branch [if not (self.configuration.rebin_df is None)]; [self.df]
    is in hertz.  An infinite [df] makes the ratio 0.  The first message
    is abridged as for the time. *)
Definition frequency_rebin {S} (p : file_parameters) (rebin_df : Q * unit_)
  (data : cube3) (freqs : list fval) : M S (cube3 * list fval) :=
  let ntimes_i := n_times (tf data) in
  let nfreqs_i := n_freqs (tf data) in
  let npols_i := n_pols data in
  fbins ← match df p with
          | Some d =>
              quantity_floor_to_int (fst rebin_df) (to_Hz (snd rebin_df)) d
          | None =>
              match to_Hz (snd rebin_df) with
              | Some _ => mret 0
              | None => raise TypeError
              end
          end ;
  log INFO ("Frequency-averaging " +:+ str_int fbins +:+ " channels...") ;;
  nfreqs ← int_floor_div nfreqs_i fbins ;
  fleftover ← py_mod nfreqs_i nfreqs ;
  log INFO ("Last " +:+ str_int fleftover
            +:+ " channels are left over for frequency-averaging.") ;;
  let stop := leftover_stop fleftover nfreqs_i in
  let '(a, b) := slice_bounds nfreqs_i None (Some stop) in
  width ← int_trunc_div (nfreqs_i - fleftover) nfreqs ;
  dims ← reshape_dims nfreqs width (Z.max 0 (b - a)) ;
  let kept_freqs := py_slice None (Some stop) freqs in
  fdims ← reshape_dims nfreqs width (Z.of_nat (length kept_freqs)) ;
  let rebin_row (row : list (list fval)) :=
    map (nanmean_vectors npols_i)
        (split_axis dims (py_slice None (Some stop) row)) in
  let data :=
    Cube3 (Cube ntimes_i (fst dims) (map rebin_row (items (tf data))))
          npols_i in
  let freqs := map nanmean (split_axis fdims kept_freqs) in
  log INFO "Data are frequency-averaged." ;;
  mret (data, freqs).

Definition _time_frequency_rebin {S} (p : file_parameters)
  (c : _ProcessingConfiguration) (data : cube3) (times freqs : list fval)
  : M S (list fval * list fval * cube3) :=
  '(data, times) ← match rebin_dt c with
                   | Some r => time_rebin p r data times
                   | None => mret (data, times)
                   end ;
  '(data, freqs) ← match rebin_df c with
                   | Some r => frequency_rebin p r data freqs
                   | None => mret (data, freqs)
                   end ;
  mret (freqs, times, data).

(** What [get] returns: the fields handed to [SData], of
    [nenupy.beamlet], whose constructor is taken to accept them. *)
Record SData : Type := MkSData {
  sdata : cube3;
  stime : list fval;
  sfreq : list fval;
  polar : pyval
}.

(** [edge_chans not in [0, (0, 0)]] *)
Definition edge_channels_requested (e : edge_spec) : bool :=
  match e with
  | EdgeBoth n => negb (int_value n =? 0)
  | EdgePair a b => negb ((int_value a =? 0) && (int_value b =? 0))
  end.

Definition lower_edge (e : edge_spec) : Z :=
  match e with EdgeBoth n => int_value n | EdgePair a _ => int_value a end.

Definition higher_edge (e : edge_spec) : Z :=
  match e with EdgeBoth n => int_value n | EdgePair _ b => int_value b end.

(** An exception of a function of [tf_utils] propagates. *)
Definition lift_outcome {S A} (o : outcome A) : M S A :=
  match o with Ok a => mret a | Raise e => raise e end.

Section Reader.

Context `{TfUtils} `{AstropyTime}.

Record Spectra : Type := MkSpectra {
  parameters : file_parameters;
  _block_start_unix : list Q;
  _subband_start_hz : list Q;
  beam_indices_dict : dict (Z * Z);
  data : cube cell;
  configuration : _ProcessingConfiguration
}.

(** [Spectra._assemble_to_tf] *)
Definition _assemble_to_tf (p : file_parameters)
  (data : list block) (mask : list bool) : cube cell :=
  blocks_to_tf_data (select_valid data mask) (_n_time_per_block p)
                    (n_channels p).

(** [Spectra.__init__] *)
Definition Spectra_init {S} (file : list block) : M S Spectra :=
  log INFO "Reading file..." ;;
  '(p, data) ← _lazy_load_data file ;
  bad_block_mask ← _get_bad_data_mask data ;
  let _block_start_unix :=
    map block_start_unix (select_valid data bad_block_mask) in
  block0 ← first_item data ;
  let _subband_start_hz :=
    map (λ b, (inject_Z (channel b) * SUBBAND_WIDTH)%Q) (data_ block0) in
  let beam_indices_dict :=
    sort_beam_edges (map beam (data_ block0)) (n_channels p) in
  let cube := _assemble_to_tf p data bad_block_mask in
  log INFO "Setting up default configuration:" ;;
  t_first ← first_item _block_start_unix ;
  t_last ← last_item _block_start_unix ;
  f_first ← first_item _subband_start_hz ;
  f_last ← last_item _subband_start_hz ;
  beams ← expect ValueError
            (mapM parse_int (dict_keys beam_indices_dict)) ;
  configuration ←
    ProcessingConfiguration_init
      t_first
      (t_last + inject_Z (_n_time_per_block p) * dt p)%Q
      f_first
      (f_last + SUBBAND_WIDTH)%Q
      beams ;
  mret (MkSpectra p _block_start_unix _subband_start_hz beam_indices_dict
                  cube configuration).

(** [Spectra._correct_bandpass] *)
Definition _correct_bandpass {S} (data : cube cell) (n_channels : Z)
  : M S (cube cell) :=
  let bandpass := get_bandpass n_channels in
  subbands ← reshape_subbands n_channels data ;
  subbands ← mapM (mapM (scale_subband cell_scale n_channels bandpass))
                  subbands ;
  mret (merge_subbands data subbands).

(** [Spectra._select_data]: [None] is the value returned for an empty
    selection.  The indices [block_idx * _n_time_per_block + index] mix
    Python integers with the [int32] parameters.  They are exact here,
    as they are in the code while every operand and result fits a
    signed 32-bit integer; beyond that range the code depends on the
    version of numpy ([OverflowError] or a wider integer for an operand
    out of range, a wrapped value for a result out of range), and the
    statements about the indices say where they stay in range. *)
Definition _select_data {S} (self : Spectra)
  : M S (option (list Q * list Q * cube cell)) :=
  let p := parameters self in
  let n := _n_time_per_block p in
  log INFO "Computing the time selection..." ;;
  '(tmin, tmax) ← get_attr (_time_range (configuration self)) ;
  let starts := _block_start_unix self in
  block_idx_min ← nearest_index starts tmin ;
  block_idx_max ← nearest_index starts tmax ;
  let dt_sec := dt p in
  start_min ← getitem starts block_idx_min ;
  time_idx_min_in_block ← float_div_to_int np_round (tmin - start_min) dt_sec ;
  let time_idx_min := block_idx_min * n + time_idx_min_in_block in
  start_max ← getitem starts block_idx_max ;
  time_idx_max_in_block ← float_div_to_int np_round (tmax - start_max) dt_sec ;
  let time_idx_max := block_idx_max * n + time_idx_max_in_block in
  if time_idx_min =? time_idx_max then
    log WARNING "Time selection leads to empty dataset." ;;
    mret None
  else
    let time_unix :=
      py_slice (Some time_idx_min_in_block)
               (Some (- (n - time_idx_max_in_block) + 1))
               (compute_spectra_time
                  (py_slice (Some block_idx_min) (Some (block_idx_max + 1))
                            starts)
                  n (dt p)) in
    log INFO "Computing the frequency selection..." ;;
    '(f0, f1, u) ← get_attr (_frequency_range (configuration self)) ;
    factor ← expect UnitConversionError (to_Hz u) ;
    let fmin := (f0 * factor)%Q in
    let fmax := (f1 * factor)%Q in
    beam ← get_attr (_beam (configuration self)) ;
    '(beam_idx_start, beam_idx_stop) ←
      expect KeyError (dict_get (py_str beam) (beam_indices_dict self)) ;
    sb_start ← float_div_to_int Qtrunc (inject_Z beam_idx_start)
                                (inject_Z (n_channels p)) ;
    sb_stop ← float_div_to_int Qtrunc (inject_Z (beam_idx_stop + 1))
                               (inject_Z (n_channels p)) ;
    let subbands_in_beam :=
      py_slice (Some sb_start) (Some sb_stop) (_subband_start_hz self) in
    sb_idx_min ← nearest_index subbands_in_beam fmin ;
    sb_idx_max ← nearest_index subbands_in_beam fmax ;
    let frequency_idx_min := sb_idx_min * n_channels p in
    let frequency_idx_max := (sb_idx_max + 1) * n_channels p in
    let frequency_hz :=
      compute_spectra_frequencies
        (py_slice (Some sb_idx_min) (Some (sb_idx_max + 1)) subbands_in_beam)
        (n_channels p) (df p) in
    let selected_data :=
      cube_slice (Some time_idx_min) (Some (time_idx_max + 1))
                 (Some frequency_idx_min) (Some frequency_idx_max)
        (cube_slice None None (Some beam_idx_start) (Some (beam_idx_stop + 1))
                    (data self)) in
    mret (Some (frequency_hz, time_unix, selected_data)).

(** [Spectra.get].  The first statement unpacks the value of
    [_select_data] into three names, which [None] does not allow. *)
Definition get {S} (self : Spectra) (stokes : pyval) : M S SData :=
  let c := configuration self in
  selection ← _select_data self ;
  '(frequency_hz, time_unix, data) ← expect TypeError selection ;
  data ← (if correct_bandpass c
          then log INFO "Correcting for bandpass." ;;
               _correct_bandpass data (n_channels (parameters self))
          else mret data) ;
  edge_chans ← get_attr (_edge_channels_to_remove c) ;
  data ← (if edge_channels_requested edge_chans
          then log INFO "Removing edge channels..." ;;
               _remove_edge_channels cell_nan data
                 (n_channels (parameters self))
                 (lower_edge edge_chans) (higher_edge edge_chans)
          else mret data) ;
  data ← lift_outcome (compute_stokes_parameters data stokes) ;
  '(frequency_hz, time_unix, data) ←
    _time_frequency_rebin (parameters self) c data
                          (map Val time_unix) (map Val frequency_hz) ;
  log INFO "Computing the data..." ;;
  mret (MkSData data time_unix frequency_hz stokes).

(** [self.configuration] after a setter has run on it: the configuration
    object is shared, the other attributes are untouched. *)
Definition with_configuration (c : _ProcessingConfiguration) (self : Spectra)
  : Spectra :=
  MkSpectra (parameters self) (_block_start_unix self) (_subband_start_hz self)
            (beam_indices_dict self) (data self) c.

(** The query the specification describes for an untouched
    configuration: the selection, the bandpass correction and the
    Stokes reduction, without masking of edge channels and without
    rebinning. *)
Definition get_plain {S} (self : Spectra) (stokes : pyval) : M S SData :=
  selection ← _select_data self ;
  '(frequency_hz, time_unix, data) ← expect TypeError selection ;
  log INFO "Correcting for bandpass." ;;
  data ← _correct_bandpass data (n_channels (parameters self)) ;
  data ← lift_outcome (compute_stokes_parameters data stokes) ;
  log INFO "Computing the data..." ;;
  mret (MkSData data (map Val time_unix) (map Val frequency_hz) stokes).

(** A session: the file is opened, [configuration.time_range] is set,
    the data are queried. *)
Definition query_time_range {S} (file : list block)
  (time_range stokes : pyval) : M S SData :=
  sp ← Spectra_init file ;
  c ← on_object (configuration sp) (set_time_range time_range) ;
  get (with_configuration c sp) stokes.

(** The same session with, before the query, [configuration.rebin_dt]
    set to the time step of the file. *)
Definition query_native_bins {S} (file : list block)
  (time_range stokes : pyval) : M S SData :=
  sp ← Spectra_init file ;
  c ← on_object (configuration sp)
        (set_time_range time_range ;;
         modify (with_rebin_dt (Some (dt (parameters sp), second)))) ;
  get (with_configuration c sp) stokes.

End Reader.

(** ** A reference instance of the collaborators

    The module is run on concrete files with the following stand-ins for
    [nenupy.io.tf_utils] and astropy. *)

(** [q] rounded to [digits] decimals, ties away from zero. *)
Definition round_decimals (digits : Z) (q : Q) : Q :=
  let scale := inject_Z (10 ^ digits) in
  let x := (q * scale)%Q in
  let n := if Qlt_bool x 0 then - Qfloor (- x + (1 # 2)) else Qfloor (x + (1 # 2)) in
  (inject_Z n / scale)%Q.

(** Modelled from the documentation of astropy: [precision] is the
    number of decimals of a second in the ISO writing of a [Time], so a
    time read back from its ISO string is rounded to that many
    decimals. *)
Definition iso_time : AstropyTime :=
  {| isot_reparse := round_decimals |}.

(** A complex number with NaN parts, and the 2x2 matrix of four of
    them: xx, xy, yx, yy. *)
Definition complex : Type := fval * fval.
Definition jones : Type := list complex.

Definition fmul (k : Q) (v : fval) : fval :=
  match v with Val q => Val (k * q) | NaN => NaN end.

Definition coherency (x y : Q * Q) : jones :=
  let '(a, b) := x in
  let '(c, d) := y in
  [(Val (a * a + b * b), Val 0);
   (Val (a * c + b * d), Val (b * c - a * d));
   (Val (a * c + b * d), Val (a * d - b * c));
   (Val (c * c + d * d), Val 0)]%Q.

(** Modelled from the spec: [sort_beam_edges] is missing from the source
    tree; it groups the runs of identical beam ids into one inclusive
    range of frequency indices per beam, under the key [str(beam)]. *)
Definition spec_sort_beam_edges (beam_array : list Z) (n_channels : Z)
  : dict (Z * Z) :=
  foldl (λ d '(i, b),
           let start := Z.of_nat i * n_channels in
           let stop := (Z.of_nat i + 1) * n_channels - 1 in
           match dict_get (str_int b) d with
           | Some (first, _) => dict_set (str_int b) (first, stop) d
           | None => dict_set (str_int b) (start, stop) d
           end)
        [] (imap (λ i b, (i, b)) beam_array).

(** Modelled from the spec: [spectra_data_to_matrix] and
    [blocks_to_tf_data] are missing from the source tree; time is
    block index x samples per block + sample, frequency is subband index
    x channels + channel, and each item is the coherency matrix of the
    two polarizations. *)
Definition spec_blocks_to_tf_data (blocks : list block)
  (n_block_times n_channels : Z) : cube jones :=
  let sample (b : block) (t : nat) : list jones :=
    flat_map (λ bl,
                zip_with coherency (default [] (fft0 bl !! t))
                                   (default [] (fft1 bl !! t)))
             (data_ b) in
  let n_sub := match blocks with
               | b :: _ => Z.of_nat (length (data_ b))
               | [] => 0
               end in
  Cube (Z.of_nat (length blocks) * n_block_times) (n_sub * n_channels)
       (flat_map (λ b, map (sample b) (seq 0 (Z.to_nat n_block_times)))
                 blocks).

(** Modelled from the spec: [compute_spectra_time] is missing from the
    source tree; block start times plus per-sample offsets. *)
Definition spec_compute_spectra_time (starts : list Q) (n : Z) (dt : Q)
  : list Q :=
  flat_map (λ t0, map (λ i, (t0 + inject_Z (Z.of_nat i) * dt)%Q)
                      (seq 0 (Z.to_nat n)))
           starts.

(** Modelled from the spec: [compute_spectra_frequencies] is missing
    from the source tree; subband start plus per-channel offsets. *)
Definition spec_compute_spectra_frequencies (starts : list Q) (n : Z)
  (df : option Q) : list Q :=
  match df with
  | Some d =>
      flat_map (λ f0, map (λ c, (f0 + inject_Z (Z.of_nat c) * d)%Q)
                          (seq 0 (Z.to_nat n)))
               starts
  | None => []
  end.

(** Modelled from the spec: [compute_stokes_parameters] is missing from
    the source tree; total intensity is the sum of the two auto-terms. *)
Definition spec_compute_stokes_parameters (c : cube jones) (stokes : pyval)
  : outcome cube3 :=
  let intensity (j : jones) : list fval :=
    match j with
    | [(Val xx, _); _; _; (Val yy, _)] => [Val (xx + yy)%Q]
    | _ => [NaN]
    end in
  match stokes with
  | PStr "I" => Ok (Cube3 (Cube (n_times c) (n_freqs c)
                                (map (map intensity) (items c))) 1)
  | _ => Raise ValueError
  end.

(** The profile of [get_bandpass] is a stand-in: one value per channel. *)
Definition spec_utils : TfUtils := {|
  cell := jones;
  cell_nan := replicate 4 (NaN, Val 0%Q);
  cell_scale := λ k, map (λ '(re, im), (fmul k re, fmul k im));
  sort_beam_edges := spec_sort_beam_edges;
  blocks_to_tf_data := spec_blocks_to_tf_data;
  compute_spectra_time := spec_compute_spectra_time;
  compute_spectra_frequencies := spec_compute_spectra_frequencies;
  get_bandpass := λ n, replicate (Z.to_nat n) 1%Q;
  compute_stokes_parameters := spec_compute_stokes_parameters
|}.

(** A beamlet of one sample and two channels, and files made of it. *)
Definition demo_beamlet (chan : Z) : beamlet :=
  Beamlet 0 0 chan [[(1, 0); (0, 1)]]%Q [[(1, 1); (2, 0)]]%Q.

Definition demo_block (index timestamp seq subbands : Z) : block :=
  Block (BlockHeader index timestamp seq 2 1 0 0 1 subbands)
        [demo_beamlet 100; demo_beamlet 101].

(** Three blocks, the second one with lost packets. *)
Definition demo_file : list block :=
  [demo_block 0 1000 0 2; demo_block 5 1000 7 (-2); demo_block 10 1000 20 2].

(** A beamlet of one sample and 65536 channels. *)
Definition wide_beamlet : beamlet :=
  Beamlet 0 0 100 [replicate (Z.to_nat 65536) (0, 0)%Q]
          [replicate (Z.to_nat 65536) (0, 0)%Q].

(** One block, with lost packets. *)
Definition lost_file : list block := [demo_block 0 1000 0 (-2)].

(** A block at 1 s + 5.12 us. *)
Definition early_file : list block := [demo_block 0 1 1 2].

(** Ten time samples of one frequency and one polarization, and the
    parameters of a file of such blocks: a time step of 10.24 us. *)
Definition ten_samples : cube3 :=
  Cube3 (Cube 10 1
           (map (λ i, [[Val (inject_Z (Z.of_nat i))]]) (seq 0 10)))
        1.

Definition ten_times : list fval :=
  map (λ i, Val (inject_Z (Z.of_nat i))) (seq 0 10).

Definition demo_parameters : file_parameters :=
  decode_parameters (BlockHeader 0 1000 0 2 1 0 0 1 2).

(** A cube without a time sample. *)
Definition no_sample : cube3 := Cube3 (Cube 0 1 []) 1.

(** A configuration that asks for bins of one time step. *)
Definition native_bins : _ProcessingConfiguration :=
  ProcessingConfiguration [0] 0 10 19531250 19921875
    (Some (0, 10)%Q) (Some (19531250, 19921875, Hz)%Q) (Some (IInt 0))
    None None (Some (dt demo_parameters, second)) None false
    (None, None, None) true (Some (EdgeBoth (IInt 0))).

Definition demo_configuration : _ProcessingConfiguration :=
  ProcessingConfiguration [0; 1] 1000 1001 19531250 19921875
    (Some (1000, 1001)%Q) (Some (19531250, 19921875, Hz)%Q) (Some (IInt 0))
    None None None None false (None, None, None) true
    (Some (EdgeBoth (IInt 0))).

(** Two blocks of three samples, two seconds apart, and the object the
    constructor returns for this file, evaluated. *)
Definition spaced_block (index timestamp : Z) : block :=
  let samples (x : Q * Q) := replicate 3 [x; x] in
  Block (BlockHeader index timestamp 0 2 1 0 0 3 2)
        [Beamlet 0 0 100 (samples (1, 0)%Q) (samples (0, 1)%Q);
         Beamlet 0 0 101 (samples (1, 1)%Q) (samples (2, 0)%Q)].

Definition spaced_file : list block :=
  [spaced_block 0 1000; spaced_block 5 1002].

Definition spaced_spectra : option (@Spectra spec_utils) :=
  Eval vm_compute in
    match result (@Spectra_init spec_utils iso_time () spaced_file ()) with
    | Ok sp => Some sp
    | Raise _ => None
    end.

(** ** Invariants and references for the rest of the module *)

(** What the setters guarantee of the attributes they guard: an ordered
    time range, an ordered frequency range, a beam among the available
    beams. *)
Definition configuration_valid (c : _ProcessingConfiguration) : Prop :=
  (∀ t0 t1, _time_range c = Some (t0, t1) → (t0 < t1)%Q) ∧
  (∀ f0 f1 u, _frequency_range c = Some (f0, f1, u) → (f0 < f1)%Q) ∧
  (∀ b, _beam c = Some b → int_value b ∈ available_beams c).

(** The blocks [__init__] keeps: those the mask does not flag. *)
Definition valid_blocks (file : list block) : list block :=
  select_valid file (reference_mask file).

(** [np.min] of a list of floats: [ValueError] on an empty one. *)
Definition np_min {S} (xs : list Q) : M S Q :=
  match xs with
  | [] => raise ValueError
  | x :: xs' => mret (foldl (λ m y, if Qlt_bool y m then y else m) x xs')
  end.

(** [np.max] of a list of floats: [ValueError] on an empty one. *)
Definition np_max {S} (xs : list Q) : M S Q :=
  match xs with
  | [] => raise ValueError
  | x :: xs' => mret (foldl (λ m y, if Qlt_bool m y then y else m) x xs')
  end.

Section ReaderProperties.

Context `{TfUtils}.

(** [self.frequency_hz]: no statement of the class assigns this
    attribute (the assignment in [__init__] is commented out), so an
    object the constructor returns does not have it. *)
Definition frequency_hz (self : Spectra) : option (list Q) := None.

(** The property [Spectra.frequency_min]. *)
Definition Spectra_frequency_min {S} (self : Spectra) : M S Q :=
  freq_mins ← mapM (λ '(_, boundaries),
                      axis ← get_attr (frequency_hz self) ;
                      getitem axis (fst boundaries))
                   (beam_indices_dict self) ;
  np_min freq_mins.

(** The property [Spectra.frequency_max]. *)
Definition Spectra_frequency_max {S} (self : Spectra) : M S Q :=
  freq_maxs ← mapM (λ '(_, boundaries),
                      axis ← get_attr (frequency_hz self) ;
                      getitem axis (snd boundaries))
                   (beam_indices_dict self) ;
  np_max freq_maxs.

End ReaderProperties.

(** * Properties *)

(** ** Running a computation *)

Ltac run_unfold :=
  unfold mbind, mret, M_bind, M_ret, m_bind, m_ret, raise, log, get_state,
    modify, expect, on_object, setitem, get_attr, first_item, last_item,
    lift_outcome.

Ltac run_unfold_in H :=
  unfold mbind, mret, M_bind, M_ret, m_bind, m_ret, raise, log, get_state,
    modify, expect, on_object, setitem, get_attr, first_item, last_item,
    lift_outcome in H.

Lemma bind_ok {S A B} (m : M S A) (f : A → M S B) s s1 l1 a :
  m s = Run s1 l1 (Ok a) →
  (m ≫= f) s = Run (final (f a s1)) (l1 ++ logged (f a s1)) (result (f a s1)).
Proof. intros Hm. run_unfold. rewrite Hm. reflexivity. Qed.

Lemma bind_raise {S A B} (m : M S A) (f : A → M S B) s s1 l1 e :
  m s = Run s1 l1 (Raise e) → (m ≫= f) s = Run s1 l1 (Raise e).
Proof. intros Hm. run_unfold. rewrite Hm. reflexivity. Qed.

Lemma result_bind {S A B} (m : M S A) (f : A → M S B) s :
  result ((m ≫= f) s)
  = match result (m s) with
    | Ok a => result (f a (final (m s)))
    | Raise e => Raise e
    end.
Proof. run_unfold. by destruct (result (m s)). Qed.

Lemma bind_result_ok {St A B} (m : M St A) (f : A → M St B) s b :
  result ((m ≫= f) s) = Ok b →
  ∃ a, result (m s) = Ok a ∧ result (f a (final (m s))) = Ok b.
Proof.
  rewrite result_bind. destruct (result (m s)) as [a|e]; [eauto|discriminate].
Qed.

Lemma expect_result_ok {St A} (e : exn) (o : option A) (s : St) a :
  result (expect e o s) = Ok a → o = Some a.
Proof. destruct o; run_unfold; cbn; congruence. Qed.

Lemma bind_final_ok {St A B} (m : M St A) (f : A → M St B) s b :
  result ((m ≫= f) s) = Ok b →
  ∃ a, result (m s) = Ok a ∧ result (f a (final (m s))) = Ok b ∧
       final ((m ≫= f) s) = final (f a (final (m s))).
Proof.
  run_unfold. destruct (m s) as [s1 l1 [a|e]]; cbn [result final logged].
  - eauto.
  - discriminate.
Qed.

Lemma on_object_ok {St T A} (init : T) (m : M T A) (s : St) c :
  result (on_object init m s) = Ok c →
  ∃ a, result (m init) = Ok a ∧ c = final (m init).
Proof.
  unfold on_object. cbn [result].
  destruct (result (m init)) as [a|e]; [|discriminate].
  intros [= <-]. eauto.
Qed.

(** The laws of the monad, at a state. *)
Lemma bind_ret_l {St A B} (a : A) (f : A → M St B) s :
  (mret a ≫= f) s = f a s.
Proof. run_unfold. cbn [result final logged]. by destruct (f a s). Qed.

Lemma bind_assoc {St A B C} (m : M St A) (f : A → M St B) (g : B → M St C) s :
  ((m ≫= f) ≫= g) s = (m ≫= λ a, f a ≫= g) s.
Proof.
  run_unfold. destruct (m s) as [s1 l1 [a|e]]; cbn [result final logged];
    [|reflexivity].
  destruct (f a s1) as [s2 l2 [b|e]]; cbn [result final logged];
    [|reflexivity].
  by rewrite app_assoc.
Qed.

Lemma bind_ext {St A B} (m : M St A) (f g : A → M St B) s :
  (∀ a s', f a s' = g a s') → (m ≫= f) s = (m ≫= g) s.
Proof.
  intros Hfg. run_unfold. destruct (m s) as [s1 l1 [a|e]];
    cbn [result final logged]; [|reflexivity].
  by rewrite Hfg.
Qed.

(** ** The validity mask *)

Lemma mask_add_idem (m n : list bool) :
  mask_add (mask_add m m) n = mask_add m n.
Proof.
  unfold mask_add. revert n.
  induction m as [|x m IH]; intros [|y n]; simpl; try reflexivity.
  rewrite IH. by destruct x.
Qed.

Lemma mask_add_imap (f : nat → block → bool) (l : list block) :
  (∀ i b, f i b = (idx (header b) =? 0) || (nbchan (header b) <? 0)) →
  mask_add (map (λ b, idx (header b) =? 0) l)
           (map (λ b, nbchan (header b) <? 0) l) = imap f l.
Proof.
  unfold mask_add. revert f.
  induction l as [|b l IH]; intros f Hf; simpl; [reflexivity|].
  rewrite Hf. f_equal. apply IH. intros i b'. apply Hf.
Qed.

Lemma bad_data_mask_run {St} (s : St) (b0 : block) (rest : list block) :
  ∃ logs,
    _get_bad_data_mask (b0 :: rest) s
    = Run s logs (Ok (reference_mask (b0 :: rest))).
Proof.
  eexists. unfold _get_bad_data_mask. run_unfold. simpl.
  rewrite mask_add_idem. unfold reference_mask. simpl.
  rewrite (mask_add_imap (λ i b, bad_block (S i) (header b))).
  - unfold bad_block at 2. simpl. rewrite andb_false_r. reflexivity.
  - intros i b. unfold bad_block. simpl. by rewrite andb_true_r.
Qed.

Lemma bad_data_mask_empty {S} (s : S) :
  result (_get_bad_data_mask [] s) = Raise IndexError.
Proof. reflexivity. Qed.

(** C1. On every array of block headers the mask of bad blocks is
    computed, and a block is flagged exactly when its first-sample index
    is 0 at a position other than 0, or its subband count is negative: at
    position 0 an index of 0 does not flag the block, at any other
    position it does, and the mask, which adds the start-index term
    twice, is the mask of the two-condition reference. *)
Theorem bad_data_mask_flags {S} (s : S) (data : list block) (i : nat)
  (b : block) :
  data !! i = Some b →
  ∃ mask logs,
    _get_bad_data_mask data s = Run s logs (Ok mask) ∧
    mask = reference_mask data ∧
    mask !! i = Some ((idx (header b) =? 0) && negb (Nat.eqb i 0)
                      || (nbchan (header b) <? 0)) ∧
    (i = 0%nat → 0 <= nbchan (header b) → mask !! i = Some false) ∧
    (i ≠ 0%nat → idx (header b) = 0 → mask !! i = Some true).
Proof.
  intros Hi. destruct data as [|b0 rest]; [done|].
  destruct (bad_data_mask_run s b0 rest) as [logs Hrun].
  exists (reference_mask (b0 :: rest)), logs.
  assert (Hlook : reference_mask (b0 :: rest) !! i
                  = Some (bad_block i (header b))).
  { unfold reference_mask. rewrite list_lookup_imap, Hi. reflexivity. }
  repeat split; try done.
  - intros -> Hnb. rewrite Hlook. unfold bad_block. simpl.
    rewrite andb_false_r. simpl. f_equal. apply Z.ltb_ge. lia.
  - intros Hne Hidx. rewrite Hlook. unfold bad_block. rewrite Hidx.
    destruct i; [done|]. reflexivity.
Qed.

Lemma bad_data_mask_flags_witness :
  ∃ mask logs,
    _get_bad_data_mask
      [Block (BlockHeader 0 10 0 4 2 0 0 3 2) [];
       Block (BlockHeader 0 11 0 4 2 0 0 3 2) [];
       Block (BlockHeader 7 12 0 4 2 0 0 3 (-2)) []] tt
    = Run tt logs (Ok mask) ∧
    mask = [false; true; true].
Proof.
  destruct (bad_data_mask_flags tt
    [Block (BlockHeader 0 10 0 4 2 0 0 3 2) [];
     Block (BlockHeader 0 11 0 4 2 0 0 3 2) [];
     Block (BlockHeader 7 12 0 4 2 0 0 3 (-2)) []] 1
    (Block (BlockHeader 0 11 0 4 2 0 0 3 2) []) eq_refl)
    as (mask & logs & Hrun & Hmask & _).
  exists mask, logs. split; [exact Hrun|]. rewrite Hmask. reflexivity.
Defined.

(** ** Opening a file whose blocks are all bad *)

Lemma select_valid_all_bad {A} (xs : list A) (mask : list bool) :
  Forall (λ m, m = true) mask → select_valid xs mask = [].
Proof.
  intros Hall. revert xs.
  induction Hall as [|m mask -> _ IH]; intros [|x xs]; simpl; auto.
Qed.

Section ReaderFacts.

Context `{TfUtils} `{AstropyTime}.

(** Once the header is decoded and the mask computed, a file without a
    valid block stops the constructor at [self._block_start_unix[0]]. *)
Lemma init_all_invalid {St} (s : St) (file : list block) p logs :
  _lazy_load_data file s = Run s logs (Ok (p, file)) →
  Forall (λ m, m = true) (reference_mask file) →
  result (Spectra_init file s) = Raise IndexError.
Proof.
  intros Hload Hall. destruct file as [|b0 rest].
  { unfold _lazy_load_data in Hload. run_unfold_in Hload. discriminate. }
  destruct (bad_data_mask_run s b0 rest) as [mlogs Hmask].
  unfold Spectra_init.
  rewrite result_bind. cbn [log result final].
  rewrite result_bind, Hload. cbn [result final].
  rewrite result_bind, Hmask. cbn [result final].
  rewrite (select_valid_all_bad _ _ Hall).
  rewrite result_bind. cbn [first_item head expect mret M_ret m_ret result final].
  rewrite result_bind. cbn [log result final].
  rewrite result_bind. reflexivity.
Qed.

(** [get] on an empty selection: the warning is logged by
    [_select_data], and unpacking its [None] raises. *)
Lemma get_select_none {St} (s s' : St) (self : Spectra) stokes logs :
  _select_data self s = Run s' logs (Ok None) →
  get self stokes s = Run s' logs (Raise TypeError).
Proof.
  intros Hsel. unfold get. rewrite (bind_ok _ _ _ _ _ _ Hsel).
  rewrite (bind_raise _ _ _ s' [] TypeError) by reflexivity.
  cbn [result final logged]. by rewrite app_nil_r.
Qed.

End ReaderFacts.

(** C3. Opening a file whose only block has lost packets: the mask is
    computed and flags the block, and the constructor then raises
    [IndexError] instead of proceeding without samples. *)
Theorem open_lost_file_raises :
  reference_mask lost_file = [true] ∧
  result (@_get_bad_data_mask () lost_file ()) = Ok [true] ∧
  result (@Spectra_init spec_utils iso_time () lost_file ()) = Raise IndexError.
Proof.
  split; [reflexivity|]. split; [reflexivity|].
  eapply (init_all_invalid (H := spec_utils) (H0 := iso_time)).
  - vm_compute. reflexivity.
  - repeat constructor.
Qed.

(** C2. A query whose time range resolves to one and the same sample:
    the file opens, the setter accepts the range, [_select_data] logs
    the warning of an empty selection, its last record, and [get] raises
    [TypeError] instead of returning an absent result. *)
Theorem get_empty_selection_raises :
  let r := @query_time_range spec_utils iso_time () demo_file
             (PTime [1000; 1000 + (1 # 1000000)]%Q) (PStr "I") () in
  result r = Raise TypeError ∧
  last (logged r) = Some (WARNING, "Time selection leads to empty dataset.").
Proof. split; reflexivity. Qed.

(** ** The setters of the configuration *)

Lemma Qge_bool_true (a b : Q) : (b <= a)%Q → Qge_bool a b = true.
Proof. intros Hle. unfold Qge_bool. by apply Qle_bool_iff. Qed.

(** C5. Each setter refuses the invalid values at once and leaves the
    configuration as it was: a beam that is not an available beam (or
    not an integer), a time or a frequency range whose start is not
    before its stop, a tuple of edge channels that has not two items or
    has an item that is not an integer, and an edge-channel value that
    is neither a tuple nor an integer.  Nothing is logged and no
    attribute changes. *)
Theorem invalid_values_rejected (c : _ProcessingConfiguration) :
  (∀ v, (∀ b, isinstance_int v = Some b → int_value b ∉ available_beams c) →
        ∃ e, set_beam v c = Run c [] (Raise e)) ∧
  (∀ t0 t1, (t1 <= t0)%Q →
        set_time_range (PTime [t0; t1]) c = Run c [] (Raise ValueError)) ∧
  (∀ f0 f1 u, (f1 <= f0)%Q →
        set_frequency_range (PQuantity [f0; f1] u) c
        = Run c [] (Raise ValueError)) ∧
  (∀ l, length l ≠ 2%nat →
        set_edge_channels_to_remove (PTuple l) c
        = Run c [] (Raise IndexError)) ∧
  (∀ a b, isinstance_int a = None ∨ isinstance_int b = None →
        set_edge_channels_to_remove (PTuple [a; b]) c
        = Run c [] (Raise TypeError)) ∧
  (∀ v, (∀ l, v ≠ PTuple l) → isinstance_int v = None →
        set_edge_channels_to_remove v c = Run c [] (Raise TypeError)).
Proof.
  repeat split.
  - intros v Hv. unfold set_beam. run_unfold. cbn [result final logged].
    destruct (isinstance_int v) as [b|] eqn:Hb; [|by eexists].
    rewrite bool_decide_eq_false_2 by (by apply Hv). by eexists.
  - intros t0 t1 Hle. unfold set_time_range. run_unfold.
    cbn [result final logged]. by rewrite Qge_bool_true.
  - intros f0 f1 u Hle. unfold set_frequency_range.
    by rewrite Qge_bool_true.
  - intros l Hl. unfold set_edge_channels_to_remove.
    destruct l as [|a [|b [|x l]]]; simpl in Hl; done.
  - intros a b Hab. unfold set_edge_channels_to_remove.
    destruct Hab as [-> | ->]; [done|]. by destruct (isinstance_int a).
  - intros v Hv Hint. unfold set_edge_channels_to_remove. rewrite Hint.
    destruct v; try done. by destruct (Hv l).
Qed.

Lemma invalid_values_rejected_witness :
  (∃ e, set_beam (PInt 7) demo_configuration
        = Run demo_configuration [] (Raise e)) ∧
  set_time_range (PTime [1001; 1000]%Q) demo_configuration
  = Run demo_configuration [] (Raise ValueError) ∧
  set_frequency_range (PQuantity [20; 20]%Q MHz) demo_configuration
  = Run demo_configuration [] (Raise ValueError) ∧
  set_edge_channels_to_remove (PTuple [PInt 1]) demo_configuration
  = Run demo_configuration [] (Raise IndexError) ∧
  set_edge_channels_to_remove (PTuple [PInt 1; PFloat 1]) demo_configuration
  = Run demo_configuration [] (Raise TypeError).
Proof.
  destruct (invalid_values_rejected demo_configuration)
    as (Hbeam & Htime & Hfreq & Hlen & Hitem & _).
  split.
  { apply Hbeam. intros b Hb. injection Hb as <-. simpl.
    rewrite !elem_of_cons. intros [?|[?|Hin]]; [lia|lia|].
    by apply elem_of_nil in Hin. }
  split; [apply Htime; unfold Qle; simpl; lia|].
  split; [apply Hfreq; unfold Qle; simpl; lia|].
  split; [apply Hlen; simpl; lia|].
  apply Hitem. by right.
Defined.

(** Outside the values listed above: a range in a unit that is not a
    frequency is stored before the log message fails to convert it, and
    a [bool] passes [isinstance(selected_beam, int)]. *)
Lemma frequency_range_wrong_unit (c : _ProcessingConfiguration) :
  set_frequency_range (PQuantity [1; 2]%Q second) c
  = Run (with_frequency_range (1, 2, second)%Q c) []
        (Raise UnitConversionError).
Proof. reflexivity. Qed.

Lemma beam_setter_accepts_bool :
  final (set_beam (PBool true) demo_configuration)
  = with_beam (IBool true) demo_configuration ∧
  py_str (IBool true) = "True".
Proof. split; reflexivity. Qed.

Section BeamKey.

Context `{TfUtils}.

(** A selection that is not empty has looked the beam up under the
    string [str(beam)]. *)
Lemma select_data_beam_key {St} (s : St) (self : Spectra) sel :
  result (_select_data self s) = Ok (Some sel) →
  ∃ b range,
    _beam (configuration self) = Some b ∧
    dict_get (py_str b) (beam_indices_dict self) = Some range.
Proof.
  unfold _select_data. intros Hrun.
  repeat (apply bind_result_ok in Hrun as (? & _ & Hrun)).
  destruct x0 as [tmin tmax].
  repeat (apply bind_result_ok in Hrun as (? & _ & Hrun)).
  case_match.
  { apply bind_result_ok in Hrun as (? & _ & Hrun). discriminate. }
  apply bind_result_ok in Hrun as (? & _ & Hrun).
  apply bind_result_ok in Hrun as ([[f0 f1] u] & _ & Hrun).
  apply bind_result_ok in Hrun as (factor & _ & Hrun).
  apply bind_result_ok in Hrun as (b & Hb & Hrun).
  apply bind_result_ok in Hrun as (range & Hrange & _).
  apply expect_result_ok in Hb. apply expect_result_ok in Hrange.
  eauto.
Qed.

End BeamKey.

(** C10. The setter of [beam] raises [TypeError] for every value that
    is not an instance of [int] (a [bool] is one, as a subclass): a
    string such as "0" and a numpy integer scalar are refused even when
    they denote an available beam, and the configuration is unchanged.
    The frequency selection, for its part, looks the stored beam up
    under its string [str(beam)]. *)
Theorem beam_setter_rejects_non_int `{TfUtils} :
  (∀ c v, isinstance_int v = None →
          set_beam v c = Run c [] (Raise TypeError)) ∧
  (∀ c s, set_beam (PStr s) c = Run c [] (Raise TypeError)) ∧
  (∀ c z, set_beam (PNpInt z) c = Run c [] (Raise TypeError)) ∧
  (0 ∈ available_beams demo_configuration ∧
   set_beam (PStr "0") demo_configuration
   = Run demo_configuration [] (Raise TypeError) ∧
   set_beam (PNpInt 0) demo_configuration
   = Run demo_configuration [] (Raise TypeError) ∧
   result (set_beam (PInt 0) demo_configuration) = Ok ()) ∧
  (∀ St (s : St) self sel,
     result (_select_data self s) = Ok (Some sel) →
     ∃ b range,
       _beam (configuration self) = Some b ∧
       dict_get (py_str b) (beam_indices_dict self) = Some range).
Proof.
  split; [|split; [|split; [|split]]].
  - intros c v Hv. unfold set_beam. run_unfold. cbn [result final logged].
    by rewrite Hv.
  - reflexivity.
  - reflexivity.
  - split; [cbn [available_beams demo_configuration]; apply elem_of_cons; by left|].
    split; [reflexivity|]. split; reflexivity.
  - intros St s self sel. apply select_data_beam_key.
Qed.

(** ** The parameters decoded from the first header *)

Lemma int32_in_range (x : Z) : in_int32 x → int32 x = x.
Proof.
  unfold in_int32, int32, wrap. intros Hx.
  rewrite Z.mod_small by lia. lia.
Qed.

Lemma lazy_load_parameters {St} (s : St) (b : block) (rest : list block) p d :
  result (_lazy_load_data (b :: rest) s) = Ok (p, d) →
  p = decode_parameters (header b) ∧ d = b :: rest.
Proof.
  unfold _lazy_load_data. destruct (_ || _); [discriminate|].
  destruct (n_subbands _ <? 0); run_unfold; cbn [result final logged].
  - discriminate.
  - intros [= <- <-]. done.
Qed.

(** Within the range of [int32].  For a header whose fields are in the
    range of their types, the decoded channel count is the FFT length,
    the samples per block are the [nffte] field, the subband count is
    the absolute value of the subband field unless that field is -2^31,
    the time step is channel count x nfft2int / 195312.5 provided this
    product, an [int32], does not overflow, and the frequency step is
    195312.5 / channel count for a channel count other than 0.  These
    are the parameters a file that loads is given. *)
Theorem decoded_parameters (h : block_header) :
  header_in_range h →
  in_int32 (fftlen h * nfft2int h) →
  nbchan h ≠ - 2 ^ 31 →
  let p := decode_parameters h in
  n_channels p = fftlen h ∧
  _n_time_per_block p = nffte h ∧
  n_subbands p = Z.abs (nbchan h) ∧
  dt p = (inject_Z (fftlen h * nfft2int h) / SUBBAND_WIDTH)%Q ∧
  (fftlen h ≠ 0 → df p = Some (SUBBAND_WIDTH / inject_Z (fftlen h))%Q) ∧
  (∀ St (s : St) beamlets rest p' d,
     result (_lazy_load_data (Block h beamlets :: rest) s) = Ok (p', d) →
     p' = p).
Proof.
  intros Hrange Hprod Hnb p. subst p. unfold decode_parameters.
  cbn [n_channels _n_time_per_block n_subbands dt df].
  destruct Hrange as (_ & _ & _ & _ & _ & _ & _ & _ & Hnbr).
  repeat split.
  - unfold np_abs_int32. apply int32_in_range.
    unfold in_int32 in *. lia.
  - by rewrite int32_in_range.
  - intros Hfft. apply Z.eqb_neq in Hfft. by rewrite Hfft.
  - intros St s beamlets rest p' d Hload.
    by apply lazy_load_parameters in Hload as [-> _].
Qed.

Lemma decoded_parameters_witness :
  let p := decode_parameters (BlockHeader 0 1000 0 2 1 0 0 1 (-2)) in
  n_channels p = 2 ∧ _n_time_per_block p = 1 ∧ n_subbands p = 2 ∧
  dt p = (inject_Z (2 * 1) / SUBBAND_WIDTH)%Q ∧
  df p = Some (SUBBAND_WIDTH / inject_Z 2)%Q.
Proof.
  assert (Hrange : header_in_range (BlockHeader 0 1000 0 2 1 0 0 1 (-2))).
  { unfold header_in_range, in_uint64, in_int32. simpl. lia. }
  assert (Hprod : in_int32 (fftlen (BlockHeader 0 1000 0 2 1 0 0 1 (-2))
                            * nfft2int (BlockHeader 0 1000 0 2 1 0 0 1 (-2)))).
  { unfold in_int32. simpl. lia. }
  assert (Hnb : nbchan (BlockHeader 0 1000 0 2 1 0 0 1 (-2)) ≠ - 2 ^ 31).
  { simpl. lia. }
  destruct (decoded_parameters _ Hrange Hprod Hnb)
    as (Hc & Ht & Hs & Hdt & Hdf & _).
  intros p. split; [exact Hc|]. split; [exact Ht|]. split; [exact Hs|].
  split; [exact Hdt|]. apply Hdf. simpl. lia.
Defined.

(** C8.  A header with an FFT length of 65536 and 32768 integrated
    FFTs, all fields in the range of their types: the file loads, and
    the time step is computed from the product wrapped to [int32],
    -2^31 / 195312.5 s, a negative duration of about -10995 s, not
    fftlen x nfft2int / 195312.5.  On a subband field of -2^31 the
    absolute value wraps likewise and the subband count is negative. *)
Lemma decoded_parameters_overflow :
  let h := BlockHeader 0 1000 0 65536 32768 0 0 1 1 in
  header_in_range h ∧
  result (@_lazy_load_data () [Block h [wide_beamlet]] ())
  = Ok (decode_parameters h, [Block h [wide_beamlet]]) ∧
  dt (decode_parameters h) = (inject_Z (- 2 ^ 31) / SUBBAND_WIDTH)%Q ∧
  ¬ (dt (decode_parameters h)
     == inject_Z (fftlen h * nfft2int h) / SUBBAND_WIDTH)%Q ∧
  n_subbands (decode_parameters (BlockHeader 0 1000 0 2 1 0 0 1 (- 2 ^ 31)))
  ≠ Z.abs (- 2 ^ 31).
Proof.
  repeat split; try (unfold in_uint64, in_int32; simpl; lia).
  - vm_compute. discriminate.
  - vm_compute. discriminate.
Qed.

(** ** The default configuration *)

Lemma head_of_map {A B} (f : A → B) (l : list A) :
  head (map f l) = f <$> head l.
Proof. by destruct l. Qed.

Lemma last_of_map {A B} (f : A → B) (l : list A) :
  last (map f l) = f <$> last l.
Proof. induction l as [|x [|y l] IH]; try done. Qed.

Section DefaultConfiguration.

Context `{TfUtils} `{AstropyTime}.

Lemma set_time_range_ok (c : _ProcessingConfiguration) (t0 t1 : Q) :
  result (set_time_range (PTime [t0; t1]) c) = Ok () →
  final (set_time_range (PTime [t0; t1]) c) = with_time_range (t0, t1) c.
Proof.
  unfold set_time_range. run_unfold. cbn [result final logged].
  destruct (Qge_bool t0 t1); [discriminate|].
  by destruct (_ || _).
Qed.

Lemma set_frequency_range_ok (c : _ProcessingConfiguration) (f0 f1 : Q) :
  result (set_frequency_range (PQuantity [f0; f1] Hz) c) = Ok () →
  final (set_frequency_range (PQuantity [f0; f1] Hz) c)
  = with_frequency_range (f0, f1, Hz) c.
Proof.
  unfold set_frequency_range. run_unfold.
  by destruct (Qge_bool f0 f1).
Qed.

Lemma set_beam_ok (c : _ProcessingConfiguration) (z : Z) :
  result (set_beam (PInt z) c) = Ok () →
  final (set_beam (PInt z) c) = with_beam (IInt z) c.
Proof.
  unfold set_beam. run_unfold. cbn [result final logged isinstance_int].
  by destruct (bool_decide _).
Qed.

Lemma configuration_init_ok {St} (s : St) tmin tmax fmin fmax beams c :
  result (ProcessingConfiguration_init tmin tmax fmin fmax beams s) = Ok c →
  c = ProcessingConfiguration beams tmin tmax fmin fmax
        (Some (isot_reparse 7 tmin, isot_reparse 7 tmax))
        (Some (fmin, fmax, Hz)) (Some (IInt 0))
        None None None None false (None, None, None) true
        (Some (EdgeBoth (IInt 0))).
Proof.
  unfold ProcessingConfiguration_init. intros Hrun.
  apply on_object_ok in Hrun as (u & Hrun & ->).
  apply bind_final_ok in Hrun as ([] & Htime & Hrun & ->).
  apply set_time_range_ok in Htime. rewrite Htime in *. clear Htime.
  apply bind_final_ok in Hrun as ([] & Hfreq & Hrun & ->).
  apply set_frequency_range_ok in Hfreq. rewrite Hfreq in *. clear Hfreq.
  apply bind_final_ok in Hrun as ([] & Hbeam & Hrun & ->).
  apply set_beam_ok in Hbeam. rewrite Hbeam in *. clear Hbeam.
  reflexivity.
Qed.

Lemma get_untouched {St} (s : St) (self : Spectra) stokes e :
  correct_bandpass (configuration self) = true →
  _edge_channels_to_remove (configuration self) = Some e →
  edge_channels_requested e = false →
  rebin_dt (configuration self) = None →
  rebin_df (configuration self) = None →
  get self stokes s = get_plain self stokes s.
Proof.
  intros Hbp He Hreq Hdt Hdf.
  unfold get, get_plain, _time_frequency_rebin. cbv zeta.
  rewrite Hbp, He, Hdt, Hdf.
  apply bind_ext. intros sel s1. apply bind_ext. intros [[f t] d] s2.
  rewrite bind_assoc. apply bind_ext. intros [] s3.
  apply bind_ext. intros d2 s4.
  cbn [get_attr expect]. rewrite bind_ret_l, Hreq, bind_ret_l.
  apply bind_ext. intros d3 s5.
  rewrite bind_assoc, bind_ret_l, bind_assoc, !bind_ret_l.
  reflexivity.
Qed.

End DefaultConfiguration.

(** The default configuration.  After a file has been opened the
    configuration holds beam 0, the bandpass correction, no edge channel
    to remove and no rebinning; [time_min] is the start of the first
    valid block and [time_max] the start of the last valid block plus
    one block duration; the time range is made of these two instants
    read back from their ISO strings at precision 7; the frequency range
    goes from the start of the first subband to the start of the last
    subband plus one subband width.  A query on this configuration is
    the selection, the bandpass correction and the Stokes reduction,
    with no masking and no rebinning. *)
Theorem default_configuration `{TfUtils} `{AstropyTime} {St} (s : St)
  (file : list block) (sp : Spectra) :
  result (Spectra_init file s) = Ok sp →
  let c := configuration sp in
  let valid := select_valid file (reference_mask file) in
  _beam c = Some (IInt 0) ∧
  correct_bandpass c = true ∧
  _edge_channels_to_remove c = Some (EdgeBoth (IInt 0)) ∧
  rebin_dt c = None ∧
  rebin_df c = None ∧
  (∃ block0 first_valid last_valid first_subband last_subband,
     head file = Some block0 ∧
     head valid = Some first_valid ∧
     last valid = Some last_valid ∧
     head (data_ block0) = Some first_subband ∧
     last (data_ block0) = Some last_subband ∧
     time_min c = block_start_unix first_valid ∧
     time_max c
     = (block_start_unix last_valid
        + inject_Z (nffte (header block0))
          * dt (decode_parameters (header block0)))%Q ∧
     _time_range c
     = Some (isot_reparse 7 (time_min c), isot_reparse 7 (time_max c)) ∧
     _frequency_range c
     = Some ((inject_Z (channel first_subband) * SUBBAND_WIDTH)%Q,
             (inject_Z (channel last_subband) * SUBBAND_WIDTH
              + SUBBAND_WIDTH)%Q,
             Hz)) ∧
  (∀ stokes St' (s' : St'), get sp stokes s' = get_plain sp stokes s').
Proof.
  unfold Spectra_init. intros Hrun.
  apply bind_result_ok in Hrun as (_ & _ & Hrun).
  apply bind_result_ok in Hrun as ([p data] & Hload & Hrun).
  destruct file as [|b0 rest].
  { unfold _lazy_load_data in Hload. run_unfold_in Hload. discriminate. }
  apply lazy_load_parameters in Hload as [-> ->].
  apply bind_result_ok in Hrun as (mask & Hmask & Hrun).
  match type of Hmask with
  | result (_get_bad_data_mask _ ?s0) = _ =>
      destruct (bad_data_mask_run s0 b0 rest) as [mlogs Hm];
      rewrite Hm in Hmask
  end.
  cbn [result] in Hmask. injection Hmask as <-.
  apply bind_result_ok in Hrun as (block0 & Hb0 & Hrun).
  apply expect_result_ok in Hb0. cbn in Hb0. injection Hb0 as <-.
  apply bind_result_ok in Hrun as (_ & _ & Hrun).
  apply bind_result_ok in Hrun as (t_first & Htf & Hrun).
  apply bind_result_ok in Hrun as (t_last & Htl & Hrun).
  apply bind_result_ok in Hrun as (f_first & Hff & Hrun).
  apply bind_result_ok in Hrun as (f_last & Hfl & Hrun).
  apply bind_result_ok in Hrun as (beams & _ & Hrun).
  apply bind_result_ok in Hrun as (c & Hc & Hrun).
  apply configuration_init_ok in Hc. subst c.
  run_unfold_in Hrun. cbn [result] in Hrun. injection Hrun as <-.
  apply expect_result_ok in Htf, Htl, Hff, Hfl.
  rewrite head_of_map in Htf. rewrite head_of_map in Hff.
  rewrite last_of_map in Htl. rewrite last_of_map in Hfl.
  apply fmap_Some in Htf as (first_valid & Hfv & ->).
  apply fmap_Some in Htl as (last_valid & Hlv & ->).
  apply fmap_Some in Hff as (first_subband & Hfs & ->).
  apply fmap_Some in Hfl as (last_subband & Hls & ->).
  cbn [configuration _beam correct_bandpass _edge_channels_to_remove
       rebin_dt rebin_df time_min time_max _time_range _frequency_range].
  repeat (split; [reflexivity|]). split.
  - exists b0, first_valid, last_valid, first_subband, last_subband.
    repeat (split; [done|]). reflexivity.
  - intros stokes St' s'. by eapply get_untouched.
Qed.

Lemma default_configuration_witness :
  ∃ sp,
    result (@Spectra_init spec_utils iso_time () demo_file ()) = Ok sp ∧
    _beam (configuration sp) = Some (IInt 0) ∧
    correct_bandpass (configuration sp) = true ∧
    _edge_channels_to_remove (configuration sp) = Some (EdgeBoth (IInt 0)) ∧
    rebin_dt (configuration sp) = None ∧
    rebin_df (configuration sp) = None.
Proof.
  pose proof (eq_refl : match result (@Spectra_init spec_utils iso_time ()
                                        demo_file ()) with
                        | Ok _ => true
                        | Raise _ => false
                        end = true) as Hok.
  destruct (result (@Spectra_init spec_utils iso_time () demo_file ()))
    as [sp|e] eqn:Hres; [|discriminate Hok].
  exists sp. split; [reflexivity|].
  destruct (default_configuration (H := spec_utils) (H0 := iso_time)
              () demo_file sp Hres) as (Hb & Hbp & He & Hdt & Hdf & _).
  repeat split; assumption.
Defined.

(** On a block that starts at 1 s + 5.12 us the default time range
    starts at 1.0000051 s, the start time written with seven decimals,
    not at the start of the block. *)
Lemma default_time_range_rounded :
  ∃ sp t0 t1,
    result (@Spectra_init spec_utils iso_time () early_file ()) = Ok sp ∧
    _block_start_unix sp = [(1 + 1 / SUBBAND_WIDTH)%Q] ∧
    _time_range (configuration sp) = Some (t0, t1) ∧
    (t0 == 10000051 # 10000000)%Q ∧
    ¬ (t0 == 1 + 1 / SUBBAND_WIDTH)%Q.
Proof.
  eexists _, _, _. split; [reflexivity|].
  split; [reflexivity|]. split; [reflexivity|].
  split; vm_compute; [reflexivity | discriminate].
Qed.

(** C9.  A file of two blocks of three samples, two seconds apart, is
    opened and queried with no configuration change: the bandpass
    correction is on and no rebinning is asked.  The query returns the
    data of the full file, six time samples, with a time axis of a
    single instant, the start of the first block: the six rows have no
    time but the first. *)
Theorem default_query_time_axis :
  ∃ sp r,
    spaced_spectra = Some sp ∧
    result (@Spectra_init spec_utils iso_time () spaced_file ()) = Ok sp ∧
    correct_bandpass (configuration sp) = true ∧
    rebin_dt (configuration sp) = None ∧
    rebin_df (configuration sp) = None ∧
    length (_block_start_unix sp) = 2%nat ∧
    _n_time_per_block (parameters sp) = 3 ∧
    result (get sp (PStr "I") ()) = Ok r ∧
    n_times (tf (sdata r)) = 6 ∧
    length (items (tf (sdata r))) = 6%nat ∧
    length (stime r) = 1%nat ∧
    Forall2 feq (stime r) [Val 1000].
Proof.
  eexists _, _. split; [reflexivity|].
  split; [reflexivity|].
  do 5 (split; [reflexivity|]).
  split; [vm_compute; reflexivity|].
  do 3 (split; [reflexivity|]).
  repeat constructor.
Qed.

(** ** Cutting an axis into pieces *)

Lemma length_chunks {A} (r k : nat) (xs : list A) :
  length (chunks r k xs) = r.
Proof. revert xs. induction r; intros xs; simpl; auto. Qed.

Lemma chunks_lookup {A} (r k : nat) (xs : list A) (i : nat) :
  (i < r)%nat → chunks r k xs !! i = Some (take k (drop (i * k) xs)).
Proof.
  revert xs i. induction r as [|r IH]; intros xs i Hi; [lia|].
  destruct i as [|i]; simpl; [reflexivity|].
  rewrite IH by lia. by rewrite drop_drop.
Qed.

Lemma concat_chunks {A} (r k : nat) (xs : list A) :
  length xs = (r * k)%nat → concat (chunks r k xs) = xs.
Proof.
  revert xs. induction r as [|r IH]; intros xs Hlen; simpl.
  - destruct xs; [reflexivity | discriminate].
  - rewrite IH; [apply take_drop|]. rewrite length_drop. lia.
Qed.

Lemma chunks_concat {A} (k : nat) (ls : list (list A)) :
  Forall (λ l, length l = k) ls → chunks (length ls) k (concat ls) = ls.
Proof.
  induction 1 as [|l ls Hl _ IH]; simpl; [reflexivity|].
  rewrite take_app_length' by done. rewrite drop_app_length' by done.
  by rewrite IH.
Qed.

Lemma chunks_Forall_length {A} (r k : nat) (xs : list A) :
  length xs = (r * k)%nat → Forall (λ l, length l = k) (chunks r k xs).
Proof.
  revert xs. induction r as [|r IH]; intros xs Hlen; simpl; constructor.
  - rewrite length_take. lia.
  - apply IH. rewrite length_drop. lia.
Qed.

Lemma chunks_Forall {A} (P : A → Prop) (r k : nat) (xs : list A) :
  Forall P xs → Forall (Forall P) (chunks r k xs).
Proof.
  revert xs. induction r as [|r IH]; intros xs Hxs; simpl; constructor.
  - by apply Forall_take.
  - apply IH. by apply Forall_drop.
Qed.

Lemma chunks_singletons {A} (xs : list A) :
  chunks (length xs) 1 xs = map (λ x, [x]) xs.
Proof.
  induction xs as [|x xs IH]; simpl; [reflexivity|].
  rewrite take_0, drop_0. by rewrite IH.
Qed.

(** ** Divisions of the index computations *)

Lemma inject_Z_nonzero (n : Z) : n ≠ 0 → Qeq_bool (inject_Z n) 0 = false.
Proof.
  intros Hn. apply not_true_iff_false. intros Heq.
  apply Qeq_bool_iff in Heq. unfold Qeq in Heq. simpl in Heq. lia.
Qed.

Lemma Qtrunc_div_nonneg (a b : Z) :
  0 <= a → 0 < b → Qtrunc (inject_Z a / inject_Z b) = a / b.
Proof.
  intros Ha Hb. unfold Qtrunc, Qlt_bool.
  assert (Hle : (0 <= inject_Z a / inject_Z b)%Q).
  { apply Qle_shift_div_l.
    - unfold Qlt. simpl. lia.
    - unfold Qle. simpl. lia. }
  apply Qle_bool_iff in Hle. rewrite Hle. simpl.
  symmetry. apply Zdiv_Qdiv.
Qed.

Lemma float_div_to_int_trunc {St} (s : St) (a b : Z) :
  0 <= a → 0 < b →
  float_div_to_int Qtrunc (inject_Z a) (inject_Z b) s = Run s [] (Ok (a / b)).
Proof.
  intros Ha Hb. unfold float_div_to_int.
  rewrite inject_Z_nonzero by lia. by rewrite Qtrunc_div_nonneg.
Qed.

(** ** Masking the edge channels *)

Lemma slice_fill_edges {A} (nan : A) (n lo hi : Z) (sb : list A) :
  Z.of_nat (length sb) = n → 0 <= lo → 0 <= hi → lo + hi <= n →
  py_slice_fill (Some (n - hi)) None nan (py_slice_fill None (Some lo) nan sb)
  = edges_masked nan (Z.to_nat lo) (Z.to_nat hi) sb.
Proof.
  intros Hlen Hlo Hhi Hsum. apply list_eq. intros i.
  unfold py_slice_fill, slice_bounds, edges_masked. cbn [from_option].
  rewrite length_imap, Hlen. unfold slice_index.
  rewrite (proj2 (Z.ltb_ge lo 0)) by lia.
  rewrite (proj2 (Z.ltb_ge (n - hi) 0)) by lia.
  rewrite !list_lookup_imap.
  destruct (decide (i < length sb)%nat) as [Hi|Hi].
  - destruct (lookup_lt_is_Some_2 sb i Hi) as [x Hx]. rewrite Hx. simpl.
    destruct (decide (Z.of_nat i < lo)) as [Hlow|Hlow].
    + rewrite lookup_app_l by (rewrite length_replicate; lia).
      rewrite lookup_replicate_2 by lia.
      rewrite (bool_decide_eq_false_2 (Z.min (n - hi) n <= _ < n)) by lia.
      by rewrite bool_decide_eq_true_2 by lia.
    + rewrite lookup_app_r by (rewrite length_replicate; lia).
      rewrite length_replicate.
      destruct (decide (Z.of_nat i < n - hi)) as [Hmid|Hmid].
      * rewrite lookup_app_l by (rewrite length_take, length_drop; lia).
        rewrite lookup_take_lt by lia. rewrite lookup_drop.
        replace (Z.to_nat lo + (i - Z.to_nat lo))%nat with i by lia.
        rewrite (bool_decide_eq_false_2 (Z.min (n - hi) n <= _ < n)) by lia.
        by rewrite bool_decide_eq_false_2 by lia.
      * rewrite lookup_app_r by (rewrite length_take, length_drop; lia).
        rewrite lookup_replicate_2
          by (rewrite length_take, length_drop; lia).
        by rewrite bool_decide_eq_true_2 by lia.
  - rewrite (lookup_ge_None_2 sb i) by lia. simpl. symmetry.
    apply lookup_ge_None_2.
    rewrite !length_app, !length_replicate, length_take, length_drop. lia.
Qed.

Lemma length_edges_masked {A} (nan : A) (lo hi : nat) (sb : list A) :
  (lo + hi <= length sb)%nat → length (edges_masked nan lo hi sb) = length sb.
Proof.
  intros Hle. unfold edges_masked.
  rewrite !length_app, !length_replicate, length_take, length_drop. lia.
Qed.

Lemma edges_masked_none {A} (nan : A) (sb : list A) :
  edges_masked nan 0 0 sb = sb.
Proof.
  unfold edges_masked. simpl. rewrite app_nil_r, drop_0.
  apply take_ge. lia.
Qed.

Lemma filter_replicate_marked {A} (marked : A → bool) (x : A) (k : nat) :
  marked x = true → List.filter marked (replicate k x) = replicate k x.
Proof. intros Hx. induction k; simpl; [done|]. by rewrite Hx, IHk. Qed.

Lemma filter_unmarked {A} (marked : A → bool) (l : list A) :
  Forall (λ x, marked x = false) l → List.filter marked l = [].
Proof. induction 1 as [|x l Hx _ IH]; simpl; [done|]. by rewrite Hx. Qed.

Lemma count_edges_masked {A} (marked : A → bool) (nan : A) (lo hi : nat)
  (sb : list A) :
  marked nan = true → Forall (λ x, marked x = false) sb →
  count_marked marked (edges_masked nan lo hi sb) = (lo + hi)%nat.
Proof.
  intros Hnan Hsb. unfold count_marked, edges_masked.
  rewrite !List.filter_app, !filter_replicate_marked by done.
  rewrite filter_unmarked by (by apply Forall_take, Forall_drop).
  rewrite !length_app, !length_replicate. simpl. lia.
Qed.

Lemma subbands_of_row {A} (n nf : Z) (row : list A) :
  Z.of_nat (length row) = nf →
  chunks (Z.to_nat (nf / n)) (Z.to_nat n) row = subbands n row.
Proof. intros <-. reflexivity. Qed.

Lemma subbands_length {A} (n : Z) (row : list A) :
  0 < n → Z.of_nat (length row) mod n = 0 →
  Forall (λ sb, Z.of_nat (length sb) = n) (subbands n row).
Proof.
  intros Hn Hmod. unfold subbands.
  eapply Forall_impl; [apply chunks_Forall_length|].
  - apply Nat2Z.inj. rewrite Nat2Z.inj_mul, !Z2Nat.id; [|lia|].
    + rewrite Z.mul_comm. apply Z.div_exact in Hmod; lia.
    + apply Z.div_pos; lia.
  - intros sb Hsb. simpl in Hsb. lia.
Qed.

Lemma reshape_subbands_run {St A} (s : St) (n : Z) (data : cube A) :
  cube_wf data → 0 < n → n_freqs data mod n = 0 →
  reshape_subbands n data s = Run s [] (Ok (map (subbands n) (items data))).
Proof.
  intros (Hnt & Hnf & Hrows) Hn Hmod. unfold reshape_subbands.
  rewrite (bind_ok _ _ _ _ _ _ (float_div_to_int_trunc s _ _ Hnf Hn)).
  rewrite (proj2 (Z.ltb_ge n 0)) by lia.
  assert (Hexact : n_freqs data / n * n = n_freqs data).
  { apply Z.div_exact in Hmod; lia. }
  rewrite (proj2 (Z.eqb_eq _ _) Hexact), orb_true_r.
  run_unfold. simpl. do 2 f_equal.
  apply map_ext_in. intros row Hrow. apply subbands_of_row.
  rewrite Forall_forall in Hrows. apply Hrows. by apply list_elem_of_In.
Qed.

Lemma remove_edge_channels_run {St A} (s : St) (nan : A) (data : cube A)
  (n lo hi : Z) :
  cube_wf data → 0 < n → n_freqs data mod n = 0 →
  0 <= lo → 0 <= hi → lo + hi <= n →
  ∃ logs,
    _remove_edge_channels nan data n lo hi s
    = Run s logs
        (Ok (Cube (n_times data) (n_freqs data)
               (map (λ row,
                       concat (map (edges_masked nan (Z.to_nat lo) (Z.to_nat hi))
                                   (subbands n row)))
                    (items data)))).
Proof.
  intros Hwf Hn Hmod Hlo Hhi Hsum. eexists. unfold _remove_edge_channels.
  rewrite (bind_ok _ _ _ _ _ _ (reshape_subbands_run s n data Hwf Hn Hmod)).
  run_unfold. cbn [result final logged]. unfold merge_subbands.
  rewrite !map_map. f_equal. do 2 f_equal.
  apply map_ext_in. intros row Hrow. f_equal.
  apply map_ext_in. intros sb Hsb.
  apply slice_fill_edges; try done.
  destruct Hwf as (_ & _ & Hrows). rewrite Forall_forall in Hrows.
  assert (Hlen : Z.of_nat (length row) = n_freqs data).
  { apply Hrows. by apply list_elem_of_In. }
  pose proof (subbands_length n row Hn) as Hsbs. rewrite Hlen in Hsbs.
  specialize (Hsbs Hmod). rewrite Forall_forall in Hsbs.
  apply Hsbs. by apply list_elem_of_In.
Qed.

Lemma subbands_masked_row {A} (nan : A) (n : Z) (lo hi : nat) (row : list A) :
  0 < n → Z.of_nat (length row) mod n = 0 →
  (Z.of_nat lo + Z.of_nat hi <= n) →
  subbands n (concat (map (edges_masked nan lo hi) (subbands n row)))
  = map (edges_masked nan lo hi) (subbands n row).
Proof.
  intros Hn Hmod Hsum.
  pose proof (subbands_length n row Hn Hmod) as Hlens.
  assert (Hmasked : Forall (λ l, length l = Z.to_nat n)
                      (map (edges_masked nan lo hi) (subbands n row))).
  { apply Forall_forall. intros sb' Hin. apply list_elem_of_In in Hin.
    apply in_map_iff in Hin as (sb & <- & Hin).
    rewrite Forall_forall in Hlens. apply list_elem_of_In in Hin.
    specialize (Hlens sb Hin). simpl in Hlens.
    rewrite length_edges_masked; lia. }
  pose proof (chunks_concat _ _ Hmasked) as Hcc.
  rewrite length_map in Hcc. unfold subbands at 1.
  assert (Hlen : length (concat (map (edges_masked nan lo hi) (subbands n row)))
                 = length row).
  { rewrite <- (concat_chunks (Z.to_nat (Z.of_nat (length row) / n))
                  (Z.to_nat n) row) at 2.
    - clear Hcc. unfold subbands in *.
      induction (chunks _ _ row) as [|sb l IH]; simpl; [done|].
      inversion Hmasked; subst. inversion Hlens; subst.
      rewrite !length_app. rewrite IH by done. lia.
    - apply Nat2Z.inj. rewrite Nat2Z.inj_mul, !Z2Nat.id; [|lia|].
      + rewrite Z.mul_comm. apply Z.div_exact in Hmod; lia.
      + apply Z.div_pos; lia. }
  rewrite Hlen. unfold subbands in Hcc. rewrite length_chunks in Hcc.
  exact Hcc.
Qed.

Lemma subbands_concat {A} (n : Z) (row : list A) :
  0 < n → Z.of_nat (length row) mod n = 0 → concat (subbands n row) = row.
Proof.
  intros Hn Hmod. unfold subbands. apply concat_chunks.
  apply Nat2Z.inj. rewrite Nat2Z.inj_mul, !Z2Nat.id; [|lia|].
  - rewrite Z.mul_comm. apply Z.div_exact in Hmod; lia.
  - apply Z.div_pos; lia.
Qed.

(** C6. On a cube whose rows hold whole subbands of [n] channels, with
    [k] lower and [k] upper channels to remove and [2k <= n], the masking
    succeeds, keeps the shape and turns every subband of every row into
    [k] markers, the channels in between unchanged, and [k] markers: on
    data without a marked item every subband carries exactly [2k] marked
    items, whatever the number of subbands.  With [k = 0] the data come
    back unchanged, and [get] skips the step for 0 and for (0, 0). *)
Theorem edge_channels_masked {St A} (s : St) (nan : A) (marked : A → bool)
  (data : cube A) (n k : Z) :
  marked nan = true →
  cube_wf data → 0 < n → n_freqs data mod n = 0 → 0 <= k → 2 * k <= n →
  ∃ logs out,
    _remove_edge_channels nan data n k k s = Run s logs (Ok out) ∧
    n_times out = n_times data ∧
    n_freqs out = n_freqs data ∧
    Forall2
      (λ row row',
         subbands n row'
         = map (edges_masked nan (Z.to_nat k) (Z.to_nat k)) (subbands n row) ∧
         (Forall (λ x, marked x = false) row →
          Forall (λ sb, count_marked marked sb = Z.to_nat (2 * k))
                 (subbands n row')))
      (items data) (items out) ∧
    (k = 0 → out = data) ∧
    edge_channels_requested (EdgeBoth (IInt 0)) = false ∧
    edge_channels_requested (EdgePair (IInt 0) (IInt 0)) = false.
Proof.
  intros Hnan Hwf Hn Hmod Hk H2k.
  destruct (remove_edge_channels_run s nan data n k k Hwf Hn Hmod Hk Hk)
    as [logs Hrun]; [lia|].
  eexists logs, _. split; [exact Hrun|].
  cbn [n_times n_freqs items]. do 2 (split; [reflexivity|]).
  destruct Hwf as (Hnt & Hnf & Hrows).
  assert (Hrowmod : ∀ row, row ∈ items data → Z.of_nat (length row) mod n = 0).
  { intros row Hrow. rewrite Forall_forall in Hrows.
    by rewrite (Hrows row Hrow). }
  split; [|split; [|split; reflexivity]].
  - apply Forall2_fmap_r, Forall_Forall2_diag, Forall_forall.
    intros row Hrow. specialize (Hrowmod row Hrow).
    assert (Heq : subbands n
                    (concat (map (edges_masked nan (Z.to_nat k) (Z.to_nat k))
                                 (subbands n row)))
                  = map (edges_masked nan (Z.to_nat k) (Z.to_nat k))
                        (subbands n row)).
    { apply subbands_masked_row; [done|done|lia]. }
    split; [exact Heq|]. intros Hclean. rewrite Heq.
    apply Forall_forall. intros sb' Hin. apply list_elem_of_In in Hin.
    apply in_map_iff in Hin as (sb & <- & Hin).
    rewrite count_edges_masked; [lia|done|].
    pose proof (chunks_Forall _ (Z.to_nat (Z.of_nat (length row) / n))
                  (Z.to_nat n) row Hclean) as Hall.
    rewrite Forall_forall in Hall. apply Hall. by apply list_elem_of_In.
  - intros ->. destruct data as [nt nf rows]. cbn [n_times n_freqs items] in *.
    f_equal. rewrite <- (map_id rows) at 2. apply map_ext_in.
    intros row Hrow. apply list_elem_of_In in Hrow.
    rewrite (map_ext_in _ id); [|intros sb _; apply edges_masked_none].
    rewrite map_id. apply subbands_concat; [done|]. by apply Hrowmod.
Qed.

Lemma edge_channels_masked_witness :
  ∃ logs out,
    _remove_edge_channels NaN
      (Cube 1 8 [[Val 1; Val 2; Val 3; Val 4; Val 5; Val 6; Val 7; Val 8]])
      4 1 1 ()
    = Run () logs (Ok out) ∧
    items out = [[NaN; Val 2; Val 3; NaN; NaN; Val 6; Val 7; NaN]].
Proof.
  assert (Hwf : cube_wf
            (Cube 1 8 [[Val 1; Val 2; Val 3; Val 4;
                        Val 5; Val 6; Val 7; Val 8]])).
  { repeat split; [simpl; lia|]. repeat constructor. }
  destruct (edge_channels_masked () NaN is_nan _ 4 1 eq_refl Hwf)
    as (logs & out & Hrun & _); [lia|reflexivity|lia|lia|].
  exists logs, out. split; [exact Hrun|].
  assert (Hres : result (Run () logs (Ok out))
                 = Ok (Cube 1 8 [[NaN; Val 2; Val 3; NaN;
                                  NaN; Val 6; Val 7; NaN]])).
  { rewrite <- Hrun. reflexivity. }
  cbn [result] in Hres. by injection Hres as ->.
Defined.

(** ** Rebinning in time *)

Lemma bind_run {St A B} (m : M St A) (f : A → M St B) s s1 l1 a s2 l2 r :
  m s = Run s1 l1 (Ok a) → f a s1 = Run s2 l2 r →
  (m ≫= f) s = Run s2 (l1 ++ l2) r.
Proof. intros Hm Hf. rewrite (bind_ok _ _ _ _ _ _ Hm), Hf. reflexivity. Qed.

Lemma float_div_to_int_run {St} (s : St) (f : Q → Z) (a b : Q) :
  ¬ (b == 0)%Q → float_div_to_int f a b s = Run s [] (Ok (f (a / b)%Q)).
Proof.
  intros Hb. unfold float_div_to_int.
  destruct (Qeq_bool b 0) eqn:Heq; [|reflexivity].
  by apply Qeq_bool_iff in Heq.
Qed.

Lemma quantity_floor_to_int_run {St} (s : St) (v k step : Q) :
  ¬ (step == 0)%Q →
  quantity_floor_to_int v (Some k) step s
  = Run s [] (Ok (Qtrunc (inject_Z (Qfloor (v / step)) * k))).
Proof. intros Hstep. by apply float_div_to_int_run. Qed.

Lemma int_floor_div_run {St} (s : St) (a b : Z) :
  b ≠ 0 → int_floor_div a b s = Run s [] (Ok (a / b)).
Proof.
  intros Hb. unfold int_floor_div. by rewrite (proj2 (Z.eqb_neq b 0) Hb).
Qed.

Lemma py_mod_run {St} (s : St) (a b : Z) :
  b ≠ 0 → py_mod a b s = Run s [] (Ok (a mod b)).
Proof. intros Hb. unfold py_mod. by rewrite (proj2 (Z.eqb_neq b 0) Hb). Qed.

Lemma int_trunc_div_run {St} (s : St) (a b : Z) :
  0 <= a → 0 < b → int_trunc_div a b s = Run s [] (Ok (a / b)).
Proof.
  intros Ha Hb. unfold int_trunc_div.
  rewrite (proj2 (Z.eqb_neq b 0)) by lia.
  by rewrite Z.quot_div_nonneg by lia.
Qed.

Lemma reshape_dims_run {St} (s : St) (a b len : Z) :
  0 <= a → 0 <= b → a * b = len →
  reshape_dims a b len s = Run s [] (Ok (a, b)).
Proof.
  intros Ha Hb Hlen. unfold reshape_dims.
  rewrite (proj2 (Z.ltb_ge a (-1))), (proj2 (Z.ltb_ge b (-1))) by lia.
  rewrite (proj2 (Z.eqb_neq a (-1))), (proj2 (Z.eqb_neq b (-1))) by lia.
  cbn [orb andb]. by rewrite (proj2 (Z.eqb_eq _ _) Hlen).
Qed.

Lemma py_slice_leftover {A} (xs : list A) (N l : Z) :
  Z.of_nat (length xs) = N → 0 <= l <= N →
  py_slice None (Some (leftover_stop l N)) xs = take (Z.to_nat (N - l)) xs.
Proof.
  intros Hlen Hl. unfold py_slice, slice_bounds, leftover_stop, slice_index.
  cbn [from_option]. rewrite Hlen, drop_0.
  destruct (l =? 0) eqn:Hl0.
  - apply Z.eqb_eq in Hl0 as ->.
    rewrite (proj2 (Z.ltb_ge N 0)) by lia. f_equal. lia.
  - apply Z.eqb_neq in Hl0.
    rewrite (proj2 (Z.ltb_lt (- l) 0)) by lia. f_equal. lia.
Qed.

(** The arithmetic of the bins: [n = N div B] bins of [k] samples each
    cover all samples but the last [l = N mod n]. *)
Lemma rebin_arithmetic (N B : Z) :
  1 <= B <= N →
  let n := N / B in
  let l := N mod n in
  let k := (N - l) / n in
  1 <= n ∧ 0 <= l < n ∧ 1 <= k ∧ n * k = N - l ∧ l <= N.
Proof.
  intros HB n l k.
  assert (Hn : 1 <= n).
  { subst n. apply Z.div_le_lower_bound; lia. }
  assert (Hl : 0 <= l < n) by (subst l; apply Z.mod_pos_bound; lia).
  assert (Hnk : N - l = n * (N / n)).
  { subst l. rewrite Z.mod_eq by lia. lia. }
  assert (Hk : k = N / n).
  { subst k. rewrite Hnk, Z.mul_comm. apply Z.div_mul. lia. }
  assert (Hle : n <= N).
  { subst n. apply Z.div_le_upper_bound; nia. }
  assert (Hk1 : 1 <= k).
  { rewrite Hk. apply Z.div_le_lower_bound; lia. }
  repeat split; lia.
Qed.

Lemma time_rebin_run {St} (s : St) (p : file_parameters) (v scale : Q)
  (u : unit_) (data : cube3) (times : list fval) (N B : Z) :
  cube3_wf data → n_times (tf data) = N → Z.of_nat (length times) = N →
  ¬ (dt p == 0)%Q → to_second u = Some scale →
  Qtrunc (inject_Z (Qfloor (v / dt p)) * scale) = B → 1 <= B <= N →
  let n := N / B in
  let l := N mod n in
  let k := (N - l) / n in
  time_rebin p (v, u) data times s
  = Run s
      [(INFO, "Time-averaging " +:+ str_int B +:+ " spectra...");
       (INFO, "Last " +:+ str_int l
              +:+ " spectra are left over for time-averaging.");
       (INFO, "Data are time-averaged.")]
      (Ok (Cube3
             (Cube n (n_freqs (tf data))
                (map (nanmean_rows (n_freqs (tf data)) (n_pols data))
                     (chunks (Z.to_nat n) (Z.to_nat k)
                             (take (Z.to_nat (N - l)) (items (tf data))))))
             (n_pols data),
           map nanmean
               (chunks (Z.to_nat n) (Z.to_nat k)
                       (take (Z.to_nat (N - l)) times)))).
Proof.
  intros [[Hnt _] _] HN Htimes Hdt Hu HB HBN n l k.
  destruct (rebin_arithmetic N B HBN) as (Hn & Hl & Hk & Hnk & HlN).
  fold n l k in Hn, Hl, Hk, Hnk, HlN.
  unfold time_rebin. cbv zeta. cbn [fst snd]. rewrite HN, Hu.
  etransitivity.
  { eapply bind_run; [apply quantity_floor_to_int_run; exact Hdt|].
    rewrite HB.
    eapply bind_run; [reflexivity|].
    eapply bind_run; [apply int_floor_div_run; lia|]. fold n.
    eapply bind_run; [apply py_mod_run; lia|]. fold l. cbv beta.
    rewrite !(py_slice_leftover _ N) by (done || lia).
    eapply bind_run; [reflexivity|].
    eapply bind_run; [apply int_trunc_div_run; lia|]. fold k.
    eapply bind_run.
    { apply reshape_dims_run; [lia|lia|].
      rewrite length_take. lia. }
    eapply bind_run.
    { apply reshape_dims_run; [lia|lia|].
      rewrite length_take. lia. }
    eapply bind_run; [reflexivity|]. reflexivity. }
  reflexivity.
Qed.

Lemma lookup_map {A B} (f : A → B) (l : list A) (i : nat) :
  map f l !! i = f <$> l !! i.
Proof. exact (list_lookup_fmap f l i). Qed.

Lemma take_drop_take {A} (xs : list A) (i k m : nat) :
  (i * k + k <= m)%nat →
  take k (drop (i * k) (take m xs)) = take k (drop (i * k) xs).
Proof.
  intros Hle. rewrite !take_drop_commute, take_take. f_equal. f_equal. lia.
Qed.

Lemma nanmean_rows_lookup (nf np : Z) (group : list (list (list fval)))
  (f pol : nat) :
  Z.of_nat f < nf → Z.of_nat pol < np →
  row_value (nanmean_rows nf np group) f pol
  = Some (nanmean (map (item_at f pol) group)).
Proof.
  intros Hf Hpol. unfold row_value, nanmean_rows.
  rewrite lookup_map, lookup_seq_lt by lia. cbn [fmap option_fmap option_map].
  rewrite lookup_map, lookup_seq_lt by lia. reflexivity.
Qed.

(** C4.  Ten time samples of 10.24 us each.  Asked for bins of 4
    native steps, the time rebinning takes 4 spectra per bin and
    reports 0 samples left over, yet it returns 2 bins that average 5
    samples each, the samples 0 to 4 and 5 to 9, of means 2 and 7:
    bins of the 4 samples the target covers leave 10 mod 4 = 2 samples
    over.  Asked for bins of 2.5 native steps it returns
    10 div floor(2.5) = 5 bins, not floor(10 / 2.5) = 4.  Asked for
    bins of 100 us written as 1/600000 min, which cover 9 native steps,
    it floors the ratio in minutes per second, to 0, and raises
    [ZeroDivisionError]. *)
Theorem time_rebin_bins_diverge :
  let step := dt demo_parameters in
  (∃ logs out times',
     time_rebin demo_parameters (4 * step, second)%Q ten_samples ten_times ()
     = Run () logs (Ok (out, times')) ∧
     Qtrunc (inject_Z (Qfloor (4 * step / step)) * 1) = 4 ∧
     (INFO, "Last 0 spectra are left over for time-averaging.") ∈ logs ∧
     n_times (tf out) = 2 ∧
     times' = map nanmean (chunks 2 5 ten_times) ∧
     Forall2 feq times' [Val 2; Val 7] ∧
     Forall2 (Forall2 (Forall2 feq)) (items (tf out))
             [[[Val 2]]; [[Val 7]]] ∧
     10 mod 4 = 2) ∧
  (∃ logs out times',
     time_rebin demo_parameters ((5 # 2) * step, second)%Q ten_samples
                ten_times ()
     = Run () logs (Ok (out, times')) ∧
     Qtrunc (inject_Z (Qfloor ((5 # 2) * step / step)) * 1) = 2 ∧
     n_times (tf out) = 5 ∧ length (items (tf out)) = 5%nat ∧
     Qfloor (inject_Z 10 * step / ((5 # 2) * step)) = 4) ∧
  (to_second minute = Some 60%Q ∧
   Qfloor ((1 # 600000) * 60 / step) = 9 ∧
   Qtrunc (inject_Z (Qfloor ((1 # 600000) / step)) * 60) = 0 ∧
   result (time_rebin demo_parameters (1 # 600000, minute)%Q ten_samples
                      ten_times ())
   = Raise ZeroDivisionError).
Proof.
  cbv zeta. split; [|split].
  - eexists _, _, _. split; [vm_compute; reflexivity|].
    split; [reflexivity|]. split.
    { apply elem_of_cons. right. apply elem_of_cons. by left. }
    split; [reflexivity|]. split; [reflexivity|].
    split; [|split; [|reflexivity]].
    + repeat constructor.
    + repeat constructor.
  - eexists _, _, _. split; [vm_compute; reflexivity|].
    repeat split; vm_compute; reflexivity.
  - repeat split; vm_compute; reflexivity.
Qed.

(** ** Bins of one native sample *)

Lemma nanmean_single (v : fval) : feq (nanmean [v]) v.
Proof.
  destruct v as [q|]; [|exact I]. unfold nanmean, feq. simpl. field.
Qed.

Lemma nanmean_rows_single (nf np : Z) (row : list (list fval)) :
  Z.of_nat (length row) = nf →
  Forall (λ v : list fval, Z.of_nat (length v) = np) row →
  Forall2 (Forall2 feq) (nanmean_rows nf np [row]) row.
Proof.
  intros Hnf Hnp. unfold nanmean_rows.
  apply Forall2_same_length_lookup_2.
  { rewrite length_map, length_seq. lia. }
  intros f x v Hx Hv. rewrite lookup_map in Hx.
  apply fmap_Some in Hx as (f' & Hseq & ->).
  apply lookup_seq in Hseq as [-> Hf]. simpl.
  assert (Hlen : Z.of_nat (length v) = np).
  { rewrite Forall_forall in Hnp. apply Hnp. by eapply list_elem_of_lookup_2. }
  apply Forall2_same_length_lookup_2.
  { rewrite length_map, length_seq. lia. }
  intros pol y q Hy Hq. rewrite lookup_map in Hy.
  apply fmap_Some in Hy as (pol' & Hseq & ->).
  apply lookup_seq in Hseq as [-> Hpol]. simpl.
  unfold item_at. rewrite Hv, Hq. apply nanmean_single.
Qed.

(** On a cube with at least one time sample and a time step other than
    0, rebinning to bins of exactly the native time step returns data
    and times numerically identical to the input, and reports 0
    left-over samples. *)
Lemma rebin_native_step {St} (s : St) (p : file_parameters)
  (c : _ProcessingConfiguration) (data : cube3) (times freqs : list fval) :
  cube3_wf data → 1 <= n_times (tf data) →
  Z.of_nat (length times) = n_times (tf data) →
  ¬ (dt p == 0)%Q → rebin_dt c = Some (dt p, second) → rebin_df c = None →
  ∃ logs out times',
    _time_frequency_rebin p c data times freqs s
    = Run s logs (Ok (freqs, times', out)) ∧
    cube3_feq out data ∧
    Forall2 feq times' times ∧
    (INFO, "Last 0 spectra are left over for time-averaging.") ∈ logs.
Proof.
  intros Hwf HN Htimes Hdt Hcdt Hcdf.
  assert (HB : Qfloor (dt p / dt p) = 1).
  { rewrite <- (Qfloor_Z 1). apply Qfloor_comp. by field. }
  assert (HB1 : Qtrunc (inject_Z (Qfloor (dt p / dt p)) * 1) = 1).
  { rewrite HB. reflexivity. }
  pose proof (time_rebin_run s p (dt p) 1 second data times
                (n_times (tf data)) 1
                Hwf eq_refl Htimes Hdt eq_refl HB1 ltac:(lia)) as Hrun.
  cbv zeta in Hrun.
  rewrite !Z.div_1_r, Z_mod_same_full, Z.sub_0_r, Z.div_same in Hrun by lia.
  destruct Hwf as [(Hnt & Hnf & Hrows) Hpols].
  destruct data as [[nt nf rows] np]. cbn [tf n_times n_freqs n_pols items] in *.
  subst nt. apply Nat2Z.inj in Htimes.
  rewrite Nat2Z.id, !take_ge in Hrun by lia.
  change (Z.to_nat 1) with 1%nat in Hrun.
  replace (chunks (length rows) 1 times) with (chunks (length times) 1 times)
    in Hrun by (by rewrite Htimes).
  rewrite !chunks_singletons, !map_map in Hrun.
  eexists _, _, _. split.
  { unfold _time_frequency_rebin. rewrite Hcdt, Hcdf.
    eapply bind_run; [exact Hrun|]. cbv beta iota.
    eapply bind_run; reflexivity. }
  split; [|split].
  - unfold cube3_feq. cbn [tf n_times n_freqs n_pols items].
    repeat (split; [reflexivity|]).
    apply Forall2_fmap_l, Forall_Forall2_diag, Forall_forall.
    intros row Hrow. apply nanmean_rows_single.
    + rewrite Forall_forall in Hrows. by apply Hrows.
    + rewrite Forall_forall in Hpols. by apply Hpols.
  - apply Forall2_fmap_l, Forall_Forall2_diag, Forall_forall.
    intros v _. apply nanmean_single.
  - rewrite !app_nil_r. apply elem_of_cons. right. apply elem_of_cons.
    by left.
Qed.

Lemma rebin_native_step_witness :
  ∃ logs out times',
    _time_frequency_rebin demo_parameters native_bins ten_samples ten_times []
                          ()
    = Run () logs (Ok ([], times', out)) ∧
    cube3_feq out ten_samples ∧
    Forall2 feq times' ten_times.
Proof.
  assert (Hwf : cube3_wf ten_samples).
  { repeat split; [simpl; lia | repeat constructor | repeat constructor]. }
  destruct (rebin_native_step () demo_parameters native_bins ten_samples
              ten_times [] Hwf)
    as (logs & out & times' & Hrun & Hdata & Htimes & _);
    [simpl; lia | reflexivity | discriminate | reflexivity | reflexivity |].
  exists logs, out, times'. split; [exact Hrun|]. split; assumption.
Defined.

(** C7. Rebinning a cube without a time sample to bins of the native
    time step: the number of bins is 0 and the remainder of the division
    by it raises [ZeroDivisionError], where the input should come back
    unchanged with 0 left-over samples.  A query for a time range
    outside the file reaches the rebinning with such a cube. *)
Theorem rebin_native_step_empty :
  cube3_wf no_sample ∧
  rebin_dt native_bins = Some (dt demo_parameters, second) ∧
  @_time_frequency_rebin () demo_parameters native_bins no_sample [] [] ()
  = Run () [(INFO, "Time-averaging 1 spectra...")] (Raise ZeroDivisionError) ∧
  result (@query_native_bins spec_utils iso_time () demo_file
            (PTime [0; 1]%Q) (PStr "I") ())
  = Raise ZeroDivisionError.
Proof.
  split; [|split; [|split]]; try reflexivity.
  repeat split; [simpl; lia | constructor | constructor].
Qed.

(** ** What the setters keep and accept *)

Lemma Qge_bool_false (a b : Q) : Qge_bool a b = false → (a < b)%Q.
Proof.
  unfold Qge_bool. intros Hle. apply Qnot_le_lt. intros Hba.
  apply Qle_bool_iff in Hba. congruence.
Qed.

Lemma Qlt_bool_true (a b : Q) : Qlt_bool a b = true ↔ (a < b)%Q.
Proof.
  unfold Qlt_bool. rewrite negb_true_iff. split.
  - intros Hle. apply Qnot_le_lt. intros Hba.
    apply Qle_bool_iff in Hba. congruence.
  - intros Hlt. apply not_true_iff_false. intros Hba.
    apply Qle_bool_iff in Hba. by apply Qle_not_lt in Hba.
Qed.

(** X1. Whatever value they are given, and whether they return or
    raise, the four setters leave a configuration with an ordered time
    range, an ordered frequency range and a beam among the available
    beams. *)
Theorem setters_keep_valid (c : _ProcessingConfiguration) (v : pyval) :
  configuration_valid c →
  configuration_valid (final (set_beam v c)) ∧
  configuration_valid (final (set_time_range v c)) ∧
  configuration_valid (final (set_frequency_range v c)) ∧
  configuration_valid (final (set_edge_channels_to_remove v c)).
Proof.
  intros (Htime & Hfreq & Hbeam). repeat split.
  - unfold set_beam. run_unfold. cbn [result final logged].
    destruct (isinstance_int v) as [b|]; cbn [result final]; [|done].
    case_bool_decide; cbn [result final]; done.
  - unfold set_beam. run_unfold. cbn [result final logged].
    destruct (isinstance_int v) as [b|]; cbn [result final]; [|done].
    case_bool_decide; cbn [result final]; done.
  - unfold set_beam. run_unfold. cbn [result final logged].
    destruct (isinstance_int v) as [b|]; cbn [result final]; [|done].
    case_bool_decide; cbn [result final]; [|done].
    intros b' [= <-]. done.
  - unfold set_time_range. run_unfold. cbn [result final logged].
    destruct v as [| | | | | | | |[|t0 [|t1 [|? ?]]]|]; cbn [result final];
      try done.
    destruct (Qge_bool t0 t1) eqn:Hge; cbn [result final]; [done|].
    destruct (_ || _); cbn [result final]; intros a b [= <- <-];
      by apply Qge_bool_false.
  - unfold set_time_range. run_unfold. cbn [result final logged].
    destruct v as [| | | | | | | |[|t0 [|t1 [|? ?]]]|]; cbn [result final];
      try done.
    destruct (Qge_bool t0 t1) eqn:Hge; cbn [result final]; [done|].
    destruct (_ || _); cbn [result final]; done.
  - unfold set_time_range. run_unfold. cbn [result final logged].
    destruct v as [| | | | | | | |[|t0 [|t1 [|? ?]]]|]; cbn [result final];
      try done.
    destruct (Qge_bool t0 t1) eqn:Hge; cbn [result final]; [done|].
    destruct (_ || _); cbn [result final]; done.
  - unfold set_frequency_range. run_unfold.
    destruct v as [| | | | | | | | |[|f0 [|f1 [|? ?]]] u]; cbn [result final];
      try done.
    destruct (Qge_bool f0 f1) eqn:Hge; cbn [result final]; [done|].
    destruct (to_Hz u); cbn [result final]; done.
  - unfold set_frequency_range. run_unfold.
    destruct v as [| | | | | | | | |[|f0 [|f1 [|? ?]]] u]; cbn [result final];
      try done.
    destruct (Qge_bool f0 f1) eqn:Hge; cbn [result final]; [done|].
    destruct (to_Hz u); cbn [result final]; intros a b u' [= <- <- <-];
      by apply Qge_bool_false.
  - unfold set_frequency_range. run_unfold.
    destruct v as [| | | | | | | | |[|f0 [|f1 [|? ?]]] u]; cbn [result final];
      try done.
    destruct (Qge_bool f0 f1) eqn:Hge; cbn [result final]; [done|].
    destruct (to_Hz u); cbn [result final]; done.
  - unfold set_edge_channels_to_remove. run_unfold.
    destruct v as [| | | | | |[|a [|b [|? ?]]]| | |]; cbn [result final isinstance_int];
      try done.
    destruct (isinstance_int a), (isinstance_int b); cbn [result final]; done.
  - unfold set_edge_channels_to_remove. run_unfold.
    destruct v as [| | | | | |[|a [|b [|? ?]]]| | |]; cbn [result final isinstance_int];
      try done.
    destruct (isinstance_int a), (isinstance_int b); cbn [result final]; done.
  - unfold set_edge_channels_to_remove. run_unfold.
    destruct v as [| | | | | |[|a [|b [|? ?]]]| | |]; cbn [result final isinstance_int];
      try done.
    destruct (isinstance_int a), (isinstance_int b); cbn [result final]; done.
Qed.

Lemma demo_configuration_valid : configuration_valid demo_configuration.
Proof.
  repeat split.
  - intros t0 t1 [= <- <-]. reflexivity.
  - intros f0 f1 u [= <- <- <-]. reflexivity.
  - intros b [= <-]. apply elem_of_cons. by left.
Qed.

Lemma setters_keep_valid_witness :
  configuration_valid (final (set_beam (PInt 1) demo_configuration)) ∧
  configuration_valid
    (final (set_time_range (PTime [5; 2]%Q) demo_configuration)).
Proof.
  destruct (setters_keep_valid demo_configuration (PInt 1)
              demo_configuration_valid) as (Hbeam & _).
  destruct (setters_keep_valid demo_configuration (PTime [5; 2]%Q)
              demo_configuration_valid) as (_ & Htime & _).
  split; assumption.
Defined.

(** X2. The setter of [time_range] accepts exactly the [Time] arrays of
    two instants with the first before the second.  The range is then
    stored whether or not it meets the file; the warning of a range
    outside the data is logged exactly when the range ends before
    [time_min] or starts after [time_max]. *)
Theorem time_range_setter_accepts (c : _ProcessingConfiguration) :
  (∀ v, result (set_time_range v c) = Ok () ↔
        ∃ t0 t1, v = PTime [t0; t1] ∧ (t0 < t1)%Q) ∧
  (∀ t0 t1, (t0 < t1)%Q →
     let r := set_time_range (PTime [t0; t1]) c in
     final r = with_time_range (t0, t1) c ∧
     _time_range (final r) = Some (t0, t1) ∧
     ((WARNING, "Requested time_range outside availaible data!") ∈ logged r
      ↔ (t1 < time_min c)%Q ∨ (time_max c < t0)%Q)).
Proof.
  split.
  - intros v. unfold set_time_range. run_unfold. cbn [result final logged].
    destruct v as [| | | | | | | |[|t0 [|t1 [|? ?]]]|]; cbn [result];
      try (split; [discriminate | by intros (? & ? & ? & ?)]).
    destruct (Qge_bool t0 t1) eqn:Hge; cbn [result].
    + split; [discriminate|]. intros (a & b & [= <- <-] & Hlt).
      unfold Qge_bool in Hge. apply Qle_bool_iff in Hge.
      by apply Qle_not_lt in Hge.
    + split; [|by destruct (_ || _)]. intros _. exists t0, t1.
      split; [done|]. by apply Qge_bool_false.
  - intros t0 t1 Hlt r. subst r. unfold set_time_range. run_unfold.
    cbn [result final logged].
    assert (Hge : Qge_bool t0 t1 = false).
    { apply not_true_iff_false. unfold Qge_bool. intros Hle.
      apply Qle_bool_iff in Hle. by apply Qle_not_lt in Hle. }
    rewrite Hge.
    destruct (Qlt_bool t1 (time_min c) || Qlt_bool (time_max c) t0) eqn:Hout;
      cbn [result final logged app].
    + split; [done|]. split; [done|]. split; [|intros _; apply elem_of_cons; by left].
      intros _. apply orb_true_iff in Hout as [Ho|Ho];
        apply Qlt_bool_true in Ho; auto.
    + split; [done|]. split; [done|]. split.
      * intros Hin. apply elem_of_cons in Hin as [[=]|Hin].
        by apply elem_of_nil in Hin.
      * apply orb_false_iff in Hout as [Ho1 Ho2].
        intros [Ho|Ho]; apply Qlt_bool_true in Ho; congruence.
Qed.

Lemma time_range_setter_accepts_witness :
  _time_range (final (set_time_range (PTime [2000; 3000]%Q) demo_configuration))
  = Some (2000, 3000)%Q ∧
  (WARNING, "Requested time_range outside availaible data!")
  ∈ logged (set_time_range (PTime [2000; 3000]%Q) demo_configuration).
Proof.
  destruct (time_range_setter_accepts demo_configuration) as [_ Hset].
  destruct (Hset 2000%Q 3000%Q eq_refl) as (_ & Hstored & Hwarn).
  split; [exact Hstored|]. apply Hwarn. right. reflexivity.
Defined.

(** X3. The setter of [frequency_range] stores every ordered pair
    before it writes its log message, which converts the range to MHz.
    So it returns exactly for an ordered pair in a frequency unit, and
    for an ordered pair in any other unit it raises
    [UnitConversionError] with the new range already in place. *)
Theorem frequency_range_setter_unit (c : _ProcessingConfiguration) :
  (∀ v, result (set_frequency_range v c) = Ok () ↔
        ∃ f0 f1 u, v = PQuantity [f0; f1] u ∧ (f0 < f1)%Q ∧
                   is_Some (to_Hz u)) ∧
  (∀ f0 f1 u, (f0 < f1)%Q →
     _frequency_range (final (set_frequency_range (PQuantity [f0; f1] u) c))
     = Some (f0, f1, u)) ∧
  (∀ f0 f1 u, (f0 < f1)%Q → to_Hz u = None →
     set_frequency_range (PQuantity [f0; f1] u) c
     = Run (with_frequency_range (f0, f1, u) c) []
           (Raise UnitConversionError)).
Proof.
  assert (Hge : ∀ f0 f1, (f0 < f1)%Q → Qge_bool f0 f1 = false).
  { intros f0 f1 Hlt. apply not_true_iff_false. unfold Qge_bool. intros Hle.
    apply Qle_bool_iff in Hle. by apply Qle_not_lt in Hle. }
  split; [|split].
  - intros v. unfold set_frequency_range. run_unfold.
    destruct v as [| | | | | | | | |[|f0 [|f1 [|? ?]]] u]; cbn [result];
      try (split; [discriminate | by intros (? & ? & ? & ? & ?)]).
    destruct (Qge_bool f0 f1) eqn:Hb; cbn [result final logged].
    + split; [discriminate|]. intros (a & b & u' & [= <- <- <-] & Hlt & _).
      by rewrite Hge in Hb.
    + destruct (to_Hz u) eqn:Hu; cbn [result final logged].
      * split; [|done]. intros _. exists f0, f1, u.
        split; [done|]. split; [by apply Qge_bool_false|]. by rewrite Hu.
      * split; [discriminate|].
        intros (a & b & u' & [= <- <- <-] & _ & [x Hx]). congruence.
  - intros f0 f1 u Hlt. unfold set_frequency_range. run_unfold.
    rewrite (Hge _ _ Hlt). by destruct (to_Hz u).
  - intros f0 f1 u Hlt Hu. unfold set_frequency_range. run_unfold.
    rewrite (Hge _ _ Hlt), Hu. reflexivity.
Qed.

Lemma frequency_range_setter_unit_witness :
  set_frequency_range (PQuantity [1; 2]%Q second) demo_configuration
  = Run (with_frequency_range (1, 2, second)%Q demo_configuration) []
        (Raise UnitConversionError).
Proof.
  destruct (frequency_range_setter_unit demo_configuration) as (_ & _ & Hunit).
  apply Hunit; reflexivity.
Defined.

(** X4. The setter of [beam] accepts exactly the instances of [int]
    whose value is an available beam, and stores the value as given: a
    [bool] is stored as a [bool].  The setter of
    [edge_channels_to_remove] accepts exactly an instance of [int] or a
    tuple of two of them, of any sign and size. *)
Theorem beam_and_edge_setters_accept (c : _ProcessingConfiguration) :
  (∀ v, result (set_beam v c) = Ok () ↔
        ∃ b, isinstance_int v = Some b ∧ int_value b ∈ available_beams c) ∧
  (∀ v b, isinstance_int v = Some b → int_value b ∈ available_beams c →
        final (set_beam v c) = with_beam b c ∧
        _beam (final (set_beam v c)) = Some b) ∧
  (∀ v, result (set_edge_channels_to_remove v c) = Ok () ↔
        (∃ n, isinstance_int v = Some n) ∨
        (∃ a b a' b', v = PTuple [a; b] ∧ isinstance_int a = Some a' ∧
                      isinstance_int b = Some b')) ∧
  (∀ z, _edge_channels_to_remove
          (final (set_edge_channels_to_remove (PInt z) c))
        = Some (EdgeBoth (IInt z))).
Proof.
  split; [|split; [|split]].
  - intros v. unfold set_beam. run_unfold. cbn [result final logged].
    destruct (isinstance_int v) as [b|]; cbn [result].
    + case_bool_decide; cbn [result].
      * split; [eauto|done].
      * split; [discriminate|]. by intros (b' & [= <-] & Hin).
    + split; [discriminate|]. by intros (b' & [=] & _).
  - intros v b Hv Hin. unfold set_beam. run_unfold.
    cbn [result final logged]. rewrite Hv.
    by rewrite bool_decide_eq_true_2.
  - intros v. unfold set_edge_channels_to_remove. run_unfold.
    destruct v as [|b|z| | | |[|a [|b [|? ?]]]| | |];
      cbn [result final isinstance_int];
      try (split; [discriminate | by intros [(? & [=]) | (? & ? & ? & ? & [=] & _)]]);
      try (split; [intros _; left; eauto | done]).
    destruct (isinstance_int a) as [a'|] eqn:Ha,
             (isinstance_int b) as [b'|] eqn:Hb; cbn [result].
    + split; [|done]. intros _. right. by exists a, b, a', b'.
    + split; [discriminate|].
      intros [(? & [=]) | (? & ? & ? & ? & [= <- <-] & ? & ?)]. congruence.
    + split; [discriminate|].
      intros [(? & [=]) | (? & ? & ? & ? & [= <- <-] & ? & ?)]. congruence.
    + split; [discriminate|].
      intros [(? & [=]) | (? & ? & ? & ? & [= <- <-] & ? & ?)]. congruence.
  - reflexivity.
Qed.

Lemma beam_and_edge_setters_accept_witness :
  _beam (final (set_beam (PBool true) demo_configuration))
  = Some (IBool true) ∧
  result (set_edge_channels_to_remove (PTuple [PInt (-3); PBool true])
                                      demo_configuration) = Ok ().
Proof.
  destruct (beam_and_edge_setters_accept demo_configuration)
    as (_ & Hstore & Hedge & _).
  split.
  - apply (Hstore (PBool true) (IBool true) eq_refl).
    apply elem_of_cons. right. apply elem_of_cons. by left.
  - apply Hedge. right. by exists (PInt (-3)), (PBool true), (IInt (-3)), (IBool true).
Defined.

(** ** The search of the bounding block *)

Lemma argmin_from_spec (ds : list Z) (i best besti : Z) :
  (argmin_from i best besti ds = besti ∧ ∀ d, d ∈ ds → best <= d) ∨
  (∃ (k : nat) (d : Z),
     argmin_from i best besti ds = i + Z.of_nat k ∧
     ds !! k = Some d ∧ d < best ∧
     (∀ e, e ∈ ds → d <= e) ∧
     (∀ (j : nat) e, (j < k)%nat → ds !! j = Some e → d < e)).
Proof.
  revert i best besti. induction ds as [|x ds IH]; intros i best besti.
  { left. split; [reflexivity|]. intros d Hd. by apply elem_of_nil in Hd. }
  cbn [argmin_from]. destruct (x <? best) eqn:Hx.
  - apply Z.ltb_lt in Hx. right.
    destruct (IH (i + 1) x i)
      as [[Hr Hall] | (k & d & Hr & Hk & Hd & Hmin & Hfirst)].
    + exists 0%nat, x. rewrite Hr.
      split; [lia|]. split; [done|]. split; [done|]. split.
      * intros e He. apply elem_of_cons in He as [->|He]; [lia|by apply Hall].
      * intros j e Hj. lia.
    + exists (S k), d. rewrite Hr.
      split; [lia|]. split; [done|]. split; [lia|]. split.
      * intros e He. apply elem_of_cons in He as [->|He]; [lia|by apply Hmin].
      * intros [|j] e Hj He; cbn in He.
        -- injection He as <-. lia.
        -- eapply Hfirst; [|exact He]. lia.
  - apply Z.ltb_ge in Hx.
    destruct (IH (i + 1) best besti)
      as [[Hr Hall] | (k & d & Hr & Hk & Hd & Hmin & Hfirst)].
    + left. split; [done|]. intros d Hd.
      apply elem_of_cons in Hd as [->|Hd]; [lia|by apply Hall].
    + right. exists (S k), d. rewrite Hr.
      split; [lia|]. split; [done|]. split; [done|]. split.
      * intros e He. apply elem_of_cons in He as [->|He]; [lia|by apply Hmin].
      * intros [|j] e Hj He; cbn in He.
        -- injection He as <-. lia.
        -- eapply Hfirst; [|exact He]. lia.
Qed.

Lemma inject_Z_lt (a b : Z) : (inject_Z a < inject_Z b)%Q → a < b.
Proof. unfold Qlt. simpl. lia. Qed.

Lemma Qceiling_zero (q : Q) : Qceiling q = 0 ↔ (-1 < q)%Q ∧ (q <= 0)%Q.
Proof.
  pose proof (Qle_ceiling q) as Hle. pose proof (Qceiling_lt q) as Hlt.
  split.
  - intros H0. rewrite H0 in Hle, Hlt. split; [exact Hlt | exact Hle].
  - intros [Hlo Hhi].
    assert (H1 : Qceiling q - 1 < 0).
    { apply inject_Z_lt. eapply Qlt_le_trans; [exact Hlt | exact Hhi]. }
    assert (H2 : -1 < Qceiling q).
    { apply inject_Z_lt. eapply Qlt_le_trans; [exact Hlo | exact Hle]. }
    lia.
Qed.

(** X5. The block search [int(np.argmin(np.abs(np.ceil(starts - t))))]
    raises [ValueError] on an array without blocks; otherwise it returns
    the first index that minimises [|ceil(start - t)|].  In particular,
    when some block starts within the second that ends at [t], it
    returns the first such block, whether or not a later block starts
    closer to [t]. *)
Theorem nearest_index_first_minimum {St} (s : St) (xs : list Q) (t : Q) :
  let distance (x : Q) := Z.abs (Qceiling (x - t)) in
  (xs = [] → nearest_index xs t s = Run s [] (Raise ValueError)) ∧
  (xs ≠ [] →
   ∃ (i : nat) (x : Q),
     nearest_index xs t s = Run s [] (Ok (Z.of_nat i)) ∧
     xs !! i = Some x ∧
     (∀ y, y ∈ xs → distance x <= distance y) ∧
     (∀ (j : nat) y, (j < i)%nat → xs !! j = Some y → distance x < distance y) ∧
     ((∃ y, y ∈ xs ∧ (t - 1 < y)%Q ∧ (y <= t)%Q) →
      (t - 1 < x)%Q ∧ (x <= t)%Q ∧
      ∀ (j : nat) y, (j < i)%nat → xs !! j = Some y →
                     ¬ ((t - 1 < y)%Q ∧ (y <= t)%Q))).
Proof.
  intros distance. split; [by intros ->|].
  intros Hne. destruct xs as [|x0 xs]; [done|]. clear Hne.
  assert (Hwin : ∀ y, distance y = 0 ↔ (t - 1 < y)%Q ∧ (y <= t)%Q).
  { intros y. unfold distance. rewrite Z.abs_0_iff, Qceiling_zero.
    unfold Qlt, Qle. destruct y as [a b], t as [c d]. simpl.
    rewrite ?Pos2Z.inj_mul. split; intros [H1 H2]; split; nia. }
  assert (Hcore : ∃ (i : nat) (x : Q),
     nearest_index (x0 :: xs) t s = Run s [] (Ok (Z.of_nat i)) ∧
     (x0 :: xs) !! i = Some x ∧
     (∀ y, y ∈ x0 :: xs → distance x <= distance y) ∧
     (∀ (j : nat) y, (j < i)%nat → (x0 :: xs) !! j = Some y →
                     distance x < distance y)).
  { unfold nearest_index. cbn [map].
    fold (distance x0).
    change (map (λ x, Z.abs (Qceiling (x - t))) xs) with (map distance xs).
    destruct (argmin_from_spec (map distance xs) 1 (distance x0) 0)
      as [[Hr Hall] | (k & d & Hr & Hk & Hd & Hmin & Hfirst)].
    - exists 0%nat, x0. rewrite Hr.
      split; [done|]. split; [done|]. split.
      + intros y Hy. apply elem_of_cons in Hy as [->|Hy]; [lia|].
        apply Hall. apply list_elem_of_In, in_map, list_elem_of_In, Hy.
      + intros j y Hj. lia.
    - rewrite lookup_map in Hk. apply fmap_Some in Hk as (x & Hx & ->).
      exists (S k), x. rewrite Hr.
      replace (Z.of_nat (S k)) with (1 + Z.of_nat k) by lia.
      split; [done|]. split; [exact Hx|]. split.
      + intros y Hy. apply elem_of_cons in Hy as [->|Hy]; [lia|].
        apply Hmin. apply list_elem_of_In, in_map, list_elem_of_In, Hy.
      + intros [|j] y Hj Hy; cbn in Hy.
        * injection Hy as <-. exact Hd.
        * apply (Hfirst j); [lia|]. rewrite lookup_map.
          destruct (xs !! j) as [z|]; [|discriminate].
          by injection Hy as ->. }
  destruct Hcore as (i & x & Hrun & Hx & Hmin & Hfirst).
  exists i, x. repeat (split; [done|]).
  intros (y & Hy & Hy1 & Hy2).
  assert (Hd0 : distance x = 0).
  { pose proof (Hmin y Hy) as Hle.
    rewrite (proj2 (Hwin y) (conj Hy1 Hy2)) in Hle.
    unfold distance in *. lia. }
  destruct (proj1 (Hwin x) Hd0) as [Hx1 Hx2].
  split; [done|]. split; [done|].
  intros j z Hj Hz Hzwin. apply Hwin in Hzwin.
  specialize (Hfirst j z Hj Hz). lia.
Qed.

Lemma nearest_index_first_minimum_witness :
  nearest_index [1000; 10001 # 10; 10002 # 10]%Q (100015 # 100)%Q ()
  = Run () [] (Ok 0).
Proof.
  destruct (nearest_index_first_minimum ()
              [1000; 10001 # 10; 10002 # 10]%Q (100015 # 100)%Q)
    as [_ Hsome].
  destruct Hsome as (i & x & Hrun & _); [done|].
  rewrite Hrun. f_equal.
  assert (Hres : result (Run () [] (Ok (Z.of_nat i))) = Ok 0).
  { rewrite <- Hrun. reflexivity. }
  exact Hres.
Defined.

(** ** The blocks that are kept *)

Lemma select_valid_imap {A} (f : nat → A → bool) (l : list A) (x : A) :
  x ∈ select_valid l (imap f l) ↔ ∃ i, l !! i = Some x ∧ f i x = false.
Proof.
  revert f. induction l as [|y l IH]; intros f; cbn [imap select_valid].
  - split; [intros Hx; by apply elem_of_nil in Hx|]. by intros (i & Hi & _).
  - destruct (f 0%nat y) eqn:Hy.
    + rewrite IH. split.
      * intros (i & Hi & Hf). by exists (S i).
      * intros ([|i] & Hi & Hf); cbn in Hi.
        -- injection Hi as <-. congruence.
        -- by exists i.
    + rewrite elem_of_cons, IH. split.
      * intros [-> | (i & Hi & Hf)]; [by exists 0%nat | by exists (S i)].
      * intros ([|i] & Hi & Hf); cbn in Hi.
        -- injection Hi as <-. by left.
        -- right. by exists i.
Qed.

Lemma select_valid_sublist {A} (l : list A) (mask : list bool) :
  select_valid l mask `sublist_of` l.
Proof.
  revert mask. induction l as [|x l IH]; intros [|m mask];
    cbn [select_valid]; try apply sublist_nil_l.
  destruct m; [apply sublist_cons | apply sublist_skip]; apply IH.
Qed.

Lemma select_valid_length {A} (l : list A) (mask : list bool) :
  length l = length mask →
  (length (select_valid l mask) + length (List.filter id mask))%nat = length l.
Proof.
  revert mask. induction l as [|x l IH]; intros [|m mask] Hlen;
    cbn in *; try done.
  destruct m; cbn; rewrite <- (IH mask) by lia; lia.
Qed.

(** X6. On a file with a block the mask is computed, and the blocks
    kept with it are, in the order of the file, exactly the blocks the
    mask does not flag: the first block when its subband count is not
    negative, a later block when moreover its first-sample index is not
    0.  Kept and flagged blocks add up to the blocks of the file. *)
Theorem valid_blocks_kept {St} (s : St) (file : list block) :
  file ≠ [] →
  ∃ logs mask,
    _get_bad_data_mask file s = Run s logs (Ok mask) ∧
    select_valid file mask = valid_blocks file ∧
    valid_blocks file `sublist_of` file ∧
    (∀ b, b ∈ valid_blocks file ↔
          ∃ i, file !! i = Some b ∧
               0 <= nbchan (header b) ∧ (i ≠ 0%nat → idx (header b) ≠ 0)) ∧
    (length (valid_blocks file) + length (List.filter id mask))%nat
    = length file.
Proof.
  intros Hfile. destruct file as [|b0 rest]; [done|].
  destruct (bad_data_mask_run s b0 rest) as [logs Hrun].
  exists logs, (reference_mask (b0 :: rest)).
  split; [exact Hrun|]. split; [reflexivity|].
  unfold valid_blocks, reference_mask. split; [apply select_valid_sublist|].
  split.
  - intros b. rewrite select_valid_imap. unfold bad_block.
    split; intros (i & Hi & Hb); exists i; (split; [done|]).
    + apply orb_false_iff in Hb as [Hidx Hnb]. apply Z.ltb_ge in Hnb.
      split; [done|]. intros Hne Hzero.
      rewrite Hzero in Hidx. destruct i; [done|]. discriminate.
    + destruct Hb as [Hnb Hidx]. apply orb_false_iff. split.
      * destruct i as [|i]; [by rewrite andb_false_r|].
        apply andb_false_iff. left. apply Z.eqb_neq. by apply Hidx.
      * by apply Z.ltb_ge.
  - apply select_valid_length. by rewrite length_imap.
Qed.

Lemma valid_blocks_kept_witness :
  ∃ logs mask,
    _get_bad_data_mask demo_file () = Run () logs (Ok mask) ∧
    select_valid demo_file mask = valid_blocks demo_file ∧
    length (valid_blocks demo_file) = 2%nat.
Proof.
  destruct (valid_blocks_kept () demo_file)
    as (logs & mask & Hrun & Hkept & _); [discriminate|].
  exists logs, mask. split; [exact Hrun|]. split; [exact Hkept|].
  reflexivity.
Defined.

(** ** What an opened file guarantees *)

Lemma set_time_range_ordered (c : _ProcessingConfiguration) (t0 t1 : Q) :
  result (set_time_range (PTime [t0; t1]) c) = Ok () → (t0 < t1)%Q.
Proof.
  unfold set_time_range. run_unfold. cbn [result final logged].
  destruct (Qge_bool t0 t1) eqn:Hge; [discriminate|].
  intros _. by apply Qge_bool_false.
Qed.

Lemma set_frequency_range_ordered (c : _ProcessingConfiguration)
  (f0 f1 : Q) (u : unit_) :
  result (set_frequency_range (PQuantity [f0; f1] u) c) = Ok () →
  (f0 < f1)%Q.
Proof.
  unfold set_frequency_range. run_unfold.
  destruct (Qge_bool f0 f1) eqn:Hge; [discriminate|].
  intros _. by apply Qge_bool_false.
Qed.

Lemma set_beam_member (c : _ProcessingConfiguration) (z : Z) :
  result (set_beam (PInt z) c) = Ok () → z ∈ available_beams c.
Proof.
  unfold set_beam. run_unfold. cbn [result final logged isinstance_int].
  case_bool_decide; [done|discriminate].
Qed.

Section OpenedFile.

Context `{TfUtils} `{AstropyTime}.

Lemma configuration_init_facts {St} (s : St) tmin tmax fmin fmax beams c :
  result (ProcessingConfiguration_init tmin tmax fmin fmax beams s) = Ok c →
  (isot_reparse 7 tmin < isot_reparse 7 tmax)%Q ∧ (fmin < fmax)%Q ∧
  0 ∈ beams.
Proof.
  unfold ProcessingConfiguration_init. intros Hrun.
  apply on_object_ok in Hrun as (u & Hrun & ->).
  apply bind_final_ok in Hrun as ([] & Htime & Hrun & _).
  pose proof (set_time_range_ordered _ _ _ Htime) as Hlt.
  apply set_time_range_ok in Htime. rewrite Htime in Hrun. clear Htime.
  apply bind_final_ok in Hrun as ([] & Hfreq & Hrun & _).
  pose proof (set_frequency_range_ordered _ _ _ _ Hfreq) as Hflt.
  apply set_frequency_range_ok in Hfreq. rewrite Hfreq in Hrun. clear Hfreq.
  apply bind_final_ok in Hrun as ([] & Hbeam & _).
  apply set_beam_member in Hbeam. done.
Qed.

Lemma spectra_init_inversion {St} (s : St) (file : list block)
  (sp : Spectra) :
  result (Spectra_init file s) = Ok sp →
  ∃ block0 rest beams,
    file = block0 :: rest ∧
    let p := decode_parameters (header block0) in
    let starts := map block_start_unix (valid_blocks file) in
    let subbands :=
      map (λ b, (inject_Z (channel b) * SUBBAND_WIDTH)%Q) (data_ block0) in
    let keys := sort_beam_edges (map beam (data_ block0)) (n_channels p) in
    0 <= _n_time_per_block p ∧ 0 <= n_channels p ∧ 0 <= n_subbands p ∧
    mapM parse_int (dict_keys keys) = Some beams ∧
    0 ∈ beams ∧
    ∃ t_first t_last f_first f_last,
      head starts = Some t_first ∧ last starts = Some t_last ∧
      head subbands = Some f_first ∧ last subbands = Some f_last ∧
      let t_end := (t_last + inject_Z (_n_time_per_block p) * dt p)%Q in
      let f_end := (f_last + SUBBAND_WIDTH)%Q in
      (isot_reparse 7 t_first < isot_reparse 7 t_end)%Q ∧
      (f_first < f_end)%Q ∧
      sp = MkSpectra p starts subbands keys
             (blocks_to_tf_data (valid_blocks file) (_n_time_per_block p)
                                (n_channels p))
             (ProcessingConfiguration beams t_first t_end f_first f_end
                (Some (isot_reparse 7 t_first, isot_reparse 7 t_end))
                (Some (f_first, f_end, Hz)) (Some (IInt 0))
                None None None None false (None, None, None) true
                (Some (EdgeBoth (IInt 0)))).
Proof.
  unfold Spectra_init. intros Hrun.
  apply bind_result_ok in Hrun as (_ & _ & Hrun).
  apply bind_result_ok in Hrun as ([p data] & Hload & Hrun).
  destruct file as [|b0 rest].
  { unfold _lazy_load_data in Hload. run_unfold_in Hload. discriminate. }
  assert (Hdims : 0 <= nffte (header b0) ∧ 0 <= fftlen (header b0) ∧
                  0 <= np_abs_int32 (nbchan (header b0))).
  { unfold _lazy_load_data in Hload.
    destruct (_ || _) eqn:Hneg in Hload.
    { run_unfold_in Hload. discriminate. }
    apply orb_false_iff in Hneg as [H1 H2].
    destruct (n_subbands _ <? 0) eqn:H3 in Hload.
    { run_unfold_in Hload. discriminate. }
    cbn [decode_parameters _n_time_per_block n_channels n_subbands] in *.
    apply Z.ltb_ge in H1, H2, H3. done. }
  apply lazy_load_parameters in Hload as [-> ->].
  apply bind_result_ok in Hrun as (mask & Hmask & Hrun).
  match type of Hmask with
  | result (_get_bad_data_mask _ ?s0) = _ =>
      destruct (bad_data_mask_run s0 b0 rest) as [mlogs Hm];
      rewrite Hm in Hmask
  end.
  cbn [result] in Hmask. injection Hmask as <-.
  apply bind_result_ok in Hrun as (block0 & Hb0 & Hrun).
  apply expect_result_ok in Hb0. cbn in Hb0. injection Hb0 as <-.
  apply bind_result_ok in Hrun as (_ & _ & Hrun).
  apply bind_result_ok in Hrun as (t_first & Htf & Hrun).
  apply bind_result_ok in Hrun as (t_last & Htl & Hrun).
  apply bind_result_ok in Hrun as (f_first & Hff & Hrun).
  apply bind_result_ok in Hrun as (f_last & Hfl & Hrun).
  apply bind_result_ok in Hrun as (beams & Hbeams & Hrun).
  apply bind_result_ok in Hrun as (c & Hc & Hrun).
  pose proof (configuration_init_facts _ _ _ _ _ _ _ Hc) as (Hlt & Hflt & Hzero).
  apply configuration_init_ok in Hc. subst c.
  run_unfold_in Hrun. cbn [result] in Hrun. injection Hrun as <-.
  apply expect_result_ok in Htf, Htl, Hff, Hfl, Hbeams.
  exists b0, rest, beams. split; [done|]. cbv zeta.
  destruct Hdims as (Hd1 & Hd2 & Hd3).
  split; [exact Hd1|]. split; [exact Hd2|]. split; [exact Hd3|].
  split; [exact Hbeams|]. split; [exact Hzero|].
  exists t_first, t_last, f_first, f_last.
  split; [exact Htf|]. split; [exact Htl|]. split; [exact Hff|].
  split; [exact Hfl|]. split; [exact Hlt|]. split; [exact Hflt|].
  reflexivity.
Qed.

(** X7. A file that opens has at least one block that is kept and at
    least one subband; the start times held are those of the kept
    blocks, in order, and the cube is assembled from them; the
    dimensions decoded from the first header are not negative; the
    available beams are the keys of the beam dictionary read as
    integers, and beam 0 is among them; the default time and frequency
    ranges are ordered. *)
Theorem opened_file_invariants {St} (s : St) (file : list block)
  (sp : Spectra) :
  result (Spectra_init file s) = Ok sp →
  ∃ block0 rest,
    file = block0 :: rest ∧
    parameters sp = decode_parameters (header block0) ∧
    0 <= _n_time_per_block (parameters sp) ∧
    0 <= n_channels (parameters sp) ∧
    0 <= n_subbands (parameters sp) ∧
    valid_blocks file ≠ [] ∧
    _block_start_unix sp = map block_start_unix (valid_blocks file) ∧
    data sp = blocks_to_tf_data (valid_blocks file)
                (_n_time_per_block (parameters sp))
                (n_channels (parameters sp)) ∧
    data_ block0 ≠ [] ∧
    _subband_start_hz sp
    = map (λ b, (inject_Z (channel b) * SUBBAND_WIDTH)%Q) (data_ block0) ∧
    beam_indices_dict sp
    = sort_beam_edges (map beam (data_ block0)) (n_channels (parameters sp)) ∧
    mapM parse_int (dict_keys (beam_indices_dict sp))
    = Some (available_beams (configuration sp)) ∧
    0 ∈ available_beams (configuration sp) ∧
    configuration_valid (configuration sp).
Proof.
  intros Hrun.
  destruct (spectra_init_inversion s file sp Hrun)
    as (b0 & rest & beams & Hfile & Hd1 & Hd2 & Hd3 & Hbeams & Hzero
        & t_first & t_last & f_first & f_last & Htf & Htl & Hff & Hfl
        & Hlt & Hflt & ->).
  cbn [parameters _block_start_unix _subband_start_hz beam_indices_dict
       data configuration available_beams].
  exists b0, rest.
  split; [done|]. split; [done|].
  split; [exact Hd1|]. split; [exact Hd2|]. split; [exact Hd3|].
  split.
  { intros Hnil. rewrite Hnil in Htf. discriminate. }
  split; [done|]. split; [done|]. split.
  { intros Hnil. rewrite Hnil in Hff. discriminate. }
  split; [done|]. split; [done|]. split; [exact Hbeams|]. split; [exact Hzero|].
  split; [|split].
  - intros a b [= <- <-]. exact Hlt.
  - intros f0 f1 u [= <- <- <-]. exact Hflt.
  - intros b [= <-]. exact Hzero.
Qed.

End OpenedFile.

Lemma opened_file_invariants_witness :
  ∃ sp, result (@Spectra_init spec_utils iso_time () demo_file ()) = Ok sp ∧
        length (_block_start_unix sp) = 2%nat ∧
        0 ∈ available_beams (configuration sp).
Proof.
  pose proof (eq_refl : match result (@Spectra_init spec_utils iso_time ()
                                        demo_file ()) with
                        | Ok _ => true
                        | Raise _ => false
                        end = true) as Hok.
  destruct (result (@Spectra_init spec_utils iso_time () demo_file ()))
    as [sp|e] eqn:Hres; [|discriminate Hok].
  exists sp. split; [reflexivity|].
  destruct (opened_file_invariants (H := spec_utils) (H0 := iso_time)
              () demo_file sp Hres)
    as (b0 & rest & _ & _ & _ & _ & _ & _ & Hstarts & _ & _ & _ & _ & _ & Hzero & _).
  split; [|exact Hzero]. rewrite Hstarts. reflexivity.
Defined.

(** ** Edge channels, for any pair of counts *)

Lemma slice_fill_positions {A} (nan : A) (n lo hi : Z) (sb : list A) :
  Z.of_nat (length sb) = n →
  py_slice_fill (Some (n - hi)) None nan (py_slice_fill None (Some lo) nan sb)
  = imap (λ j x, if bool_decide (Z.of_nat j < slice_index n lo ∨
                                 slice_index n (n - hi) <= Z.of_nat j)
                 then nan else x) sb.
Proof.
  intros Hlen. apply list_eq. intros i.
  unfold py_slice_fill, slice_bounds. cbn [from_option].
  rewrite length_imap, Hlen. rewrite !list_lookup_imap.
  destruct (sb !! i) as [x|] eqn:Hx; [|reflexivity]. simpl.
  apply lookup_lt_Some in Hx. f_equal.
  repeat case_bool_decide; try reflexivity; lia.
Qed.

Lemma concat_imap_chunks {A} (h : nat → A → A) (r k : nat) (xs : list A) :
  (0 < k)%nat → length xs = (r * k)%nat →
  concat (map (imap h) (chunks r k xs))
  = imap (λ f x, h (f mod k)%nat x) xs.
Proof.
  intros Hk. revert xs. induction r as [|r IH]; intros xs Hlen.
  - destruct xs; [reflexivity|discriminate].
  - cbn [chunks map concat]. rewrite IH by (rewrite length_drop; lia).
    rewrite <- (take_drop k xs) at 3. rewrite imap_app. f_equal.
    + apply imap_ext. intros i x Hi. apply lookup_lt_Some in Hi.
      rewrite length_take in Hi. by rewrite Nat.mod_small by lia.
    + apply imap_ext. intros i x _. rewrite length_take.
      replace (k `min` length xs)%nat with k by lia.
      replace (k + i)%nat with (i + 1 * k)%nat by lia.
      by rewrite Nat.Div0.mod_add.
Qed.

Lemma subbands_imap {A} (h : nat → A → A) (n : Z) (row : list A) :
  0 < n → Z.of_nat (length row) mod n = 0 →
  concat (map (imap h) (subbands n row))
  = imap (λ f x, h (Z.to_nat (Z.of_nat f mod n)) x) row.
Proof.
  intros Hn Hmod. unfold subbands. rewrite concat_imap_chunks.
  - apply imap_ext. intros f x _. f_equal.
    rewrite <- (Z2Nat.id n) at 2 by lia.
    by rewrite <- Nat2Z.inj_mod, Nat2Z.id.
  - lia.
  - apply Nat2Z.inj. rewrite Nat2Z.inj_mul, !Z2Nat.id; [|lia|].
    + apply Z.div_exact in Hmod; lia.
    + apply Z.div_pos; lia.
Qed.

Lemma remove_edge_channels_positions {St A} (s : St) (nan : A)
  (data : cube A) (n lo hi : Z) :
  cube_wf data → 0 < n → n_freqs data mod n = 0 →
  ∃ logs,
    _remove_edge_channels nan data n lo hi s
    = Run s logs
        (Ok (Cube (n_times data) (n_freqs data)
               (map (imap (λ f x,
                       if bool_decide (Z.of_nat f mod n < slice_index n lo ∨
                                       slice_index n (n - hi) <= Z.of_nat f mod n)
                       then nan else x))
                    (items data)))).
Proof.
  intros Hwf Hn Hmod. eexists. unfold _remove_edge_channels.
  rewrite (bind_ok _ _ _ _ _ _ (reshape_subbands_run s n data Hwf Hn Hmod)).
  run_unfold. cbn [result final logged]. unfold merge_subbands.
  rewrite !map_map. f_equal. do 2 f_equal.
  apply map_ext_in. intros row Hrow.
  destruct Hwf as (_ & _ & Hrows). rewrite Forall_forall in Hrows.
  assert (Hlen : Z.of_nat (length row) = n_freqs data).
  { apply Hrows. by apply list_elem_of_In. }
  pose proof (subbands_length n row Hn) as Hsbs. rewrite Hlen in Hsbs.
  specialize (Hsbs Hmod). rewrite Forall_forall in Hsbs.
  rewrite (map_ext_in _
             (imap (λ j x, if bool_decide (Z.of_nat j < slice_index n lo ∨
                                           slice_index n (n - hi) <= Z.of_nat j)
                           then nan else x))).
  - rewrite subbands_imap by (done || by rewrite Hlen).
    apply imap_ext. intros f x Hf. rewrite Z2Nat.id; [done|].
    apply Z.mod_pos_bound. lia.
  - intros sb Hsb. apply slice_fill_positions. apply Hsbs.
    by apply list_elem_of_In.
Qed.

Lemma imap_length_rows {A} (h : nat → A → A) (n : Z) (rows : list (list A)) :
  Forall (λ row, Z.of_nat (length row) = n) rows →
  Forall (λ row, Z.of_nat (length row) = n) (map (imap h) rows).
Proof.
  intros Hrows. apply Forall_forall. intros row' Hin.
  apply list_elem_of_In, in_map_iff in Hin as (row & <- & Hin).
  rewrite length_imap. rewrite Forall_forall in Hrows.
  by apply Hrows, list_elem_of_In.
Qed.

(** X8. On a cube whose rows hold whole subbands of [n] channels the
    masking returns for any two counts, of any sign and size: the shape
    is kept, and the item at frequency [f] is the marker when the
    position [f mod n] of its channel in the subband lies below the
    bound the slice [:lo] denotes on [n] channels, or at or above the
    bound [n - hi:] denotes; every other item is unchanged.  For counts
    that are not negative and together at most [n] this marks the [lo]
    lowest and the [hi] highest channels of every subband, independently
    of each other. *)
Theorem edge_channels_positions {St A} (s : St) (nan : A) (data : cube A)
  (n lo hi : Z) :
  cube_wf data → 0 < n → n_freqs data mod n = 0 →
  ∃ logs out,
    _remove_edge_channels nan data n lo hi s = Run s logs (Ok out) ∧
    cube_wf out ∧
    n_times out = n_times data ∧
    n_freqs out = n_freqs data ∧
    (∀ (i f : nat) row x,
       items data !! i = Some row → row !! f = Some x →
       ∃ row', items out !! i = Some row' ∧
         row' !! f
         = Some (if bool_decide (Z.of_nat f mod n < slice_index n lo ∨
                                 slice_index n (n - hi) <= Z.of_nat f mod n)
                 then nan else x)) ∧
    (0 <= lo → 0 <= hi → lo + hi <= n →
     ∀ (i f : nat) row x,
       items data !! i = Some row → row !! f = Some x →
       ∃ row', items out !! i = Some row' ∧
         row' !! f
         = Some (if bool_decide (Z.of_nat f mod n < lo ∨
                                 n - hi <= Z.of_nat f mod n)
                 then nan else x)).
Proof.
  intros Hwf Hn Hmod.
  destruct (remove_edge_channels_positions s nan data n lo hi Hwf Hn Hmod)
    as [logs Hrun].
  eexists logs, _. split; [exact Hrun|].
  cbn [n_times n_freqs items].
  assert (Hpos : ∀ (i f : nat) row x,
            items data !! i = Some row → row !! f = Some x →
            ∃ row', map (imap (λ f x,
                       if bool_decide (Z.of_nat f mod n < slice_index n lo ∨
                                       slice_index n (n - hi) <= Z.of_nat f mod n)
                       then nan else x)) (items data) !! i = Some row' ∧
              row' !! f
              = Some (if bool_decide (Z.of_nat f mod n < slice_index n lo ∨
                                      slice_index n (n - hi) <= Z.of_nat f mod n)
                      then nan else x)).
  { intros i f row x Hrow Hx. eexists. split.
    - rewrite lookup_map, Hrow. reflexivity.
    - rewrite list_lookup_imap, Hx. reflexivity. }
  split.
  { destruct Hwf as (Hnt & Hnf & Hrows). split; [|split].
    - cbn [items n_times]. by rewrite length_map.
    - exact Hnf.
    - cbn [items n_freqs]. by apply imap_length_rows. }
  split; [reflexivity|]. split; [reflexivity|]. split; [exact Hpos|].
  intros Hlo Hhi Hsum i f row x Hrow Hx.
  destruct (Hpos i f row x Hrow Hx) as (row' & Hrow' & Hf).
  exists row'. split; [exact Hrow'|]. rewrite Hf. f_equal.
  pose proof (Z.mod_pos_bound (Z.of_nat f) n Hn) as Hbound.
  unfold slice_index.
  rewrite (proj2 (Z.ltb_ge lo 0)) by lia.
  rewrite (proj2 (Z.ltb_ge (n - hi) 0)) by lia.
  repeat case_bool_decide; try reflexivity; lia.
Qed.

Lemma edge_channels_positions_witness :
  ∃ logs out,
    _remove_edge_channels NaN
      (Cube 1 8 [[Val 1; Val 2; Val 3; Val 4; Val 5; Val 6; Val 7; Val 8]])
      4 2 1 ()
    = Run () logs (Ok out) ∧
    items out = [[NaN; NaN; Val 3; NaN; NaN; NaN; Val 7; NaN]].
Proof.
  assert (Hwf : cube_wf
            (Cube 1 8 [[Val 1; Val 2; Val 3; Val 4;
                        Val 5; Val 6; Val 7; Val 8]])).
  { repeat split; [simpl; lia|]. repeat constructor. }
  destruct (edge_channels_positions () NaN _ 4 2 1 Hwf)
    as (logs & out & Hrun & _); [lia|reflexivity|].
  exists logs, out. split; [exact Hrun|].
  assert (Hres : result (Run () logs (Ok out))
                 = Ok (Cube 1 8 [[NaN; NaN; Val 3; NaN;
                                  NaN; NaN; Val 7; NaN]])).
  { rewrite <- Hrun. reflexivity. }
  cbn [result] in Hres. by injection Hres as ->.
Defined.

(** X9. Counts outside the subband.  The setter accepts any integers
    and the masking takes them as slice bounds: two counts that
    together reach [n] leave only markers; an upper count [hi] with
    [n < hi < 2n] marks the [hi - n] highest channels of every subband
    only, fewer than [n]; a negative lower count [lo] with [-n < lo]
    marks the [n + lo] lowest channels. *)
Theorem edge_channels_out_of_range {St A} (s : St) (nan : A) (data : cube A)
  (n : Z) :
  cube_wf data → 0 < n → n_freqs data mod n = 0 →
  (∀ lo hi, 0 <= lo → 0 <= hi <= n → n <= lo + hi →
     ∃ logs,
       _remove_edge_channels nan data n lo hi s
       = Run s logs
           (Ok (Cube (n_times data) (n_freqs data)
                     (map (map (λ _, nan)) (items data))))) ∧
  (∀ hi, n < hi < 2 * n →
     ∃ logs,
       _remove_edge_channels nan data n 0 hi s
       = Run s logs
           (Ok (Cube (n_times data) (n_freqs data)
                  (map (imap (λ f x,
                          if bool_decide (n - (hi - n) <= Z.of_nat f mod n)
                          then nan else x))
                       (items data))))) ∧
  (∀ lo, - n < lo < 0 →
     ∃ logs,
       _remove_edge_channels nan data n lo 0 s
       = Run s logs
           (Ok (Cube (n_times data) (n_freqs data)
                  (map (imap (λ f x,
                          if bool_decide (Z.of_nat f mod n < n + lo)
                          then nan else x))
                       (items data))))).
Proof.
  intros Hwf Hn Hmod.
  assert (Hbound : ∀ f : nat, 0 <= Z.of_nat f mod n < n).
  { intros f. apply Z.mod_pos_bound. lia. }
  split; [|split].
  - intros lo hi Hlo Hhi Hsum.
    destruct (remove_edge_channels_positions s nan data n lo hi Hwf Hn Hmod)
      as [logs Hrun].
    exists logs. rewrite Hrun. do 3 f_equal.
    apply map_ext_in. intros row _.
    apply list_eq. intros f. rewrite list_lookup_imap, lookup_map.
    destruct (row !! f); [|reflexivity]. simpl. f_equal.
    rewrite bool_decide_eq_true_2; [reflexivity|].
    specialize (Hbound f). unfold slice_index.
    rewrite (proj2 (Z.ltb_ge lo 0)) by lia.
    rewrite (proj2 (Z.ltb_ge (n - hi) 0)) by lia. lia.
  - intros hi Hhi.
    destruct (remove_edge_channels_positions s nan data n 0 hi Hwf Hn Hmod)
      as [logs Hrun].
    exists logs. rewrite Hrun. do 3 f_equal.
    apply map_ext_in. intros row _. apply imap_ext. intros f x _.
    specialize (Hbound f). unfold slice_index.
    rewrite (proj2 (Z.ltb_ge 0 0)) by lia.
    rewrite (proj2 (Z.ltb_lt (n - hi) 0)) by lia.
    repeat case_bool_decide; try reflexivity; lia.
  - intros lo Hlo.
    destruct (remove_edge_channels_positions s nan data n lo 0 Hwf Hn Hmod)
      as [logs Hrun].
    exists logs. rewrite Hrun. do 3 f_equal.
    apply map_ext_in. intros row _. apply imap_ext. intros f x _.
    specialize (Hbound f). unfold slice_index.
    rewrite (proj2 (Z.ltb_lt lo 0)) by lia.
    rewrite (proj2 (Z.ltb_ge (n - 0) 0)) by lia.
    repeat case_bool_decide; try reflexivity; lia.
Qed.

Lemma edge_channels_out_of_range_witness :
  ∃ logs,
    _remove_edge_channels NaN
      (Cube 1 8 [[Val 1; Val 2; Val 3; Val 4; Val 5; Val 6; Val 7; Val 8]])
      4 0 5 ()
    = Run () logs
        (Ok (Cube 1 8 [[Val 1; Val 2; Val 3; NaN; Val 5; Val 6; Val 7; NaN]])).
Proof.
  assert (Hwf : cube_wf
            (Cube 1 8 [[Val 1; Val 2; Val 3; Val 4;
                        Val 5; Val 6; Val 7; Val 8]])).
  { repeat split; [simpl; lia|]. repeat constructor. }
  destruct (edge_channels_out_of_range () NaN _ 4 Hwf) as (_ & Hhi & _);
    [lia|reflexivity|].
  destruct (Hhi 5) as [logs Hrun]; [lia|].
  exists logs. exact Hrun.
Defined.

(** ** Data that are not whole subbands *)

Lemma reshape_subbands_refused {St A} (s : St) (n : Z) (data : cube A) :
  (n = 0 → n_freqs data ≠ 0 →
   reshape_subbands n data s = Run s [] (Raise OverflowError)) ∧
  (n = 0 → n_freqs data = 0 →
   reshape_subbands n data s = Run s [] (Raise ValueError)) ∧
  (0 < n → 0 <= n_freqs data → n_freqs data mod n ≠ 0 → n_times data ≠ 0 →
   reshape_subbands n data s = Run s [] (Raise ValueError)).
Proof.
  split; [|split].
  - intros -> Hnf. unfold reshape_subbands, float_div_to_int.
    change (Qeq_bool (inject_Z 0) 0) with true. cbv iota.
    by rewrite inject_Z_nonzero.
  - intros -> Hnf. unfold reshape_subbands. rewrite Hnf. reflexivity.
  - intros Hn Hnf Hmod Hnt. unfold reshape_subbands.
    rewrite (bind_ok _ _ _ _ _ _ (float_div_to_int_trunc s _ _ Hnf Hn)).
    rewrite (proj2 (Z.ltb_ge n 0)) by lia.
    rewrite (proj2 (Z.eqb_neq (n_times data) 0) Hnt).
    rewrite (proj2 (Z.eqb_neq (n_freqs data / n * n) (n_freqs data))).
    + reflexivity.
    + intros Heq. apply Hmod. apply Z.mod_divide; [lia|].
      exists (n_freqs data / n). lia.
Qed.

Section Bandpass.

Context `{TfUtils}.

(** X10. The bandpass correction and the masking of the edge channels
    both start by cutting the frequency axis into subbands, and both
    are refused, before anything is logged, on data that do not allow
    it: with 0 channels per subband the division leaves an infinity
    ([OverflowError]) or, for an axis of length 0, a NaN
    ([ValueError]); with a time sample and a number of frequencies that
    is not a multiple of the number of channels the reshape fails
    ([ValueError]). *)
Theorem subband_split_refused {St} (s : St) (data : cube cell) (n lo hi : Z) :
  (n = 0 → n_freqs data ≠ 0 →
   _correct_bandpass data n s = Run s [] (Raise OverflowError) ∧
   _remove_edge_channels cell_nan data n lo hi s
   = Run s [] (Raise OverflowError)) ∧
  (n = 0 → n_freqs data = 0 →
   _correct_bandpass data n s = Run s [] (Raise ValueError) ∧
   _remove_edge_channels cell_nan data n lo hi s
   = Run s [] (Raise ValueError)) ∧
  (0 < n → 0 <= n_freqs data → n_freqs data mod n ≠ 0 → n_times data ≠ 0 →
   _correct_bandpass data n s = Run s [] (Raise ValueError) ∧
   _remove_edge_channels cell_nan data n lo hi s
   = Run s [] (Raise ValueError)).
Proof.
  destruct (reshape_subbands_refused s n data) as (Hinf & Hnan & Hsize).
  assert (Hboth : ∀ e, reshape_subbands n data s = Run s [] (Raise e) →
            _correct_bandpass data n s = Run s [] (Raise e) ∧
            _remove_edge_channels cell_nan data n lo hi s
            = Run s [] (Raise e)).
  { intros e He. unfold _correct_bandpass, _remove_edge_channels.
    by rewrite !(bind_raise _ _ _ _ _ _ He). }
  split; [|split]; intros; apply Hboth; auto.
Qed.

Lemma mapM_run {St A B} (f : A → M St B) (g : A → B) (l : list A) (s : St) :
  (∀ x, x ∈ l → f x s = Run s [] (Ok (g x))) →
  mapM f l s = Run s [] (Ok (map g l)).
Proof.
  induction l as [|x l IH]; intros Hf; [reflexivity|].
  cbn [mapM map].
  change (Run s [] (Ok (g x :: map g l)))
    with (Run s ([] ++ [] ++ []) (Ok (g x :: map g l))).
  eapply bind_run; [apply Hf, elem_of_cons; by left|].
  eapply bind_run; [|reflexivity].
  apply IH. intros y Hy. apply Hf, elem_of_cons. by right.
Qed.

Lemma zip_with_imap {A} (scale : Q → A → A) (bp : list Q) (sb : list A) :
  zip_with scale bp sb
  = imap (λ j x, scale (default 0%Q (bp !! j)) x) (take (length bp) sb).
Proof.
  revert sb. induction bp as [|b bp IH]; intros sb; [reflexivity|].
  destruct sb as [|x sb]; [reflexivity|].
  cbn [zip_with length take imap]. f_equal. rewrite IH.
  by apply imap_ext.
Qed.

Lemma correct_bandpass_run {St} (s : St) (data : cube cell) (n : Z) :
  cube_wf data → 0 < n → n_freqs data mod n = 0 →
  Z.of_nat (length (get_bandpass n)) = n →
  _correct_bandpass data n s
  = Run s []
      (Ok (Cube (n_times data) (n_freqs data)
             (map (imap (λ f x,
                     cell_scale
                       (default 0%Q
                          (get_bandpass n !! Z.to_nat (Z.of_nat f mod n))) x))
                  (items data)))).
Proof.
  intros Hwf Hn Hmod Hbp.
  pose proof (reshape_subbands_run s n data Hwf Hn Hmod) as Hsplit.
  destruct Hwf as (_ & _ & Hrows). rewrite Forall_forall in Hrows.
  assert (Hscale :
    mapM (mapM (scale_subband cell_scale n (get_bandpass n)))
         (map (subbands n) (items data)) s
    = Run s []
        (Ok (map (map (imap (λ j x,
                    cell_scale (default 0%Q (get_bandpass n !! j)) x)))
                 (map (subbands n) (items data))))).
  { apply mapM_run. intros sbs Hsbs.
    apply list_elem_of_In, in_map_iff in Hsbs as (row & <- & Hrow).
    apply list_elem_of_In in Hrow.
    apply mapM_run. intros sb Hsb.
    pose proof (subbands_length n row Hn) as Hlens.
    rewrite (Hrows row Hrow) in Hlens. specialize (Hlens Hmod).
    rewrite Forall_forall in Hlens. specialize (Hlens sb Hsb).
    unfold scale_subband. rewrite (proj2 (Z.eqb_eq _ _) Hbp).
    rewrite zip_with_imap, take_ge by lia. reflexivity. }
  unfold _correct_bandpass.
  rewrite (bind_ok _ _ _ _ _ _ Hsplit), (bind_ok _ _ _ _ _ _ Hscale).
  run_unfold. cbn [final logged result app]. unfold merge_subbands.
  rewrite !map_map. do 3 f_equal.
  apply map_ext_in. intros row Hrow. apply list_elem_of_In in Hrow.
  apply (subbands_imap (λ j x,
           cell_scale (default 0%Q (get_bandpass n !! j)) x)); [done|].
  by rewrite (Hrows row Hrow).
Qed.

(** X11. With a profile of one value per channel, the bandpass
    correction of a cube whose rows hold whole subbands of [n] channels
    returns, without a log record: the shape is kept, and the item at
    frequency [f] is multiplied by the value of the profile at the
    position [f mod n] of its channel in the subband, the same for
    every subband and every time. *)
Theorem bandpass_scales_channels {St} (s : St) (data : cube cell) (n : Z) :
  cube_wf data → 0 < n → n_freqs data mod n = 0 →
  Z.of_nat (length (get_bandpass n)) = n →
  ∃ out,
    _correct_bandpass data n s = Run s [] (Ok out) ∧
    cube_wf out ∧
    n_times out = n_times data ∧
    n_freqs out = n_freqs data ∧
    (∀ (i f : nat) row x,
       items data !! i = Some row → row !! f = Some x →
       ∃ row' b, items out !! i = Some row' ∧
         get_bandpass n !! Z.to_nat (Z.of_nat f mod n) = Some b ∧
         row' !! f = Some (cell_scale b x)).
Proof.
  intros Hwf Hn Hmod Hbp. eexists. split; [by apply correct_bandpass_run|].
  cbn [n_times n_freqs items]. split.
  { destruct Hwf as (Hnt & Hnf & Hrows). split; [|split].
    - cbn [items n_times]. by rewrite length_map.
    - exact Hnf.
    - cbn [items n_freqs]. by apply imap_length_rows. }
  split; [reflexivity|]. split; [reflexivity|].
  intros i f row x Hrow Hx.
  pose proof (Z.mod_pos_bound (Z.of_nat f) n Hn) as Hbound.
  destruct (lookup_lt_is_Some_2 (get_bandpass n)
              (Z.to_nat (Z.of_nat f mod n))) as [b Hb]; [lia|].
  eexists _, b. split; [|split; [exact Hb|]].
  - rewrite lookup_map, Hrow. reflexivity.
  - rewrite list_lookup_imap, Hx. cbn. by rewrite Hb.
Qed.

End Bandpass.

Lemma subband_split_refused_witness :
  @_remove_edge_channels () _ (@cell_nan spec_utils)
    (Cube 1 3 [[@cell_nan spec_utils; @cell_nan spec_utils;
                @cell_nan spec_utils]]) 2 1 1 ()
  = Run () [] (Raise ValueError).
Proof.
  destruct (subband_split_refused (H := spec_utils) ()
              (Cube 1 3 [[@cell_nan spec_utils; @cell_nan spec_utils;
                          @cell_nan spec_utils]]) 2 1 1)
    as (_ & _ & Hsize).
  apply Hsize; [lia|simpl; lia|discriminate|discriminate].
Defined.

Lemma bandpass_scales_channels_witness :
  ∃ out,
    @_correct_bandpass spec_utils ()
      (Cube 1 2 [[coherency (1, 0) (0, 1); coherency (1, 1) (2, 0)]]%Q) 2 ()
    = Run () [] (Ok out) ∧
    n_freqs out = 2.
Proof.
  destruct (bandpass_scales_channels (H := spec_utils) ()
              (Cube 1 2 [[coherency (1, 0) (0, 1);
                          coherency (1, 1) (2, 0)]]%Q) 2)
    as (out & Hrun & _ & _ & Hnf & _).
  - repeat split; [simpl; lia|]. repeat constructor.
  - lia.
  - reflexivity.
  - reflexivity.
  - exists out. split; [exact Hrun|exact Hnf].
Defined.

(** ** Rebinning in frequency *)

Lemma slice_bounds_leftover (N l : Z) :
  0 <= l <= N →
  slice_bounds N None (Some (leftover_stop l N)) = (0, N - l).
Proof.
  intros Hl. unfold slice_bounds, leftover_stop, slice_index.
  cbn [from_option]. destruct (l =? 0) eqn:Hl0.
  - apply Z.eqb_eq in Hl0 as ->.
    rewrite (proj2 (Z.ltb_ge N 0)) by lia. f_equal. lia.
  - apply Z.eqb_neq in Hl0.
    rewrite (proj2 (Z.ltb_lt (- l) 0)) by lia. f_equal. lia.
Qed.

Lemma frequency_rebin_run {St} (s : St) (p : file_parameters)
  (v scale d : Q) (u : unit_) (data : cube3) (freqs : list fval) (N B : Z) :
  cube3_wf data → n_freqs (tf data) = N → Z.of_nat (length freqs) = N →
  df p = Some d → ¬ (d == 0)%Q → to_Hz u = Some scale →
  Qtrunc (inject_Z (Qfloor (v / d)) * scale) = B → 1 <= B <= N →
  let n := N / B in
  let l := N mod n in
  let k := (N - l) / n in
  frequency_rebin p (v, u) data freqs s
  = Run s
      [(INFO, "Frequency-averaging " +:+ str_int B +:+ " channels...");
       (INFO, "Last " +:+ str_int l
              +:+ " channels are left over for frequency-averaging.");
       (INFO, "Data are frequency-averaged.")]
      (Ok (Cube3
             (Cube (n_times (tf data)) n
                (map (λ row,
                        map (nanmean_vectors (n_pols data))
                            (chunks (Z.to_nat n) (Z.to_nat k)
                                    (take (Z.to_nat (N - l)) row)))
                     (items (tf data))))
             (n_pols data),
           map nanmean
               (chunks (Z.to_nat n) (Z.to_nat k)
                       (take (Z.to_nat (N - l)) freqs)))).
Proof.
  intros [(_ & _ & Hrows) _] HN Hfreqs Hdf Hd Hu HB HBN n l k.
  destruct (rebin_arithmetic N B HBN) as (Hn & Hl & Hk & Hnk & HlN).
  fold n l k in Hn, Hl, Hk, Hnk, HlN.
  unfold frequency_rebin. cbv zeta. cbn [fst snd]. rewrite HN, Hdf, Hu.
  etransitivity.
  { eapply bind_run; [apply quantity_floor_to_int_run; exact Hd|].
    rewrite HB.
    eapply bind_run; [reflexivity|].
    eapply bind_run; [apply int_floor_div_run; lia|]. fold n.
    eapply bind_run; [apply py_mod_run; lia|]. fold l. cbv beta.
    rewrite slice_bounds_leftover by lia.
    rewrite !(py_slice_leftover freqs N) by (done || lia).
    eapply bind_run; [reflexivity|].
    eapply bind_run; [apply int_trunc_div_run; lia|]. fold k.
    eapply bind_run.
    { apply reshape_dims_run; [lia|lia|lia]. }
    eapply bind_run.
    { apply reshape_dims_run; [lia|lia|].
      rewrite length_take. lia. }
    eapply bind_run; [reflexivity|]. reflexivity. }
  cbn [app fst snd]. do 5 f_equal.
  apply map_ext_in. intros row Hrow. unfold split_axis. cbn [fst snd].
  rewrite (py_slice_leftover row N); [reflexivity| |lia].
  rewrite Forall_forall in Hrows. rewrite <- HN.
  by apply Hrows, list_elem_of_In.
Qed.

Lemma nanmean_vectors_lookup (np : Z) (group : list (list fval)) (pol : nat) :
  Z.of_nat pol < np →
  nanmean_vectors np group !! pol
  = Some (nanmean (map (λ v, default NaN (v !! pol)) group)).
Proof.
  intros Hpol. unfold nanmean_vectors.
  rewrite lookup_map, lookup_seq_lt by lia. reflexivity.
Qed.

(** X12. The frequency rebinning.  The target is a [Quantity] of
    value [v] in a frequency unit of factor [scale] to hertz, and the
    frequency step [d], in hertz, is finite and other than 0.  The
    number [B] of channels per bin is the ratio [v / d] floored as it
    stands, in the unit given, then multiplied by [scale] and truncated.
    With [1 <= B <= N] on data of [N] frequencies and as many frequency
    values, the rebinning returns [n = N div B] bins for every time
    sample, reports [l = N mod n] left-over channels and drops that
    many from the upper end; each output value is the mean, NaN
    excluded, of the [k = (N - l) div n] channels of its bin, and each
    output frequency the mean of the frequencies of the bin.  The
    number of time samples is unchanged. *)
Theorem frequency_rebin_bins {St} (s : St) (p : file_parameters)
  (v scale d : Q) (u : unit_) (data : cube3) (freqs : list fval) (N B : Z) :
  cube3_wf data → n_freqs (tf data) = N → Z.of_nat (length freqs) = N →
  df p = Some d → ¬ (d == 0)%Q → to_Hz u = Some scale →
  Qtrunc (inject_Z (Qfloor (v / d)) * scale) = B → 1 <= B <= N →
  let n := N / B in
  let l := N mod n in
  let k := (N - l) / n in
  ∃ logs out freqs',
    frequency_rebin p (v, u) data freqs s = Run s logs (Ok (out, freqs')) ∧
    n_times (tf out) = n_times (tf data) ∧
    length (items (tf out)) = length (items (tf data)) ∧
    n_freqs (tf out) = n ∧
    Forall (λ row, Z.of_nat (length row) = n) (items (tf out)) ∧
    Z.of_nat (length freqs') = n ∧
    (INFO, "Last " +:+ str_int l
           +:+ " channels are left over for frequency-averaging.") ∈ logs ∧
    0 <= l ∧ n * k = N - l ∧
    (∀ (i f pol : nat) row,
       items (tf data) !! i = Some row →
       Z.of_nat f < n → Z.of_nat pol < n_pols data →
       value_at out i f pol
       = Some (nanmean
                 (map (λ v, default NaN (v !! pol))
                      (take (Z.to_nat k) (drop (f * Z.to_nat k) row))))) ∧
    (∀ f : nat,
       Z.of_nat f < n →
       freqs' !! f
       = Some (nanmean (take (Z.to_nat k) (drop (f * Z.to_nat k) freqs)))).
Proof.
  intros Hwf HN Hfreqs Hdf Hd Hu HB HBN n l k.
  pose proof (frequency_rebin_run s p v scale d u data freqs N B
                Hwf HN Hfreqs Hdf Hd Hu HB HBN) as Hrun.
  destruct (rebin_arithmetic N B HBN) as (Hn & Hl & Hk & Hnk & HlN).
  fold n l k in Hrun, Hn, Hl, Hk, Hnk, HlN.
  eexists _, _, _. split; [exact Hrun|].
  cbn [tf n_times n_freqs items].
  assert (Hbin : ∀ f : nat, Z.of_nat f < n →
            (f * Z.to_nat k + Z.to_nat k <= Z.to_nat (N - l))%nat).
  { intros f Hf. nia. }
  split; [reflexivity|]. split; [by rewrite length_map|].
  split; [reflexivity|]. split.
  { apply Forall_forall. intros row' Hin.
    apply list_elem_of_In, in_map_iff in Hin as (row & <- & _).
    rewrite length_map, length_chunks. lia. }
  split.
  { rewrite length_map, length_chunks. lia. }
  split.
  { apply elem_of_cons. right. apply elem_of_cons. by left. }
  split; [lia|]. split; [done|]. split.
  - intros i f pol row Hrow Hf Hpol. unfold value_at, row_value.
    cbn [tf items]. rewrite lookup_map, Hrow.
    cbn [fmap option_fmap option_map].
    rewrite lookup_map, chunks_lookup by lia.
    cbn [fmap option_fmap option_map].
    rewrite take_drop_take by (by apply Hbin).
    by apply nanmean_vectors_lookup.
  - intros f Hf. rewrite lookup_map, chunks_lookup by lia.
    cbn [fmap option_fmap option_map].
    by rewrite take_drop_take by (by apply Hbin).
Qed.

Lemma frequency_rebin_bins_witness :
  ∃ logs out freqs',
    frequency_rebin demo_parameters (390625 # 2, Hz)
      (Cube3 (Cube 1 4 [[[Val 1]; [Val 2]; [Val 3]; [Val 4]]]) 1)
      [Val 10; Val 20; Val 30; Val 40] ()
    = Run () logs (Ok (out, freqs')) ∧
    n_freqs (tf out) = 2 ∧
    (INFO, "Last 0 channels are left over for frequency-averaging.") ∈ logs.
Proof.
  assert (Hwf : cube3_wf
            (Cube3 (Cube 1 4 [[[Val 1]; [Val 2]; [Val 3]; [Val 4]]]) 1)).
  { repeat split; [simpl; lia | repeat constructor | repeat constructor]. }
  destruct (frequency_rebin_bins () demo_parameters (390625 # 2) 1
              (390625 # 4) Hz
              _ [Val 10; Val 20; Val 30; Val 40] 4 2 Hwf)
    as (logs & out & freqs' & Hrun & _ & _ & Hn & _ & _ & Hlog & _);
    [reflexivity | reflexivity | reflexivity | discriminate | reflexivity
    | reflexivity | lia |].
  exists logs, out, freqs'. split; [exact Hrun|]. split; [exact Hn|].
  exact Hlog.
Defined.

(** ** Bins the data do not allow *)

Lemma rebin_no_bin {St A} (s : St) (N B : Z) (msg : string)
  (k : Z → Z → M St A) :
  B = 0 ∨ 0 <= N < B →
  (log INFO msg ;; (int_floor_div N B ≫= λ n, py_mod N n ≫= k n)) s
  = Run s [(INFO, msg)] (Raise ZeroDivisionError).
Proof.
  intros HB.
  assert (Hdiv : (int_floor_div N B ≫= λ n, py_mod N n ≫= k n) s
                 = Run s [] (Raise ZeroDivisionError)).
  { destruct HB as [-> | HB].
    - apply bind_raise. reflexivity.
    - rewrite (bind_ok _ _ _ _ _ _ (int_floor_div_run s N B ltac:(lia))).
      rewrite Z.div_small by lia.
      rewrite (bind_raise _ _ _ s [] ZeroDivisionError) by reflexivity.
      reflexivity. }
  etransitivity; [eapply bind_run; [reflexivity|exact Hdiv]|reflexivity].
Qed.

(** X13. Bins the data do not allow.  The number [B] of native samples
    per bin is the ratio of the target's value to the native step,
    floored in the unit of the target, then multiplied by the factor of
    that unit and truncated.  Both rebinnings raise [ZeroDivisionError]
    when [B] is 0 and when [B] exceeds the length of the axis, a cube
    without a sample included.  A target whose unit is not of the kind
    of the step, a plain number included, raises [TypeError] before any
    record is logged.  A time step of 0 stops the time rebinning at the
    ratio, before any record ([OverflowError], or [ValueError] for a
    target of 0), and an infinite frequency step, that of a file of 0
    channels, makes [B] 0. *)
Theorem rebin_refused {St} (s : St) (p : file_parameters) (v : Q)
  (u : unit_) (data : cube3) (axis : list fval) :
  (∀ B scale, ¬ (dt p == 0)%Q → to_second u = Some scale →
        Qtrunc (inject_Z (Qfloor (v / dt p)) * scale) = B →
        B = 0 ∨ 0 <= n_times (tf data) < B →
        ∃ logs, time_rebin p (v, u) data axis s
                = Run s logs (Raise ZeroDivisionError)) ∧
  (to_second u = None →
   time_rebin p (v, u) data axis s = Run s [] (Raise TypeError)) ∧
  (∀ scale, (dt p == 0)%Q → to_second u = Some scale →
   time_rebin p (v, u) data axis s
   = Run s [] (Raise (if Qeq_bool v 0 then ValueError else OverflowError))) ∧
  (∀ B scale d, df p = Some d → ¬ (d == 0)%Q → to_Hz u = Some scale →
          Qtrunc (inject_Z (Qfloor (v / d)) * scale) = B →
          B = 0 ∨ 0 <= n_freqs (tf data) < B →
          ∃ logs, frequency_rebin p (v, u) data axis s
                  = Run s logs (Raise ZeroDivisionError)) ∧
  (to_Hz u = None →
   frequency_rebin p (v, u) data axis s = Run s [] (Raise TypeError)) ∧
  (∀ scale, df p = None → to_Hz u = Some scale →
   ∃ logs, frequency_rebin p (v, u) data axis s
           = Run s logs (Raise ZeroDivisionError)).
Proof.
  split; [|split; [|split; [|split; [|split]]]].
  - intros B scale Hdt Hu HB Hbin. eexists. unfold time_rebin. cbv zeta.
    cbn [fst snd]. rewrite Hu.
    rewrite (bind_ok _ _ _ _ _ _
               (quantity_floor_to_int_run s v scale (dt p) Hdt)).
    rewrite HB. cbv beta.
    rewrite (rebin_no_bin s _ B _ _ Hbin). reflexivity.
  - intros Hu. unfold time_rebin. cbv zeta. cbn [fst snd]. rewrite Hu.
    apply bind_raise. reflexivity.
  - intros scale Hdt Hu. unfold time_rebin. cbv zeta. cbn [fst snd].
    rewrite Hu. apply bind_raise.
    unfold quantity_floor_to_int, float_div_to_int.
    rewrite (proj2 (Qeq_bool_iff _ _) Hdt).
    by destruct (Qeq_bool v 0).
  - intros B scale d Hdf Hd Hu HB Hbin. eexists.
    unfold frequency_rebin. cbv zeta. cbn [fst snd]. rewrite Hdf, Hu.
    rewrite (bind_ok _ _ _ _ _ _
               (quantity_floor_to_int_run s v scale d Hd)).
    rewrite HB. cbv beta.
    rewrite (rebin_no_bin s _ B _ _ Hbin). reflexivity.
  - intros Hu. unfold frequency_rebin. cbv zeta. cbn [fst snd].
    rewrite Hu. apply bind_raise. by destruct (df p).
  - intros scale Hdf Hu. eexists. unfold frequency_rebin. cbv zeta.
    cbn [fst snd]. rewrite Hdf, Hu.
    rewrite bind_ret_l. cbv beta.
    rewrite (rebin_no_bin s _ 0 _ _ (or_introl eq_refl)). reflexivity.
Qed.

Lemma rebin_refused_witness :
  (∃ logs,
     frequency_rebin demo_parameters (25 # 128, MHz)
       (Cube3 (Cube 1 4 [[[Val 1]; [Val 2]; [Val 3]; [Val 4]]]) 1)
       [Val 10; Val 20; Val 30; Val 40] ()
     = Run () logs (Raise ZeroDivisionError)) ∧
  (∃ logs,
     time_rebin demo_parameters (11 * dt demo_parameters, second)%Q
                ten_samples ten_times ()
     = Run () logs (Raise ZeroDivisionError)).
Proof.
  split.
  - destruct (rebin_refused () demo_parameters (25 # 128) MHz
                (Cube3 (Cube 1 4 [[[Val 1]; [Val 2]; [Val 3]; [Val 4]]]) 1)
                [Val 10; Val 20; Val 30; Val 40])
      as (_ & _ & _ & Hbin & _).
    apply (Hbin 0 (1000000 # 1)%Q (390625 # 4)%Q);
      [reflexivity | discriminate | reflexivity | reflexivity | by left].
  - destruct (rebin_refused () demo_parameters (11 * dt demo_parameters)
                second ten_samples ten_times) as (Hbin & _).
    apply (Hbin 11 1%Q);
      [discriminate | reflexivity | reflexivity | right; simpl; lia].
Defined.

(** ** The width of the bins *)

Lemma rebin_width (N B : Z) :
  1 <= B <= N →
  let n := N / B in
  let l := N mod n in
  let k := (N - l) / n in
  B <= k ∧ (k = B ↔ N mod B < n) ∧ l <= N mod B ∧ (l = N mod B ↔ k = B).
Proof.
  intros HB n l k.
  destruct (rebin_arithmetic N B HB) as (Hn & Hl & Hk & Hnk & HlN).
  fold n l k in Hn, Hl, Hk, Hnk, HlN.
  pose proof (Z.div_mod N B ltac:(lia)) as Hdiv. fold n in Hdiv.
  pose proof (Z.mod_pos_bound N B ltac:(lia)) as Hr.
  assert (HBk : B <= k) by nia.
  split; [exact HBk|]. split; [|split].
  - split; [intros ->; nia | intros Hlt; nia].
  - nia.
  - split; [intros Heq; nia | intros ->; nia].
Qed.

(** X14. The bins are as wide as the data allow, not as asked.  The
    target is a [Quantity] of value [v] in a time unit of factor
    [scale] to seconds, and [B], the number of samples asked per bin,
    is the ratio of [v] to the time step floored in the unit given,
    then multiplied by [scale] and truncated.  With [1 <= B <= N] on
    data of [N] time samples and as many times, the time rebinning
    returns [n = N div B] bins of [k = (N - l) div n] samples each,
    where [l = N mod n] is the number of samples dropped; [k] is at
    least [B], and equal to [B] exactly when the remainder [N mod B] is
    below the number of bins; otherwise the bins are wider than asked
    and fewer samples than [N mod B] are dropped. *)
Theorem time_rebin_bin_width {St} (s : St) (p : file_parameters)
  (v scale : Q) (u : unit_) (data : cube3) (times : list fval) (N B : Z) :
  cube3_wf data → n_times (tf data) = N → Z.of_nat (length times) = N →
  ¬ (dt p == 0)%Q → to_second u = Some scale →
  Qtrunc (inject_Z (Qfloor (v / dt p)) * scale) = B → 1 <= B <= N →
  let n := N / B in
  let l := N mod n in
  let k := (N - l) / n in
  ∃ logs out times',
    time_rebin p (v, u) data times s = Run s logs (Ok (out, times')) ∧
    times' = map nanmean (chunks (Z.to_nat n) (Z.to_nat k)
                                 (take (Z.to_nat (N - l)) times)) ∧
    items (tf out)
    = map (nanmean_rows (n_freqs (tf data)) (n_pols data))
          (chunks (Z.to_nat n) (Z.to_nat k)
                  (take (Z.to_nat (N - l)) (items (tf data)))) ∧
    B <= k ∧
    (k = B ↔ N mod B < n) ∧
    l <= N mod B ∧
    (l = N mod B ↔ k = B).
Proof.
  intros Hwf HN Htimes Hdt Hu HB HBN n l k.
  pose proof (time_rebin_run s p v scale u data times N B
                Hwf HN Htimes Hdt Hu HB HBN) as Hrun.
  destruct (rebin_width N B HBN) as (Hk & Hiff & Hl & Hiff').
  eexists _, _, _. split; [exact Hrun|].
  split; [reflexivity|]. split; [reflexivity|]. done.
Qed.

Lemma time_rebin_bin_width_witness :
  ∃ logs out times',
    time_rebin demo_parameters (128 # 3125, millisecond) ten_samples
               ten_times ()
    = Run () logs (Ok (out, times')) ∧
    times' = map nanmean (chunks 2 5 ten_times).
Proof.
  assert (Hwf : cube3_wf ten_samples).
  { repeat split; [simpl; lia | repeat constructor | repeat constructor]. }
  destruct (time_rebin_bin_width () demo_parameters (128 # 3125) (1 # 1000)
              millisecond ten_samples ten_times 10 4 Hwf)
    as (logs & out & times' & Hrun & Htimes & _);
    [reflexivity | reflexivity | discriminate | reflexivity | reflexivity
    | lia |].
  exists logs, out, times'. split; [exact Hrun|]. exact Htimes.
Defined.

(** ** What a selection holds *)

Lemma nearest_index_inv {St} (s : St) (xs : list Q) (t : Q) (b : Z) :
  result (nearest_index xs t s) = Ok b →
  (∀ St' (s' : St'), nearest_index xs t s' = Run s' [] (Ok b)) ∧
  0 <= b < Z.of_nat (length xs).
Proof.
  unfold nearest_index. destruct xs as [|x0 xs]; cbn [map]; [discriminate|].
  intros [= <-]. split; [reflexivity|].
  destruct (argmin_from_spec (map (λ x, Z.abs (Qceiling (x - t))) xs) 1
              (Z.abs (Qceiling (x0 - t))) 0)
    as [[-> _] | (k & d & -> & Hk & _)]; cbn [length]; [lia|].
  apply lookup_lt_Some in Hk. rewrite length_map in Hk. lia.
Qed.

Lemma getitem_inv {St A} (s : St) (xs : list A) (i : Z) (x : A) :
  0 <= i → result (getitem xs i s) = Ok x → xs !! Z.to_nat i = Some x.
Proof.
  intros Hi. unfold getitem. rewrite (proj2 (Z.ltb_ge i 0)) by lia.
  destruct (_ && _); [apply expect_result_ok|discriminate].
Qed.

Lemma float_div_to_int_inv {St} (s : St) (f : Q → Z) (a b : Q) (z : Z) :
  result (float_div_to_int f a b s) = Ok z →
  ¬ (b == 0)%Q ∧ z = f (a / b)%Q.
Proof.
  unfold float_div_to_int. destruct (Qeq_bool b 0) eqn:Hb.
  - by destruct (Qeq_bool a 0).
  - intros [= <-]. split; [|reflexivity].
    intros Heq. apply Qeq_bool_iff in Heq. congruence.
Qed.



Lemma py_slice_all {A} (xs : list A) : py_slice None None xs = xs.
Proof.
  unfold py_slice, slice_bounds. cbn [from_option].
  rewrite drop_0, Z.sub_0_r, Nat2Z.id. apply take_ge. lia.
Qed.

Lemma py_slice_length_map {A B} (f : A → B) (a b : option Z) (xs : list A) :
  length (py_slice a b (map f xs)) = length (py_slice a b xs).
Proof.
  unfold py_slice. rewrite length_map.
  destruct (slice_bounds _ a b) as [i j].
  by rewrite !length_take, !length_drop, length_map.
Qed.

Section Selection.

Context `{TfUtils}.

Lemma select_data_inversion {St} (s : St) (self : Spectra)
  (freqs times : list Q) (d : cube cell) :
  result (_select_data self s) = Ok (Some (freqs, times, d)) →
  let p := parameters self in
  let n := _n_time_per_block p in
  let starts := _block_start_unix self in
  ∃ tmin tmax bmin bmax start_min start_max f0 f1 u factor b range,
    _time_range (configuration self) = Some (tmin, tmax) ∧
    nearest_index starts tmin s = Run s [] (Ok bmin) ∧
    nearest_index starts tmax s = Run s [] (Ok bmax) ∧
    0 <= bmin ∧ 0 <= bmax ∧
    starts !! Z.to_nat bmin = Some start_min ∧
    starts !! Z.to_nat bmax = Some start_max ∧
    ¬ (dt p == 0)%Q ∧
    _frequency_range (configuration self) = Some (f0, f1, u) ∧
    to_Hz u = Some factor ∧
    _beam (configuration self) = Some b ∧
    dict_get (py_str b) (beam_indices_dict self) = Some range ∧
    let imin := np_round ((tmin - start_min) / dt p) in
    let imax := np_round ((tmax - start_max) / dt p) in
    bmin * n + imin ≠ bmax * n + imax ∧
    times
    = py_slice (Some imin) (Some (- (n - imax) + 1))
        (compute_spectra_time
           (py_slice (Some bmin) (Some (bmax + 1)) starts) n (dt p)) ∧
    n_times d = Z.of_nat (length (items d)) ∧
    length (items d)
    = length (py_slice (Some (bmin * n + imin)) (Some (bmax * n + imax + 1))
                (items (data self))).
Proof.
  intros Hrun p n starts. unfold _select_data in Hrun.
  apply bind_result_ok in Hrun as ([] & _ & Hrun).
  apply bind_result_ok in Hrun as ([tmin tmax] & Htr & Hrun).
  apply expect_result_ok in Htr.
  apply bind_result_ok in Hrun as (bmin & Hbmin & Hrun).
  apply nearest_index_inv in Hbmin as [Hbmin Hbmin_range].
  apply bind_result_ok in Hrun as (bmax & Hbmax & Hrun).
  apply nearest_index_inv in Hbmax as [Hbmax Hbmax_range].
  apply bind_result_ok in Hrun as (start_min & Hsmin & Hrun).
  apply getitem_inv in Hsmin; [|lia].
  apply bind_result_ok in Hrun as (imin & Himin & Hrun).
  apply float_div_to_int_inv in Himin as [Hdt ->].
  apply bind_result_ok in Hrun as (start_max & Hsmax & Hrun).
  apply getitem_inv in Hsmax; [|lia].
  apply bind_result_ok in Hrun as (imax & Himax & Hrun).
  apply float_div_to_int_inv in Himax as [_ ->].
  fold p n starts in Hrun, Hsmin, Hsmax, Hdt, Hbmin, Hbmax.
  destruct (_ =? _) eqn:Hne in Hrun.
  { apply bind_result_ok in Hrun as (? & _ & Hrun). discriminate. }
  apply Z.eqb_neq in Hne.
  apply bind_result_ok in Hrun as ([] & _ & Hrun).
  apply bind_result_ok in Hrun as ([[f0 f1] u] & Hfr & Hrun).
  apply expect_result_ok in Hfr.
  apply bind_result_ok in Hrun as (factor & Hfactor & Hrun).
  apply expect_result_ok in Hfactor.
  apply bind_result_ok in Hrun as (b & Hb & Hrun).
  apply expect_result_ok in Hb.
  apply bind_result_ok in Hrun as ([first last] & Hrange & Hrun).
  apply expect_result_ok in Hrange.
  apply bind_result_ok in Hrun as (sb_start & _ & Hrun).
  apply bind_result_ok in Hrun as (sb_stop & _ & Hrun).
  apply bind_result_ok in Hrun as (sb_min & _ & Hrun).
  apply bind_result_ok in Hrun as (sb_max & _ & Hrun).
  run_unfold_in Hrun. cbn [result] in Hrun. injection Hrun as <- <- <-.
  exists tmin, tmax, bmin, bmax, start_min, start_max, f0, f1, u, factor, b,
    (first, last).
  split; [exact Htr|]. split; [apply Hbmin|]. split; [apply Hbmax|].
  split; [lia|]. split; [lia|]. split; [exact Hsmin|]. split; [exact Hsmax|].
  split; [exact Hdt|]. split; [exact Hfr|]. split; [exact Hfactor|].
  split; [exact Hb|]. split; [exact Hrange|].
  cbv zeta. split; [exact Hne|]. split; [reflexivity|].
  unfold cube_slice. cbn [items n_times n_freqs].
  destruct (slice_bounds _ (Some first) (Some (last + 1))) as [ja jb].
  cbn [items n_times n_freqs].
  destruct (slice_bounds _ (Some (sb_min * n_channels p))
              (Some ((sb_max + 1) * n_channels p))) as [ka kb].
  cbn [items n_times n_freqs]. rewrite !length_map. split; [reflexivity|].
  by rewrite py_slice_length_map, py_slice_all.
Qed.

End Selection.

Section TimeAxis.

Context `{TfUtils}.


End TimeAxis.


(** ** Properties and queries that cannot return *)

Lemma dict_get_key {V} (k : string) (d : dict V) (v : V) :
  dict_get k d = Some v → k ∈ dict_keys d.
Proof.
  induction d as [|[k' v'] d IH]; cbn [dict_get dict_keys map fst];
    [discriminate|].
  destruct (String.eqb k' k) eqn:Hk.
  - apply String.eqb_eq in Hk as ->. intros _. apply elem_of_cons. by left.
  - intros Hget. apply elem_of_cons. right. by apply IH.
Qed.

Lemma parsed_keys (keys : list string) (beams : list Z) (k : string) :
  mapM parse_int keys = Some beams → k ∈ keys →
  ∃ z, parse_int k = Some z ∧ z ∈ beams.
Proof.
  intros Hparse Hk. apply mapM_Some in Hparse.
  apply list_elem_of_lookup in Hk as [i Hi].
  destruct (Forall2_lookup_l _ _ _ _ _ Hparse Hi) as (z & Hz & Hkz).
  exists z. split; [exact Hkz|]. by eapply list_elem_of_lookup_2.
Qed.

Lemma set_beam_bool_ok (c : _ProcessingConfiguration) (b : bool) :
  result (set_beam (PBool b) c) = Ok () →
  final (set_beam (PBool b) c) = with_beam (IBool b) c.
Proof.
  unfold set_beam. run_unfold. cbn [result final logged isinstance_int].
  by destruct (bool_decide _).
Qed.

Lemma set_frequency_range_stored (c : _ProcessingConfiguration)
  (f0 f1 : Q) (u : unit_) :
  (f0 < f1)%Q →
  final (set_frequency_range (PQuantity [f0; f1] u) c)
  = with_frequency_range (f0, f1, u) c.
Proof.
  intros Hlt. unfold set_frequency_range.
  destruct (Qge_bool f0 f1) eqn:Hge.
  { unfold Qge_bool in Hge. apply Qle_bool_iff in Hge.
    by apply Qle_not_lt in Hge. }
  run_unfold. by destruct (to_Hz u).
Qed.

Section NoReturn.

Context `{TfUtils} `{AstropyTime}.

Lemma frequency_bounds_raise {St} (s : St) (self : Spectra) :
  beam_indices_dict self ≠ [] →
  Spectra_frequency_min self s = Run s [] (Raise AttributeError) ∧
  Spectra_frequency_max self s = Run s [] (Raise AttributeError).
Proof.
  intros Hdict. unfold Spectra_frequency_min, Spectra_frequency_max.
  destruct (beam_indices_dict self) as [|[k boundaries] rest]; [done|].
  split; apply bind_raise; cbn [mapM]; apply bind_raise, bind_raise;
    reflexivity.
Qed.

(** X16. The properties [frequency_min] and [frequency_max] never
    return a value: they read an attribute, [frequency_hz], that no
    statement assigns.  On an object with beams, and so on every object
    the constructor returns, both raise [AttributeError]; without a
    beam both raise [ValueError], the minimum of nothing. *)
Theorem frequency_bounds_never_return {St} (s : St) (self : Spectra) :
  (beam_indices_dict self ≠ [] →
   Spectra_frequency_min self s = Run s [] (Raise AttributeError) ∧
   Spectra_frequency_max self s = Run s [] (Raise AttributeError)) ∧
  (beam_indices_dict self = [] →
   Spectra_frequency_min self s = Run s [] (Raise ValueError) ∧
   Spectra_frequency_max self s = Run s [] (Raise ValueError)) ∧
  (∀ St' (s' : St') file,
     result (Spectra_init file s') = Ok self →
     Spectra_frequency_min self s = Run s [] (Raise AttributeError) ∧
     Spectra_frequency_max self s = Run s [] (Raise AttributeError)).
Proof.
  split; [apply frequency_bounds_raise|]. split.
  - intros Hdict. unfold Spectra_frequency_min, Spectra_frequency_max.
    rewrite Hdict. split; reflexivity.
  - intros St' s' file Hrun. apply frequency_bounds_raise.
    destruct (spectra_init_inversion s' file self Hrun)
      as (b0 & rest & beams & _ & _ & _ & _ & Hbeams & Hzero
          & t_first & t_last & f_first & f_last & _ & _ & _ & _ & _ & _ & ->).
    cbn [beam_indices_dict]. intros Hnil. rewrite Hnil in Hbeams.
    injection Hbeams as <-. by apply elem_of_nil in Hzero.
Qed.

Lemma get_returns_selection {St} (s : St) (self : Spectra) stokes r :
  result (get self stokes s) = Ok r →
  ∃ freqs times d,
    result (_select_data self s) = Ok (Some (freqs, times, d)).
Proof.
  unfold get. intros Hrun.
  apply bind_result_ok in Hrun as (sel & Hsel & Hrun).
  apply bind_result_ok in Hrun as ([[freqs times] d] & Hexp & _).
  apply expect_result_ok in Hexp as ->. eauto.
Qed.

(** X17. Two values a setter stores make every later query fail.  A
    frequency range in a unit that is not a frequency is stored by its
    setter, which then raises; a [bool] is accepted as a beam on a file
    with the beam it equals, and stored as a [bool].  With either in
    the configuration of an opened file, [get] returns for no Stokes
    parameter: the first cannot be converted to Hz, the second is
    looked up under the key "True" or "False", which no file has. *)
Theorem stored_values_block_queries {St St'} (s : St) (s' : St')
  (file : list block) (sp : Spectra) (stokes : pyval) (r : SData) :
  result (Spectra_init file s) = Ok sp →
  (∀ f0 f1 u, (f0 < f1)%Q → to_Hz u = None →
     let c := final (set_frequency_range (PQuantity [f0; f1] u)
                       (configuration sp)) in
     _frequency_range c = Some (f0, f1, u) ∧
     result (get (with_configuration c sp) stokes s') ≠ Ok r) ∧
  (∀ b, result (set_beam (PBool b) (configuration sp)) = Ok () →
     let c := final (set_beam (PBool b) (configuration sp)) in
     _beam c = Some (IBool b) ∧
     result (get (with_configuration c sp) stokes s') ≠ Ok r).
Proof.
  intros Hinit. split.
  - intros f0 f1 u Hlt Hu c. unfold c.
    rewrite set_frequency_range_stored by done.
    split; [reflexivity|]. intros Hget.
    apply get_returns_selection in Hget as (freqs & times & d & Hsel).
    destruct (select_data_inversion s' _ freqs times d Hsel)
      as (tmin & tmax & bmin & bmax & start_min & start_max & g0 & g1 & v
          & factor & b & range & _ & _ & _ & _ & _ & _ & _ & _ & Hfr
          & Hfactor & _).
    cbn [with_configuration configuration with_frequency_range
         _frequency_range] in Hfr.
    injection Hfr as <- <- <-. congruence.
  - intros b Hset c. unfold c. rewrite set_beam_bool_ok by done.
    split; [reflexivity|]. intros Hget.
    apply get_returns_selection in Hget as (freqs & times & d & Hsel).
    destruct (select_data_inversion s' _ freqs times d Hsel)
      as (tmin & tmax & bmin & bmax & start_min & start_max & g0 & g1 & v
          & factor & b' & range & _ & _ & _ & _ & _ & _ & _ & _ & _ & _
          & Hb & Hkey & _).
    cbn [with_configuration configuration with_beam _beam beam_indices_dict]
      in Hb, Hkey.
    injection Hb as <-.
    destruct (spectra_init_inversion s file sp Hinit)
      as (b0 & rest & beams & _ & _ & _ & _ & Hbeams & _
          & t_first & t_last & f_first & f_last & _ & _ & _ & _ & _ & _ & ->).
    cbn [beam_indices_dict] in Hkey.
    apply dict_get_key in Hkey.
    destruct (parsed_keys _ _ _ Hbeams Hkey) as (z & Hz & _).
    destruct b; discriminate Hz.
Qed.

End NoReturn.

Lemma frequency_bounds_never_return_witness :
  ∃ sp, spaced_spectra = Some sp ∧
        @Spectra_frequency_min spec_utils () sp ()
        = Run () [] (Raise AttributeError).
Proof.
  eexists. split; [reflexivity|].
  match goal with
  | |- Spectra_frequency_min ?sp _ = _ =>
      destruct (frequency_bounds_never_return (H := spec_utils)
                  (H0 := iso_time) () sp)
        as (Hattr & _)
  end.
  apply Hattr. discriminate.
Defined.

Lemma stored_values_block_queries_witness :
  ∃ sp, result (@Spectra_init spec_utils iso_time () demo_file ()) = Ok sp ∧
        ∀ r, result (get (with_configuration
                            (final (set_frequency_range
                                      (PQuantity [1; 2]%Q second)
                                      (configuration sp))) sp)
                         (PStr "I") ())
             ≠ Ok r.
Proof.
  pose proof (eq_refl : match result (@Spectra_init spec_utils iso_time ()
                                        demo_file ()) with
                        | Ok _ => true
                        | Raise _ => false
                        end = true) as Hok.
  destruct (result (@Spectra_init spec_utils iso_time () demo_file ()))
    as [sp|e] eqn:Hres; [|discriminate Hok].
  exists sp. split; [reflexivity|]. intros r.
  destruct (stored_values_block_queries (H := spec_utils) (H0 := iso_time)
              () () demo_file sp (PStr "I") r Hres) as [Hfreq _].
  apply (Hfreq 1 2 second)%Q; reflexivity.
Defined.

(** ** Files that cannot be opened *)

Section Refused.

Context `{TfUtils} `{AstropyTime}.

(** X18. Files the constructor refuses.  An empty file has no first
    header ([ValueError]); a first header with a negative number of
    samples per block, of channels or of subbands (the absolute value
    of the least [int32] is negative) gives no block layout
    ([ValueError]); and a file whose blocks are all flagged by the
    validity mask is read and then refused at the start time of its
    first valid block ([IndexError]). *)
Theorem open_refused {St} (s : St) :
  result (Spectra_init [] s) = Raise ValueError ∧
  (∀ block0 rest,
     nffte (header block0) < 0 ∨ fftlen (header block0) < 0 ∨
     np_abs_int32 (nbchan (header block0)) < 0 →
     result (Spectra_init (block0 :: rest) s) = Raise ValueError) ∧
  (∀ block0 rest,
     0 <= nffte (header block0) → 0 <= fftlen (header block0) →
     0 <= np_abs_int32 (nbchan (header block0)) →
     valid_blocks (block0 :: rest) = [] →
     result (Spectra_init (block0 :: rest) s) = Raise IndexError).
Proof.
  split; [reflexivity|]. split.
  - intros b0 rest Hneg. unfold Spectra_init.
    rewrite result_bind. cbn [log result final].
    rewrite result_bind.
    assert (Hload : result (_lazy_load_data (b0 :: rest) s)
                    = Raise ValueError).
    { unfold _lazy_load_data.
      cbn [decode_parameters _n_time_per_block n_channels n_subbands].
      destruct (_ || _) eqn:Hdims; [reflexivity|].
      apply orb_false_iff in Hdims as [H1 H2]. apply Z.ltb_ge in H1, H2.
      rewrite result_bind. cbn [log result final].
      rewrite (proj2 (Z.ltb_lt _ _)) by lia. reflexivity. }
    by rewrite Hload.
  - intros b0 rest H1 H2 H3 Hnone.
    assert (Hload : ∀ s0 : St,
              _lazy_load_data (b0 :: rest) s0
              = Run s0 [(INFO, "file has been correctly parsed.")]
                    (Ok (decode_parameters (header b0), b0 :: rest))).
    { intros s0. unfold _lazy_load_data.
      cbn [decode_parameters _n_time_per_block n_channels n_subbands].
      rewrite (proj2 (Z.ltb_ge _ _) H1), (proj2 (Z.ltb_ge _ _) H2),
        (proj2 (Z.ltb_ge _ _) H3).
      reflexivity. }
    unfold Spectra_init.
    rewrite result_bind. cbn [log result final].
    rewrite result_bind, Hload. cbn [result final].
    destruct (bad_data_mask_run s b0 rest) as [mlogs Hmask].
    rewrite result_bind, Hmask. cbn [result final].
    fold (valid_blocks (b0 :: rest)). rewrite Hnone.
    rewrite result_bind.
    cbn [first_item head expect mret M_ret m_ret result final].
    rewrite result_bind. cbn [log result final].
    rewrite result_bind. reflexivity.
Qed.

End Refused.

(** ** The empty selection *)

Lemma getitem_run {St A} (s : St) (xs : list A) (i : Z) (x : A) :
  0 <= i → xs !! Z.to_nat i = Some x → getitem xs i s = Run s [] (Ok x).
Proof.
  intros Hi Hx. unfold getitem. rewrite (proj2 (Z.ltb_ge i 0)) by lia.
  pose proof (lookup_lt_Some _ _ _ Hx) as Hlt.
  rewrite (proj2 (Z.leb_le 0 i)) by lia.
  rewrite (proj2 (Z.ltb_lt i _)) by lia.
  cbn [andb]. by rewrite Hx.
Qed.

Section EmptySelection.

Context `{TfUtils}.

(** X19. Whenever the two ends of the time range resolve to the same
    sample index, the numbers of samples per block, the two block
    indices and the two indices within the blocks all fitting a signed
    32-bit integer, [_select_data] returns [None] after the warning of
    an empty selection, its last log record, and [get] raises
    [TypeError] at the unpacking of that value, whatever the Stokes
    argument and the rest of the configuration. *)
Theorem empty_selection_raises {St} (s : St) (self : Spectra)
  (tmin tmax : Q) (bmin bmax : Z) (start_min start_max : Q) :
  let p := parameters self in
  let n := _n_time_per_block p in
  let starts := _block_start_unix self in
  let imin := np_round ((tmin - start_min) / dt p) in
  let imax := np_round ((tmax - start_max) / dt p) in
  _time_range (configuration self) = Some (tmin, tmax) →
  result (nearest_index starts tmin s) = Ok bmin →
  result (nearest_index starts tmax s) = Ok bmax →
  starts !! Z.to_nat bmin = Some start_min →
  starts !! Z.to_nat bmax = Some start_max →
  ¬ (dt p == 0)%Q →
  in_int32 n → in_int32 bmin → in_int32 bmax →
  in_int32 imin → in_int32 imax →
  bmin * n + imin = bmax * n + imax →
  ∃ logs,
    _select_data self s = Run s logs (Ok None) ∧
    last logs = Some (WARNING, "Time selection leads to empty dataset.") ∧
    ∀ stokes, get self stokes s = Run s logs (Raise TypeError).
Proof.
  intros p n starts imin imax Htr Hbmin Hbmax Hsmin Hsmax Hdt
    _ _ _ _ _ Heq.
  unfold imin, imax in Heq. clear imin imax.
  apply nearest_index_inv in Hbmin as [Hbmin Hbmin_range].
  apply nearest_index_inv in Hbmax as [Hbmax Hbmax_range].
  assert (Hsel : ∃ logs,
            _select_data self s = Run s logs (Ok None) ∧
            last logs
            = Some (WARNING, "Time selection leads to empty dataset.")).
  { eexists. split.
    - unfold _select_data. fold p n starts. rewrite Htr.
      eapply bind_run; [reflexivity|].
      eapply bind_run; [reflexivity|]. cbv beta iota.
      eapply bind_run; [apply Hbmin|].
      eapply bind_run; [apply Hbmax|].
      eapply bind_run; [apply getitem_run; [lia|exact Hsmin]|].
      eapply bind_run; [apply float_div_to_int_run; exact Hdt|].
      eapply bind_run; [apply getitem_run; [lia|exact Hsmax]|].
      eapply bind_run; [apply float_div_to_int_run; exact Hdt|].
      rewrite (proj2 (Z.eqb_eq _ _) Heq).
      eapply bind_run; reflexivity.
    - reflexivity. }
  destruct Hsel as (logs & Hrun & Hlast).
  exists logs. split; [exact Hrun|]. split; [exact Hlast|].
  intros stokes. by apply get_select_none.
Qed.

End EmptySelection.

Lemma empty_selection_raises_witness :
  ∃ sp,
    spaced_spectra = Some sp ∧
    ∃ logs,
      get (with_configuration
             (with_time_range (1000, 1000 + (1 # 1000000))%Q
                              (configuration sp))
             sp)
          (PStr "I") ()
      = Run () logs (Raise TypeError).
Proof.
  eexists. split; [reflexivity|].
  match goal with
  | |- ∃ logs, get ?self _ _ = _ =>
      destruct (empty_selection_raises (H := spec_utils) () self
                  1000 (1000 + (1 # 1000000)) 0 0
                  (390625000 # 390625) (390625000 # 390625))%Q
        as (logs & _ & _ & Hget);
        [reflexivity | reflexivity | reflexivity | reflexivity | reflexivity
        | discriminate
        | vm_compute; split; [discriminate | reflexivity]
        | vm_compute; split; [discriminate | reflexivity]
        | vm_compute; split; [discriminate | reflexivity]
        | vm_compute; split; [discriminate | reflexivity]
        | vm_compute; split; [discriminate | reflexivity]
        | reflexivity |]
  end.
  exists logs. apply Hget.
Defined.

(** ** Both rebinnings *)

Lemma rebinned_pols (data : cube3) :
  cube3_wf data → 1 <= n_times (tf data) → 1 <= n_freqs (tf data) →
  0 <= n_pols data.
Proof.
  intros [(Hnt & _ & Hrows) Hpols] Ht Hf.
  destruct (items (tf data)) as [|row rows] eqn:Hitems;
    [cbn in Hnt; lia|].
  apply Forall_cons in Hrows as [Hrow _].
  apply Forall_cons in Hpols as [Hpol _].
  destruct row as [|v row]; [cbn in Hrow; lia|].
  apply Forall_cons in Hpol as [Hv _]. lia.
Qed.

Lemma time_rebin_wf (data : cube3) (n k m : nat) :
  0 <= n_freqs (tf data) → 0 <= n_pols data →
  cube3_wf
    (Cube3 (Cube (Z.of_nat n) (n_freqs (tf data))
              (map (nanmean_rows (n_freqs (tf data)) (n_pols data))
                   (chunks n k (take m (items (tf data))))))
           (n_pols data)).
Proof.
  intros Hnf Hnp. split; [split; [|split]|]; cbn [tf items n_times n_freqs n_pols].
  - by rewrite length_map, length_chunks.
  - exact Hnf.
  - apply Forall_forall. intros row Hrow.
    apply list_elem_of_In, in_map_iff in Hrow as (g & <- & _).
    unfold nanmean_rows. rewrite length_map, length_seq. lia.
  - apply Forall_forall. intros row Hrow.
    apply list_elem_of_In, in_map_iff in Hrow as (g & <- & _).
    apply Forall_forall. intros v Hv. unfold nanmean_rows in Hv.
    apply list_elem_of_In, in_map_iff in Hv as (f & <- & _).
    rewrite length_map, length_seq. lia.
Qed.

Lemma frequency_rebin_wf (data : cube3) (n k m : nat) :
  Z.of_nat (length (items (tf data))) = n_times (tf data) →
  0 <= n_pols data →
  cube3_wf
    (Cube3 (Cube (n_times (tf data)) (Z.of_nat n)
              (map (λ row,
                      map (nanmean_vectors (n_pols data))
                          (chunks n k (take m row)))
                   (items (tf data))))
           (n_pols data)).
Proof.
  intros Hnt Hnp. split; [split; [|split]|]; cbn [tf items n_times n_freqs n_pols].
  - by rewrite length_map.
  - lia.
  - apply Forall_forall. intros row Hrow.
    apply list_elem_of_In, in_map_iff in Hrow as (g & <- & _).
    by rewrite length_map, length_chunks.
  - apply Forall_forall. intros row Hrow.
    apply list_elem_of_In, in_map_iff in Hrow as (g & <- & _).
    apply Forall_forall. intros v Hv.
    apply list_elem_of_In, in_map_iff in Hv as (f & <- & _).
    unfold nanmean_vectors. rewrite length_map, length_seq. lia.
Qed.

(** X20. Both rebinnings together.  The targets are [Quantity] values
    [vt], in a time unit of factor [kt] to seconds, and [vf], in a
    frequency unit of factor [kf] to hertz; the numbers [Bt] of samples
    and [Bf] of channels asked per bin are the ratios to the steps,
    floored in the units given, then multiplied by [kt] and [kf] and
    truncated.  On well-formed data of [Nt] time samples and [Nf]
    frequencies, with as many times and frequencies, steps other than
    0, and [Bt] and [Bf] each at least 1 and at most the length of its
    axis, [_time_frequency_rebin] returns well-formed data of shape
    [(Nt div Bt, Nf div Bf, n_pols)] together with as many times and
    frequencies: the frequency rebinning runs on the data rebinned in
    time, and the number of polarizations is unchanged. *)
Theorem rebin_both_shape {St} (s : St) (p : file_parameters)
  (c : _ProcessingConfiguration) (data : cube3) (times freqs : list fval)
  (vt kt vf kf d : Q) (ut uf : unit_) (Nt Nf Bt Bf : Z) :
  cube3_wf data →
  n_times (tf data) = Nt → Z.of_nat (length times) = Nt →
  n_freqs (tf data) = Nf → Z.of_nat (length freqs) = Nf →
  rebin_dt c = Some (vt, ut) → rebin_df c = Some (vf, uf) →
  ¬ (dt p == 0)%Q → to_second ut = Some kt →
  Qtrunc (inject_Z (Qfloor (vt / dt p)) * kt) = Bt → 1 <= Bt <= Nt →
  df p = Some d → ¬ (d == 0)%Q → to_Hz uf = Some kf →
  Qtrunc (inject_Z (Qfloor (vf / d)) * kf) = Bf → 1 <= Bf <= Nf →
  ∃ logs out times' freqs',
    _time_frequency_rebin p c data times freqs s
    = Run s logs (Ok (freqs', times', out)) ∧
    cube3_wf out ∧
    n_times (tf out) = Nt / Bt ∧
    n_freqs (tf out) = Nf / Bf ∧
    n_pols out = n_pols data ∧
    Z.of_nat (length times') = Nt / Bt ∧
    Z.of_nat (length freqs') = Nf / Bf.
Proof.
  intros Hwf HNt Htimes HNf Hfreqs Hcdt Hcdf Hdt Hut HBt HBtN Hdf Hd Huf HBf
    HBfN.
  pose proof (rebinned_pols data Hwf ltac:(lia) ltac:(lia)) as Hnp.
  pose proof (time_rebin_run s p vt kt ut data times Nt Bt
                Hwf HNt Htimes Hdt Hut HBt HBtN) as Htrun.
  cbv zeta in Htrun.
  destruct (rebin_arithmetic Nt Bt HBtN) as (Hn & Hl & Hk & Hnk & HlN).
  destruct (rebin_arithmetic Nf Bf HBfN) as (Hn' & Hl' & Hk' & Hnk' & HlN').
  cbv zeta in Hn, Hl, Hk, Hnk, HlN, Hn', Hl', Hk', Hnk', HlN'.
  set (out1 := Cube3 (Cube (Nt / Bt) (n_freqs (tf data)) _) (n_pols data))
    in Htrun.
  assert (Hwf1 : cube3_wf out1).
  { unfold out1. rewrite <- (Z2Nat.id (Nt / Bt)) at 1 by lia.
    apply time_rebin_wf; [|exact Hnp]. destruct Hwf as [(_ & Hnf & _) _].
    exact Hnf. }
  pose proof (frequency_rebin_run s p vf kf d uf out1 freqs Nf Bf
                Hwf1 HNf Hfreqs Hdf Hd Huf HBf HBfN) as Hfrun.
  cbv zeta in Hfrun.
  eexists _, _, _, _. split.
  { unfold _time_frequency_rebin. rewrite Hcdt, Hcdf.
    eapply bind_run; [exact Htrun|]. cbv beta iota.
    eapply bind_run; [exact Hfrun|]. reflexivity. }
  split.
  { rewrite <- (Z2Nat.id (Nf / Bf)) at 1 by lia.
    apply (frequency_rebin_wf out1); [|exact Hnp].
    destruct Hwf1 as [(Hnt1 & _) _]. exact Hnt1. }
  cbn [tf n_times n_freqs n_pols out1].
  split; [reflexivity|]. split; [reflexivity|]. split; [reflexivity|].
  split; rewrite length_map, length_chunks; lia.
Qed.

Lemma rebin_both_shape_witness :
  ∃ logs out times' freqs',
    _time_frequency_rebin demo_parameters
      (ProcessingConfiguration [0] 0 10 19531250 19921875
         (Some (0, 10)%Q) (Some (19531250, 19921875, Hz)%Q) (Some (IInt 0))
         None None (Some (96 # 3125, millisecond)) (Some (390625 # 2, Hz))
         false (None, None, None) true (Some (EdgeBoth (IInt 0))))
      (Cube3 (Cube 10 4 (replicate 10 [[Val 1]; [Val 2]; [Val 3]; [Val 4]])) 1)
      ten_times [Val 10; Val 20; Val 30; Val 40] ()
    = Run () logs (Ok (freqs', times', out)) ∧
    n_times (tf out) = 3 ∧ n_freqs (tf out) = 2.
Proof.
  assert (Hwf : cube3_wf
            (Cube3 (Cube 10 4
                      (replicate 10 [[Val 1]; [Val 2]; [Val 3]; [Val 4]])) 1)).
  { repeat split; [simpl; lia | repeat constructor | repeat constructor]. }
  destruct (rebin_both_shape () demo_parameters
              (ProcessingConfiguration [0] 0 10 19531250 19921875
                 (Some (0, 10)%Q) (Some (19531250, 19921875, Hz)%Q)
                 (Some (IInt 0))
                 None None (Some (96 # 3125, millisecond))
                 (Some (390625 # 2, Hz))
                 false (None, None, None) true (Some (EdgeBoth (IInt 0))))
              _ ten_times [Val 10; Val 20; Val 30; Val 40]
              (96 # 3125) (1 # 1000) (390625 # 2) 1 (390625 # 4)
              millisecond Hz 10 4 3 2 Hwf)
    as (logs & out & times' & freqs' & Hrun & _ & Hnt & Hnf & _);
    [reflexivity | reflexivity | reflexivity | reflexivity | reflexivity
    | reflexivity | discriminate | reflexivity | reflexivity | lia
    | reflexivity | discriminate | reflexivity | reflexivity | lia |].
  exists logs, out, times', freqs'. split; [exact Hrun|].
  split; [exact Hnt | exact Hnf].
Defined.
